(** * BGZF block codec of Bio/Sequencing/SamBam/bgzf.py

    A shallow embedding of the module (Python 2): virtual offsets, the block
    decoder [_load_bgzf_block], the generator [BgzfBlocks], and the classes
    [BgzfReader] and [BgzfWriter].

    - Python integers are [Z]; [str] values (byte strings) are [list byte].
    - An instance is its attribute dictionary, a [gmap string value]; reading
      an attribute that was never assigned raises [AttributeError].
    - A computation is a function from the state it mutates to an [outcome];
      a raised exception keeps the state as mutated so far, as in Python.
    - The file object and the zlib library are collaborators of the module:
      the file object is an in-memory file, zlib is a record of functions. *)

From Stdlib Require Import ZArith List Lia Bool Ascii.
From stdpp Require Import gmap strings.
From coqutil Require Import Byte Word.LittleEndianList.
Import ListNotations.
Local Open Scope Z_scope.

(** ** Exceptions and outcomes *)

Inductive exn : Type :=
| StopIteration
| ValueError (msg : string)
| AssertionError (msg : string)
| AttributeError (name : string)
| NotImplementedError (msg : string)
| TypeError
| IOError
| StructError
| ZlibError.

(** Result of a pure function that may raise. *)
Inductive res (A : Type) : Type :=
| Val (a : A)
| Exc (e : exn).
Arguments Val {A} a.
Arguments Exc {A} e.

(** Result of a computation over a mutable state [St]. [OutOfFuel] is not a
    Python outcome: it marks a loop bound of the embedding that was too
    small, and is shown never to occur for the bounds the embedding computes. *)
Inductive outcome (St A : Type) : Type :=
| Ok (a : A) (s : St)
| Raise (e : exn) (s : St)
| OutOfFuel.
Arguments Ok {St A} a s.
Arguments Raise {St A} e s.
Arguments OutOfFuel {St A}.

Definition M (St A : Type) : Type := St -> outcome St A.

Definition ret {St A} (a : A) : M St A := fun s => Ok a s.
Definition raise {St A} (e : exn) : M St A := fun s => Raise e s.
Definition out_of_fuel {St A} : M St A := fun _ => OutOfFuel.

Definition bind {St A B} (m : M St A) (k : A -> M St B) : M St B :=
  fun s =>
    match m s with
    | Ok a s' => k a s'
    | Raise e s' => Raise e s'
    | OutOfFuel => OutOfFuel
    end.

Definition lift {St A} (r : res A) : M St A :=
  fun s => match r with Val a => Ok a s | Exc e => Raise e s end.

(** [assert cond, msg] *)
Definition assert {St} (cond : bool) (msg : string) : M St unit :=
  if cond then ret tt else raise (AssertionError msg).

Declare Scope py_scope.
Delimit Scope py_scope with py.
Notation "x <- m ;; k" := (bind m (fun x => k))
  (at level 100, m at next level, right associativity) : py_scope.
Notation "m ;; k" := (bind m (fun _ => k))
  (at level 100, right associativity) : py_scope.
Local Open Scope py_scope.

(** ** Byte strings *)

Abbreviation bytes := (list byte).

Definition len {A} (l : list A) : Z := Z.of_nat (length l).

Definition byte_eq_dec : EqDecision byte := fun a b =>
  match Byte.eqb a b as c return Byte.eqb a b = c -> {a = b} + {a <> b} with
  | true => fun E => left (Byte.byte_dec_bl a b E)
  | false => fun E =>
      right (fun H : a = b =>
               Bool.diff_false_true (eq_trans (eq_sym E) (Byte.byte_dec_lb H)))
  end eq_refl.

#[global] Existing Instance byte_eq_dec.

(** Python slicing [s[i:j]] with integer bounds: a negative bound counts
    from the end, and bounds are clamped to the string. *)
Definition clamp_index (n i : Z) : Z :=
  if i <? 0 then Z.max 0 (i + n) else Z.min i n.

Definition slice {A} (s : list A) (i j : Z) : list A :=
  let a := clamp_index (len s) i in
  let b := clamp_index (len s) j in
  firstn (Z.to_nat (b - a)) (skipn (Z.to_nat a) s).

(** [s[:j]] and [s[i:]] for a non-negative constant bound. *)
Definition slice_to {A} (s : list A) (j : Z) : list A := firstn (Z.to_nat j) s.
Definition slice_from {A} (s : list A) (i : Z) : list A := skipn (Z.to_nat i) s.

(** ** The struct module (Python 2.7: a value out of range raises
    struct.error, as does a string of the wrong length) *)

Module struct.

(** [struct.pack("<H", v)] *)
Definition pack_H (v : Z) : res bytes :=
  if (0 <=? v) && (v <=? 65535) then Val (le_split 2 v) else Exc StructError.

(** [struct.pack("<I", v)] *)
Definition pack_I (v : Z) : res bytes :=
  if (0 <=? v) && (v <=? 4294967295) then Val (le_split 4 v) else Exc StructError.

(** [struct.pack("<i", v)] (two's complement) *)
Definition pack_i (v : Z) : res bytes :=
  if (-2147483648 <=? v) && (v <=? 2147483647) then Val (le_split 4 v)
  else Exc StructError.

(** [struct.unpack("<H", s)[0]] *)
Definition unpack_H (s : bytes) : res Z :=
  if len s =? 2 then Val (le_combine s) else Exc StructError.

(** [struct.unpack("<I", s)[0]] *)
Definition unpack_I (s : bytes) : res Z :=
  if len s =? 4 then Val (le_combine s) else Exc StructError.

End struct.

(** ** File objects

    An in-memory binary file: its bytes, the position of the next read or
    write, and whether it was closed. *)

Record file : Type := mkFile {
  content : bytes;
  pos : nat;
  closed : bool
}.

Module File.

Definition closed_msg : string := "I/O operation on closed file".

(** The bytes from the current position to the end of the file. *)
Definition remaining (f : file) : bytes := skipn (pos f) (content f).

Definition tell : M file Z :=
  fun f =>
    if closed f then Raise (ValueError closed_msg) f else Ok (Z.of_nat (pos f)) f.

(** [read(n)]: up to [n] bytes, fewer at the end of the file; a negative
    [n] reads everything that is left. *)
Definition read (n : Z) : M file bytes :=
  fun f =>
    if closed f then Raise (ValueError closed_msg) f
    else
      let data := if n <? 0 then remaining f
                  else firstn (Z.to_nat n) (remaining f) in
      Ok data (mkFile (content f) (pos f + length data) false).

(** [seek(p)], absolute. *)
Definition seek (p : Z) : M file unit :=
  fun f =>
    if closed f then Raise (ValueError closed_msg) f
    else if p <? 0 then Raise IOError f
    else Ok tt (mkFile (content f) (Z.to_nat p) false).

(** [write(data)] at the current position; a gap past the end of the file
    is filled with zero bytes. *)
Definition write (data : bytes) : M file unit :=
  fun f =>
    if closed f then Raise (ValueError closed_msg) f
    else
      let p := pos f in
      let before := firstn p (content f) ++ repeat Byte.x00 (p - length (content f)) in
      let after := skipn (p + length data) (content f) in
      Ok tt (mkFile (before ++ data ++ after) (p + length data) false).

Definition flush : M file unit :=
  fun f => if closed f then Raise (ValueError closed_msg) f else Ok tt f.

Definition close : M file unit :=
  fun f => Ok tt (mkFile (content f) (pos f) true).

(** A file opened for reading on the given bytes. *)
Definition of_bytes (b : bytes) : file := mkFile b 0 false.

(** A new, empty file opened for writing. *)
Definition empty : file := mkFile [] 0 false.

End File.

(** ** Instances and their attributes *)

Inductive value : Type :=
| VNone
| VInt (n : Z)
| VStr (s : bytes)
| VFile (f : file).

(** An instance is the dictionary of the attributes assigned to it. *)
Abbreviation obj := (gmap string value).

Definition getattr (name : string) : M obj value :=
  fun self =>
    match self !! name with
    | Some v => Ok v self
    | None => Raise (AttributeError name) self
    end.

Definition setattr (name : string) (v : value) : M obj unit :=
  fun self => Ok tt (<[name := v]> self).

Definition as_int (v : value) : res Z :=
  match v with VInt n => Val n | _ => Exc TypeError end.

Definition as_str (v : value) : res bytes :=
  match v with VStr s => Val s | _ => Exc TypeError end.

Definition get_int (name : string) : M obj Z :=
  v <- getattr name ;; lift (as_int v).

Definition get_str (name : string) : M obj bytes :=
  v <- getattr name ;; lift (as_str v).

(** Run file operations on the file object held in attribute [name]. The
    file object is shared by reference, so what the operations did to it stays
    done when they raise. *)
Definition on_file {A} (name : string) (m : M file A) : M obj A :=
  fun self =>
    match self !! name with
    | None => Raise (AttributeError name) self
    | Some (VFile f) =>
        match m f with
        | Ok a f' => Ok a (<[name := VFile f']> self)
        | Raise e f' => Raise e (<[name := VFile f']> self)
        | OutOfFuel => OutOfFuel
        end
    | Some _ => Raise TypeError self
    end.

(** The names a class body defines. An attribute of an instance is found in
    the instance dictionary or among the names of its class. *)
Definition hasattr (class : list string) (self : obj) (name : string) : bool :=
  bool_decide (is_Some (self !! name)) || bool_decide (name ∈ class).

(** ** The zlib library

    - [zlib_compress level block] is [c.compress(block) + c.flush()] for
      [c = zlib.compressobj(level, zlib.DEFLATED, -15, zlib.DEF_MEM_LEVEL, 0)],
      [None] when zlib raises;
    - [zlib_decompress s] is [d.decompress(s) + d.flush()] for
      [d = zlib.decompressobj(-15)], [None] when zlib raises;
    - [zlib_crc32 s] is [zlib.crc32(s)]. *)
Record Zlib : Type := mkZlib {
  zlib_compress : Z -> bytes -> option bytes;
  zlib_decompress : bytes -> option bytes;
  zlib_crc32 : bytes -> Z
}.

Definition or_raise {St A} (o : option A) (e : exn) : M St A :=
  match o with Some a => ret a | None => raise e end.

(** ** Virtual offsets *)

Definition make_virtual_offset (block_start_offset within_block_offset : Z) : res Z :=
  if (within_block_offset <? 0) || (within_block_offset >=? 2 ^ 16) then
    Exc (ValueError "Require 0 <= within_block_offset < 2**16")
  else if (block_start_offset <? 0) || (block_start_offset >=? 2 ^ 28) then
    Exc (ValueError "Require 0 <= block_start_offset < 2**48")
  else
    Val (Z.lor (Z.shiftl block_start_offset 16) within_block_offset).

Definition split_virtual_offset (virtual_offset : Z) : Z * Z :=
  let start := Z.shiftr virtual_offset 16 in
  (start, Z.lxor virtual_offset (Z.shiftl start 16)).

(** ** Decoding a block *)

Definition bgzf_magic : bytes := [Byte.x1f; Byte.x8b; Byte.x08; Byte.x04].
Definition BC : bytes := [Byte.x42; Byte.x43].

Section Decode.
Context (zlib : Zlib).

(** The [while x_len < extra_len] loop of [_load_bgzf_block]; every round
    adds at least 4 to [x_len], so [extra_len] rounds are enough. *)
Fixpoint load_subfields (fuel : nat) (extra_len x_len : Z) (block_size : option Z)
  : M file (Z * option Z) :=
  if x_len <? extra_len then
    match fuel with
    | O => out_of_fuel
    | S fuel' =>
        subfield_id <- File.read 2 ;;
        s <- File.read 2 ;;
        subfield_len <- lift (struct.unpack_H s) ;;
        subfield_data <- File.read subfield_len ;;
        let x_len := x_len + (subfield_len + 4) in
        if decide (subfield_id = BC) then
          assert (subfield_len =? 2) "Wrong BC payload length" ;;
          assert (bool_decide (block_size = None)) "Two BC subfields?" ;;
          v <- lift (struct.unpack_H subfield_data) ;;
          load_subfields fuel' extra_len x_len (Some (v + 1))
        else
          load_subfields fuel' extra_len x_len block_size
    end
  else ret (x_len, block_size).

Definition _load_bgzf_block : M file (Z * Z * bytes) :=
  start_offset <- File.tell ;;
  magic <- File.read 4 ;;
  if decide (magic = []) then raise StopIteration
  else if decide (magic <> bgzf_magic) then
    raise (ValueError "A BGZF (e.g. a BAM file) block should start with 1f 8b 08 04")
  else
    gzip_mod_time <- File.read 4 ;;
    gzip_extra_flags <- File.read 1 ;;
    gzip_os <- File.read 1 ;;
    s <- File.read 2 ;;
    extra_len <- lift (struct.unpack_H s) ;;
    r <- load_subfields (Z.to_nat extra_len) extra_len 0 None ;;
    assert (fst r =? extra_len) "(x_len, extra_len)" ;;
    block_size <- or_raise (snd r) (AssertionError "Missing BC, this isn't a BGZF file!") ;;
    let deflate_size := block_size - 1 - extra_len - 19 in
    s <- File.read deflate_size ;;
    data <- or_raise (zlib_decompress zlib s) ZlibError ;;
    expected_crc <- File.read 4 ;;
    s <- File.read 4 ;;
    expected_size <- lift (struct.unpack_I s) ;;
    assert (expected_size =? len data) "Decompressed to %i, not %i" ;;
    let crc := zlib_crc32 zlib data in
    crc <- lift (if crc <? 0 then struct.pack_i crc else struct.pack_I crc) ;;
    assert (bool_decide (expected_crc = crc)) "CRC is %s, not %s" ;;
    ret (start_offset, block_size, data).

(** The loop [while True: ... = _load_bgzf_block(handle); yield ...] of
    [BgzfBlocks], collecting what it yields. [StopIteration] raised by the
    decoder ends the generator; any other exception reaches the consumer. *)
Fixpoint blocks_loop {A} (yield : Z * Z * bytes -> A) (fuel : nat) : M file (list A) :=
  fun handle =>
    match _load_bgzf_block handle with
    | Ok blk handle' =>
        match fuel with
        | O => OutOfFuel
        | S fuel' =>
            match blocks_loop yield fuel' handle' with
            | Ok rest handle'' => Ok (yield blk :: rest) handle''
            | other => other
            end
        end
    | Raise StopIteration handle' => Ok [] handle'
    | Raise e handle' => Raise e handle'
    | OutOfFuel => OutOfFuel
    end.

(** Every block decoded takes at least the 4 magic bytes off the file. *)
Definition blocks_fuel (handle : file) : nat := length (content handle).

(** Yields [(start_offset, block_length, len(data))] per block. *)
Definition BgzfBlocks : M file (list (Z * Z * Z)) :=
  fun handle =>
    blocks_loop (fun blk => (fst (fst blk), snd (fst blk), len (snd blk)))
      (blocks_fuel handle) handle.

(** A consumer of the stream, not a function of the module: the loop of
    [BgzfBlocks] keeping each payload instead of its length, the payloads
    concatenated in order. *)
Definition decode_all : M file bytes :=
  fun handle =>
    (payloads <- blocks_loop (fun blk => snd blk) (blocks_fuel handle) ;;
     ret (concat payloads)) handle.

End Decode.

(** ** Opening files by name

    [mode.lower()] contains the letter [c]. *)
Definition lower (c : ascii) : ascii :=
  let n := nat_of_ascii c in
  if (65 <=? n)%nat && (n <=? 90)%nat then ascii_of_nat (n + 32) else c.

Definition mode_has (c : ascii) (mode : string) : bool :=
  existsb (Ascii.eqb c) (List.map lower (String.list_ascii_of_string mode)).

(** ** BgzfReader *)

Module BgzfReader.
Section WithLibraries.
Context (zlib : Zlib).
(** [__builtin__.open(filename, mode)] *)
Context (builtin_open : string -> string -> res file).

(** The names defined in the class body. *)
Definition class : list string := ["__init__"; "_load_block"; "tell"; "read"].

Definition _load_block (start_offset : option Z) : M obj unit :=
  _ <- getattr "_handle" ;;
  r <- on_file "_handle"
         ((match start_offset with
           | Some p => if p =? 0 then ret tt else File.seek p
           | None => ret tt
           end) ;;
          _load_bgzf_block zlib) ;;
  setattr "_block_start_offset" (VInt (fst (fst r))) ;;
  setattr "_block_size" (VInt (snd (fst r))) ;;
  setattr "_buffer" (VStr (snd r)) ;;
  setattr "_within_block_offset" (VInt 0).

Definition __init__ (filename mode : option string) (fileobj : option file) : M obj unit :=
  handle <-
    match fileobj with
    | Some f =>
        assert (bool_decide (filename = None) && bool_decide (mode = None)) "" ;;
        ret f
    | None =>
        match mode with
        | None => raise (AttributeError "lower")
        | Some m =>
            if mode_has "w" m || mode_has "a" m then
              raise (ValueError "Must use read mode (default), not write or append mode")
            else
              match filename with
              | None => raise TypeError
              | Some name => lift (builtin_open name m)
              end
        end
    end ;;
  setattr "_handle" (VFile handle) ;;
  _load_block None.

(** Returns a 64-bit unsigned BGZF virtual offset. *)
Definition tell : M obj Z :=
  block_start_offset <- get_int "_block_start_offset" ;;
  within_block_offset <- get_int "_within_block_offset" ;;
  lift (make_virtual_offset block_start_offset within_block_offset).

(** [read(size)], with a bound on the depth of the recursion
    [data + self.read(size - len(data))]. *)
Fixpoint read_bounded (fuel : nat) (size : Z) : M obj bytes :=
  if size <? 0 then
    raise (NotImplementedError "Don't be greedy, that could be massive!")
  else if size =? 0 then ret []
  else
    offset <- get_int "_with_block_offset" ;;
    buffer <- get_str "_buffer" ;;
    if offset + size <? len buffer then
      offset <- get_int "_with_block_offset" ;;
      setattr "_with_block_offset" (VInt (offset + size)) ;;
      buffer <- get_str "_buffer" ;;
      offset <- get_int "_with_block_offset" ;;
      ret (slice buffer (offset - size) offset)
    else
      data <- get_str "_buffer" ;;
      _load_block None ;;
      match fuel with
      | O => out_of_fuel
      | S fuel' =>
          rest <- read_bounded fuel' (size - len data) ;;
          ret (data ++ rest)
      end.

(** Every recursive call comes after a block was loaded, which takes at
    least 4 bytes off the file: the bytes of the file bound the depth. *)
Definition read (size : Z) : M obj bytes :=
  fun self =>
    let fuel := match self !! "_handle" with
                | Some (VFile handle) => length (content handle)
                | _ => O
                end in
    read_bounded fuel size self.

End WithLibraries.
End BgzfReader.

(** ** BgzfWriter *)

Module BgzfWriter.
Section WithLibraries.
Context (zlib : Zlib).
Context (builtin_open : string -> string -> res file).

Definition class : list string :=
  ["__init__"; "_write_block"; "write"; "flush"; "close"; "tell"].

Definition __init__ (filename mode : option string) (fileobj : option file)
    (compresslevel : Z) : M obj unit :=
  handle <-
    match fileobj with
    | Some f =>
        assert (bool_decide (filename = None) && bool_decide (mode = None)) "" ;;
        ret f
    | None =>
        match mode with
        | None => raise (AttributeError "lower")
        | Some m =>
            if negb (mode_has "w" m) && negb (mode_has "a" m) then
              raise (ValueError "Must use write or append mode, not %r")
            else
              match filename with
              | None => raise TypeError
              | Some name => lift (builtin_open name m)
              end
        end
    end ;;
  setattr "_handle" (VFile handle) ;;
  setattr "_buffer" (VStr []) ;;
  setattr "compresslevel" (VInt compresslevel).

(** The 16 fixed bytes: gzip magic, mod time, flag, OS, extra length 6,
    subfield id BC, subfield length 2. *)
Definition block_header : bytes :=
  [Byte.x1f; Byte.x8b; Byte.x08; Byte.x04; Byte.x00; Byte.x00; Byte.x00; Byte.x00;
   Byte.x00; Byte.xff; Byte.x06; Byte.x00; Byte.x42; Byte.x43; Byte.x02; Byte.x00].

Definition _write_block (block : bytes) : M obj unit :=
  start_offset <- on_file "_handle" File.tell ;;
  assert (len block <=? 65536) "" ;;
  compresslevel <- get_int "compresslevel" ;;
  compressed <- or_raise (zlib_compress zlib compresslevel block) ZlibError ;;
  assert (len compressed <? 65536)
    "TODO - Didn't compress enough, try less data in this block" ;;
  let crc := zlib_crc32 zlib block in
  crc <- lift (if crc <? 0 then struct.pack_i crc else struct.pack_I crc) ;;
  bsize <- lift (struct.pack_H (len compressed + 25)) ;;
  crc <- lift (struct.pack_I (Z.land (zlib_crc32 zlib block) 4294967295)) ;;
  uncompressed_length <- lift (struct.pack_I (len block)) ;;
  let data := block_header ++ bsize ++ compressed ++ crc ++ uncompressed_length in
  on_file "_handle" (File.write data).

(** [while len(self._buffer) >= 65536:] writing [self._buffer[:chunk]] and
    keeping [self._buffer[chunk:]]; the buffer loses [chunk > 0] bytes per
    round, so its length bounds the rounds. *)
Fixpoint drain (chunk : Z) (fuel : nat) : M obj unit :=
  buffer <- get_str "_buffer" ;;
  if len buffer >=? 65536 then
    match fuel with
    | O => out_of_fuel
    | S fuel' =>
        buffer <- get_str "_buffer" ;;
        _write_block (slice_to buffer chunk) ;;
        buffer <- get_str "_buffer" ;;
        setattr "_buffer" (VStr (slice_from buffer chunk)) ;;
        drain chunk fuel'
    end
  else ret tt.

Definition write (data : bytes) : M obj unit :=
  let data_len := len data in
  buffer <- get_str "_buffer" ;;
  if len buffer + data_len <? 65536 then
    setattr "_buffer" (VStr (buffer ++ data))
  else
    setattr "_buffer" (VStr (buffer ++ data)) ;;
    drain 65536 (length (buffer ++ data)).

Definition flush : M obj unit :=
  buffer <- get_str "_buffer" ;;
  drain 65535 (length buffer) ;;
  buffer <- get_str "_buffer" ;;
  _write_block buffer ;;
  setattr "_buffer" (VStr []) ;;
  on_file "_handle" File.flush.

Definition close : M obj unit :=
  buffer <- get_str "_buffer" ;;
  (if decide (buffer = []) then ret tt else flush) ;;
  on_file "_handle" File.close.

(** Returns a BGZF 64-bit virtual offset. *)
Definition tell : M obj Z :=
  p <- on_file "handle" File.tell ;;
  buffer <- get_str "_buffer" ;;
  lift (make_virtual_offset p (len buffer)).

End WithLibraries.
End BgzfWriter.

(** ** bgzf_open *)

(** The class of the instance a call returned. *)
Inductive class_of : Type :=
| BgzfReader_instance
| BgzfWriter_instance.

Section Open.
Context (zlib : Zlib).
Context (builtin_open : string -> string -> res file).

(** [bgzf_open(filename, mode)]. The state is the attribute dictionary of
    the instance under construction; the value returned tells its class. *)
Definition bgzf_open (filename mode : string) : M obj class_of :=
  if mode_has "r" mode then
    BgzfReader.__init__ zlib builtin_open (Some filename) (Some mode) None ;;
    ret BgzfReader_instance
  else if mode_has "w" mode || mode_has "a" mode then
    BgzfWriter.__init__ builtin_open (Some filename) (Some mode) None 6 ;;
    ret BgzfWriter_instance
  else raise (ValueError "Bad mode %r").

End Open.

(** ** The script

    [./bgzf.py < example.fastq > example.fastq.bgz]: the body of
    [if __name__ == "__main__":]. Its state is the two streams it writes;
    [sys.stdin] is given by the lines that iterating over it yields. *)

Record streams : Type := mkStreams {
  stdout : file;
  stderr : file
}.

Definition on_stdout {A} (m : M file A) : M streams A :=
  fun sys =>
    match m (stdout sys) with
    | Ok a f => Ok a (mkStreams f (stderr sys))
    | Raise e f => Raise e (mkStreams f (stderr sys))
    | OutOfFuel => OutOfFuel
    end.

Definition on_stderr {A} (m : M file A) : M streams A :=
  fun sys =>
    match m (stderr sys) with
    | Ok a f => Ok a (mkStreams (stdout sys) f)
    | Raise e f => Raise e (mkStreams (stdout sys) f)
    | OutOfFuel => OutOfFuel
    end.

(** The bytes of a string literal. *)
Definition str (s : string) : bytes :=
  List.map byte_of_ascii (String.list_ascii_of_string s).

Definition newline : bytes := [Byte.x0a].

(** [print s] *)
Definition print (s : string) : M streams unit :=
  on_stdout (File.write (str s ++ newline)).

(** [for data in lines: w.write(data)] *)
Fixpoint write_each (zlib : Zlib) (lines : list bytes) : M obj unit :=
  match lines with
  | [] => ret tt
  | data :: rest => BgzfWriter.write zlib data ;; write_each zlib rest
  end.

(** Run the methods of [w = BgzfWriter(fileobj=sys.stdout)]. The attribute
    [w._handle] is [sys.stdout] itself: what the methods did to it has been
    done to [sys.stdout], also when they raise. *)
Definition with_w {A} (builtin_open : string -> string -> res file)
    (methods : M obj A) : M streams A :=
  fun sys =>
    let put (w : obj) : streams :=
      match w !! "_handle" with
      | Some (VFile f) => mkStreams f (stderr sys)
      | _ => sys
      end in
    match (BgzfWriter.__init__ builtin_open None None (Some (stdout sys)) 6 ;; methods) ∅ with
    | Ok a w => Ok a (put w)
    | Raise e w => Raise e (put w)
    | OutOfFuel => OutOfFuel
    end.

Definition __main__ (zlib : Zlib) (builtin_open : string -> string -> res file)
    (argv : list string) (stdin : list bytes) : M streams unit :=
  if len argv >? 1 then
    print "Call this with no arguments and pipe uncompressed data in on stdin" ;;
    print "and it will produce BGZF compressed data on stdout. e.g." ;;
    print "" ;;
    print "./bgzf.py < example.fastq > example.fastq.bgz" ;;
    print "" ;;
    print "The extension convention of *.bgz is to distinugish these from *.gz" ;;
    print "used for standard gzipped files without the block structure of BGZF." ;;
    print "You can use the standard gunzip command to decompress BGZF files," ;;
    print "if it complains about the extension try something like this:" ;;
    print "" ;;
    print "cat example.fastq.bgz | gunzip > example.fastq" ;;
    print "" ;;
    (* sys.exit(0): the script ends here, with the status it has when it
       runs to its end *)
    ret tt
  else
    on_stderr (File.write (str "Producing BGZF output from stdin..." ++ newline)) ;;
    with_w builtin_open
      (write_each zlib stdin ;;
       BgzfWriter.flush zlib ;;
       (* Double flush triggers an empty BGZF block as EOF marker *)
       BgzfWriter.flush zlib ;;
       BgzfWriter.close zlib) ;;
    on_stderr (File.write (str "BGZF data produced" ++ newline)).

(** ** A reference zlib

    An executable instance of [Zlib], used to run the module on concrete
    data: CRC-32 as zlib computes it, and raw DEFLATE (RFC 1951) restricted to
    stored blocks and fixed-Huffman blocks. Level 0 stores the input, as zlib
    does; the other levels emit one fixed-Huffman block whose matches are runs
    of a repeated byte (distance 1). The decoder reads stored and
    fixed-Huffman blocks with any match. *)

Module RefZlib.

(** *** CRC-32 (polynomial 0xEDB88320, reflected) *)

Definition crc_step (crc : Z) : Z :=
  if Z.testbit crc 0 then Z.lxor (Z.shiftr crc 1) 0xEDB88320 else Z.shiftr crc 1.

Definition crc_byte (crc : Z) (b : byte) : Z :=
  Nat.iter 8 crc_step (Z.lxor crc (byte.unsigned b)).

Definition crc32_unsigned (s : bytes) : Z :=
  Z.land (Z.lxor (fold_left crc_byte s 0xFFFFFFFF) 0xFFFFFFFF) 0xFFFFFFFF.

(** Python 2 returns the checksum as a signed 32-bit integer. *)
Definition crc32 (s : bytes) : Z :=
  let c := crc32_unsigned s in
  if c >=? 2 ^ 31 then c - 2 ^ 32 else c.

(** *** Bit streams: each byte gives its bits from the least significant *)

Definition lsb_bits (n : nat) (v : Z) : list bool :=
  List.map (fun i => Z.testbit v (Z.of_nat i)) (seq 0 n).

Definition msb_bits (n : nat) (v : Z) : list bool := rev (lsb_bits n v).

Definition bits_of_bytes (s : bytes) : list bool :=
  flat_map (fun b => lsb_bits 8 (byte.unsigned b)) s.

Fixpoint bytes_of_bits (bits : list bool) (cur k : Z) : bytes :=
  match bits with
  | [] => if k =? 0 then [] else [byte.of_Z cur]
  | b :: rest =>
      let cur := if b then Z.lor cur (Z.shiftl 1 k) else cur in
      if k =? 7 then byte.of_Z cur :: bytes_of_bits rest 0 0
      else bytes_of_bits rest cur (k + 1)
  end.

Fixpoint take_lsb (n : nat) (bits : list bool) : option (Z * list bool) :=
  match n with
  | O => Some (0, bits)
  | S n' =>
      match bits with
      | [] => None
      | b :: rest =>
          match take_lsb n' rest with
          | Some (v, rest') => Some (Z.b2z b + 2 * v, rest')
          | None => None
          end
      end
  end.

Fixpoint take_msb (n : nat) (acc : Z) (bits : list bool) : option (Z * list bool) :=
  match n with
  | O => Some (acc, bits)
  | S n' =>
      match bits with
      | [] => None
      | b :: rest => take_msb n' (2 * acc + Z.b2z b) rest
      end
  end.

(** *** The fixed Huffman code and the length and distance tables *)

Definition lit_code (sym : Z) : list bool :=
  if sym <? 144 then msb_bits 8 (48 + sym)
  else if sym <? 256 then msb_bits 9 (400 + (sym - 144))
  else if sym <? 280 then msb_bits 7 (sym - 256)
  else msb_bits 8 (192 + (sym - 280)).

(** (base, extra bits) of length symbols 257, 258, ... *)
Definition length_table : list (Z * Z) :=
  [(3, 0); (4, 0); (5, 0); (6, 0); (7, 0); (8, 0); (9, 0); (10, 0);
   (11, 1); (13, 1); (15, 1); (17, 1); (19, 2); (23, 2); (27, 2); (31, 2);
   (35, 3); (43, 3); (51, 3); (59, 3); (67, 4); (83, 4); (99, 4); (115, 4);
   (131, 5); (163, 5); (195, 5); (227, 5); (258, 0)].

(** (base, extra bits) of distance codes 0, 1, ... *)
Definition distance_table : list (Z * Z) :=
  [(1, 0); (2, 0); (3, 0); (4, 0); (5, 1); (7, 1); (9, 2); (13, 2);
   (17, 3); (25, 3); (33, 4); (49, 4); (65, 5); (97, 5); (129, 6); (193, 6);
   (257, 7); (385, 7); (513, 8); (769, 8); (1025, 9); (1537, 9);
   (2049, 10); (3073, 10); (4097, 11); (6145, 11); (8193, 12); (12289, 12);
   (16385, 13); (24577, 13)].

(** *** Compression *)

Definition stored_block (final : bool) (s : bytes) : bytes :=
  [if final then Byte.x01 else Byte.x00]
    ++ le_split 2 (len s) ++ le_split 2 (Z.lxor (len s) 65535) ++ s.

Fixpoint deflate_stored_aux (fuel : nat) (s : bytes) : bytes :=
  match fuel with
  | O => stored_block true s
  | S fuel' =>
      if len s <=? 65535 then stored_block true s
      else stored_block false (firstn (Z.to_nat 65535) s)
             ++ deflate_stored_aux fuel' (skipn (Z.to_nat 65535) s)
  end.

Definition deflate_stored (s : bytes) : bytes := deflate_stored_aux (length s) s.

Inductive token : Type :=
| Lit (b : byte)
| Run (length : Z).   (* a match of this length at distance 1 *)

Definition end_run (prev : byte) (run : Z) : list token :=
  if run <? 3 then repeat (Lit prev) (Z.to_nat run) else [Run run].

(** [run] counts the bytes equal to [prev] seen since [prev] was emitted. *)
Fixpoint runs (s : bytes) (prev : byte) (run : Z) : list token :=
  match s with
  | [] => end_run prev run
  | b :: rest =>
      if decide (b = prev) then
        if run =? 257 then Run 258 :: runs rest prev 0
        else runs rest prev (run + 1)
      else end_run prev run ++ Lit b :: runs rest b 0
  end.

Definition tokens (s : bytes) : list token :=
  match s with
  | [] => []
  | b :: rest => Lit b :: runs rest b 0
  end.

(** The last length symbol whose base is at most [l]. *)
Fixpoint length_symbol (table : list (Z * Z)) (sym l : Z) (best : Z * Z * Z)
  : Z * Z * Z :=
  match table with
  | [] => best
  | (base, extra) :: table' =>
      if base <=? l then length_symbol table' (sym + 1) l (sym, base, extra)
      else best
  end.

Definition encode_token (t : token) : list bool :=
  match t with
  | Lit b => lit_code (byte.unsigned b)
  | Run l =>
      let '(sym, base, extra) := length_symbol length_table 257 l (257, 3, 0) in
      lit_code sym ++ lsb_bits (Z.to_nat extra) (l - base) ++ msb_bits 5 0
  end.

Definition deflate_fixed (s : bytes) : bytes :=
  bytes_of_bits
    ([true; true; false] ++ flat_map encode_token (tokens s) ++ lit_code 256) 0 0.

Definition compress (level : Z) (s : bytes) : option bytes :=
  if level =? 0 then Some (deflate_stored s)
  else if (-1 <=? level) && (level <=? 9) then Some (deflate_fixed s)
  else None.

(** *** Decompression *)

Inductive progress : Type :=
| More (bits : list bool) (out : bytes)   (* block ended, output reversed *)
| Truncated (out : bytes)                 (* input ended inside the block *)
| Invalid.

Definition read_symbol (bits : list bool) : option (Z * list bool) :=
  match take_msb 7 0 bits with
  | None => None
  | Some (c7, r7) =>
      if c7 <=? 23 then Some (256 + c7, r7)
      else
        match r7 with
        | [] => None
        | b8 :: r8 =>
            let c8 := 2 * c7 + Z.b2z b8 in
            if c8 <=? 191 then Some (c8 - 48, r8)
            else if c8 <=? 199 then Some (280 + (c8 - 192), r8)
            else
              match r8 with
              | [] => None
              | b9 :: r9 => Some (144 + (2 * c8 + Z.b2z b9 - 400), r9)
              end
        end
  end.

(** Append [n] bytes, each a copy of the byte [dist] back. *)
Fixpoint copy_back (n : nat) (dist : nat) (out : bytes) : option bytes :=
  match n with
  | O => Some out
  | S n' =>
      match nth_error out (dist - 1) with
      | Some b => copy_back n' dist (b :: out)
      | None => None
      end
  end.

Fixpoint inflate_fixed (fuel : nat) (bits : list bool) (out : bytes) : progress :=
  match fuel with
  | O => Truncated out
  | S fuel' =>
      match read_symbol bits with
      | None => Truncated out
      | Some (sym, bits1) =>
          if sym <? 256 then inflate_fixed fuel' bits1 (byte.of_Z sym :: out)
          else if sym =? 256 then More bits1 out
          else
            match nth_error length_table (Z.to_nat (sym - 257)) with
            | None => Invalid
            | Some (lbase, lextra) =>
                match take_lsb (Z.to_nat lextra) bits1 with
                | None => Truncated out
                | Some (lx, bits2) =>
                    match take_msb 5 0 bits2 with
                    | None => Truncated out
                    | Some (dcode, bits3) =>
                        match nth_error distance_table (Z.to_nat dcode) with
                        | None => Invalid
                        | Some (dbase, dextra) =>
                            match take_lsb (Z.to_nat dextra) bits3 with
                            | None => Truncated out
                            | Some (dx, bits4) =>
                                match copy_back (Z.to_nat (lbase + lx))
                                        (Z.to_nat (dbase + dx)) out with
                                | None => Invalid
                                | Some out' => inflate_fixed fuel' bits4 out'
                                end
                            end
                        end
                    end
                end
            end
      end
  end.

Definition inflate_stored (bits : list bool) (out : bytes) : progress :=
  let aligned := skipn (length bits mod 8) bits in
  match take_lsb 16 aligned with
  | None => Truncated out
  | Some (n, bits1) =>
      match take_lsb 16 bits1 with
      | None => Truncated out
      | Some (nn, bits2) =>
          if negb (nn =? Z.lxor n 65535) then Invalid
          else
            let data := firstn (Z.to_nat n) (bytes_of_bits bits2 0 0) in
            if len data <? n then Truncated (rev_append data out)
            else More (skipn (8 * Z.to_nat n) bits2) (rev_append data out)
      end
  end.

Fixpoint inflate_blocks (fuel : nat) (bits : list bool) (out : bytes) : option bytes :=
  match fuel with
  | O => Some (rev_append out [])
  | S fuel' =>
      match bits with
      | final :: t0 :: t1 :: body =>
          let r := match t0, t1 with
                   | false, false => inflate_stored body out
                   | true, false => inflate_fixed (length body) body out
                   | _, _ => Invalid
                   end in
          match r with
          | More bits' out' =>
              if final then Some (rev_append out' []) else inflate_blocks fuel' bits' out'
          | Truncated out' => Some (rev_append out' [])
          | Invalid => None
          end
      | _ => Some (rev_append out [])
      end
  end.

Definition decompress (s : bytes) : option bytes :=
  let bits := bits_of_bytes s in
  inflate_blocks (length bits) bits [].

Definition lib : Zlib := mkZlib compress decompress crc32.

(** No file system: [open] fails. *)
Definition no_open (filename mode : string) : res file := Exc IOError.

End RefZlib.

(** * The vocabulary of the statements *)

(** ** Outcomes of runs *)

(** What a computation raised, if it did. *)
Definition exception {St A} (o : outcome St A) : option exn :=
  match o with Raise e _ => Some e | _ => None end.

Definition succeeded {St A} (o : outcome St A) : bool :=
  match o with Ok _ _ => true | _ => false end.

(** The state a computation left, returning or raising. *)
Definition state_after {St A} (o : outcome St A) : option St :=
  match o with Ok _ s | Raise _ s => Some s | OutOfFuel => None end.

(** Go on with [m] from the state a computation left, also when it raised
    (the caller caught the exception). *)
Definition and_then {St A B} (o : outcome St A) (m : M St B) : outcome St B :=
  match state_after o with Some s => m s | None => OutOfFuel end.

Definition the_state {A} (o : outcome obj A) : obj :=
  match state_after o with Some s => s | None => ∅ end.

(** ** Files *)

(** At the end of the file nothing is left to read. *)
Definition eof (f : file) : Prop := File.remaining f = [].

(** The position is the end of the file, as in a file being written. *)
Definition at_end (f : file) : Prop := pos f = length (content f).

(** [advanced n f f']: [f'] is [f] with the position moved [n] bytes on,
    unless the end of the file was hit on the way. *)
Definition advanced (n : Z) (f f' : file) : Prop :=
  content f' = content f /\ closed f' = closed f /\
  (Z.of_nat (pos f') = Z.of_nat (pos f) + n \/ eof f') /\
  (eof f -> eof f') /\
  (pos f <= pos f')%nat.

(** The eight bytes before the position: CRC32 and length of the block that
    was just read. *)
Definition trailer (f : file) : bytes := firstn 8 (skipn (pos f - 8) (content f)).

(** The blocks listed follow one another: each starts where the one before
    it ended. *)
Fixpoint contiguous (p : Z) (blocks : list (Z * Z * Z)) : Prop :=
  match blocks with
  | [] => True
  | (start, length, _) :: rest => start = p /\ contiguous (start + length) rest
  end.

(** ** Blocks on the wire *)

(** The bytes of a block: the 12-byte header, the 6-byte BC subfield holding
    the size of the block minus 1, the compressed payload, CRC32 and length
    of the payload. *)
Definition framed (compressed : bytes) (crc size : Z) : bytes :=
  BgzfWriter.block_header ++ le_split 2 (len compressed + 25) ++ compressed
    ++ le_split 4 (Z.land crc 4294967295) ++ le_split 4 size.

(** The block of a payload. *)
Definition frame (zlib : Zlib) (compresslevel : Z) (payload : bytes) : bytes :=
  match zlib_compress zlib compresslevel payload with
  | Some compressed => framed compressed (zlib_crc32 zlib payload) (len payload)
  | None => []
  end.

(** The payload can be written as a block and read back: zlib compresses it
    to at most 65510 bytes, decompresses that to the payload again, and
    gives a CRC in the 32-bit range. *)
Definition encodable (zlib : Zlib) (compresslevel : Z) (payload : bytes) : Prop :=
  exists compressed,
    zlib_compress zlib compresslevel payload = Some compressed /\
    len compressed <= 65510 /\
    zlib_decompress zlib compressed = Some payload /\
    -2147483648 <= zlib_crc32 zlib payload <= 4294967295.

(** A decidable form of [encodable]. *)
Definition encodableb (zlib : Zlib) (compresslevel : Z) (payload : bytes) : bool :=
  match zlib_compress zlib compresslevel payload with
  | Some compressed =>
      (len compressed <=? 65510)
      && bool_decide (zlib_decompress zlib compressed = Some payload)
      && (-2147483648 <=? zlib_crc32 zlib payload)
      && (zlib_crc32 zlib payload <=? 4294967295)
  | None => false
  end.

(** The 65536-byte chunks [write] cuts off a buffer, and what it leaves. *)
Fixpoint full_chunks (fuel : nat) (b : bytes) : list bytes * bytes :=
  match fuel with
  | O => ([], b)
  | S fuel' =>
      if len b >=? 65536 then
        let r := full_chunks fuel' (slice_from b 65536) in
        (slice_to b 65536 :: fst r, snd r)
      else ([], b)
  end.

(** The payloads of the blocks that [write(b)] and then [flush()] emit. *)
Definition blocks_of (b : bytes) : list bytes :=
  let r := full_chunks (length b) b in fst r ++ [snd r].

(** ** Readers and writers *)

(** The file object of an instance. *)
Definition handle_of (self : obj) : option file :=
  match self !! "_handle" with Some (VFile f) => Some f | _ => None end.

(** A new writer on [handle], as [__init__] leaves it. *)
Definition writer_on (handle : file) (compresslevel : Z) : obj :=
  <["compresslevel" := VInt compresslevel]>
    (<["_buffer" := VStr []]> (<["_handle" := VFile handle]> ∅)).

(** The state of a writer: its three attributes. *)
Definition writer_state (self : obj) (handle : file) (buffer : bytes) (compresslevel : Z)
  : Prop :=
  self !! "_handle" = Some (VFile handle) /\
  self !! "_buffer" = Some (VStr buffer) /\
  self !! "compresslevel" = Some (VInt compresslevel).

(** [BgzfReader(fileobj=...)] on the given bytes and
    [BgzfWriter(fileobj=..., compresslevel=...)] on an empty file. *)
Definition new_reader (zlib : Zlib) (b : bytes) : outcome obj unit :=
  BgzfReader.__init__ zlib RefZlib.no_open None None (Some (File.of_bytes b)) ∅.

Definition new_writer (compresslevel : Z) : outcome obj unit :=
  BgzfWriter.__init__ RefZlib.no_open None None (Some File.empty) compresslevel ∅.

(** The length of the pending buffer of a writer. *)
Definition buffer_len {A} (o : outcome obj A) : option Z :=
  match state_after o with
  | Some self => match self !! "_buffer" with Some (VStr b) => Some (len b) | _ => None end
  | None => None
  end.

(** The bytes in the file of an instance. *)
Definition sink_of {A} (o : outcome obj A) : option bytes :=
  match state_after o with
  | Some self => option_map content (handle_of self)
  | None => None
  end.

(** What [BgzfBlocks] lists for the file of an instance, read from the start. *)
Definition listing {A} (zlib : Zlib) (o : outcome obj A) : option (list (Z * Z * Z)) :=
  match sink_of o with
  | Some b =>
      match BgzfBlocks zlib (File.of_bytes b) with
      | Ok l _ => Some l
      | _ => None
      end
  | None => None
  end.

(** ** Data *)

Definition zeros (n : Z) : bytes := repeat Byte.x00 (Z.to_nat n).

(** The string "abc". *)
Definition abc : bytes := [Byte.x61; Byte.x62; Byte.x63].

(** The 28 bytes of an empty block, as in the comment of [close]. *)
Definition empty_block : bytes :=
  [Byte.x1f; Byte.x8b; Byte.x08; Byte.x04; Byte.x00; Byte.x00; Byte.x00; Byte.x00;
   Byte.x00; Byte.xff; Byte.x06; Byte.x00; Byte.x42; Byte.x43; Byte.x02; Byte.x00;
   Byte.x1b; Byte.x00; Byte.x03; Byte.x00; Byte.x00; Byte.x00; Byte.x00; Byte.x00;
   Byte.x00; Byte.x00; Byte.x00; Byte.x00].

(** The block of "abc" followed by an empty block. *)
Definition abc_stream : bytes :=
  [Byte.x1f; Byte.x8b; Byte.x08; Byte.x04; Byte.x00; Byte.x00; Byte.x00; Byte.x00;
   Byte.x00; Byte.xff; Byte.x06; Byte.x00; Byte.x42; Byte.x43; Byte.x02; Byte.x00;
   Byte.x1e; Byte.x00; Byte.x4b; Byte.x4c; Byte.x4a; Byte.x06; Byte.x00; Byte.xc2;
   Byte.x41; Byte.x24; Byte.x35; Byte.x03; Byte.x00; Byte.x00; Byte.x00]
  ++ empty_block.

(** ** Reading on *)

(** [f'] is [f] read further: the same bytes, open or closed as before, the
    position not before where it was. *)
Definition read_on (f f' : file) : Prop :=
  content f' = content f /\ closed f' = closed f /\ (pos f <= pos f')%nat.

(** Whatever state [o] leaves, returning or raising, is [f] read further. *)
Definition keeps {A} (f : file) (o : outcome file A) : Prop :=
  forall f', state_after o = Some f' -> read_on f f'.

(** ** The gzip extra field *)

(** A subfield: two bytes of identifier, the length of the data in two
    bytes, the data. *)
Definition subfield (id data : bytes) : bytes := id ++ le_split 2 (len data) ++ data.

(** An extra field made of the subfields [(id, data)] listed. *)
Definition extra_field (l : list (bytes * bytes)) : bytes :=
  concat (List.map (fun x => subfield (fst x) (snd x)) l).

(** A subfield other than BC. *)
Definition foreign (x : bytes * bytes) : Prop :=
  length (fst x) = 2%nat /\ fst x <> BC /\ len (snd x) <= 65535.

(** The size of a gzip member with the subfields [pre], BC and [post]. *)
Definition member_size (pre post : list (bytes * bytes)) (compressed : bytes) : Z :=
  12 + (len (extra_field pre) + 6 + len (extra_field post)) + len compressed + 8.

(** The bytes of such a member: magic, the six bytes of modification time,
    extra flags and operating system, the length of the extra field, the
    extra field, the compressed data, CRC32 and length of the data. *)
Definition member (header : bytes) (pre post : list (bytes * bytes)) (compressed : bytes)
    (crc isize : Z) : bytes :=
  bgzf_magic ++ header
    ++ le_split 2 (len (extra_field pre) + 6 + len (extra_field post))
    ++ extra_field pre
    ++ subfield BC (le_split 2 (member_size pre post compressed - 1))
    ++ extra_field post
    ++ compressed ++ le_split 4 crc ++ le_split 4 isize.

(** ** Listings *)

(** Where the blocks of the payloads listed lie in a file written from
    position [p] on: the start of each block, its size, the payload. *)
Fixpoint layout (zlib : Zlib) (compresslevel : Z) (p : Z) (payloads : list bytes)
  : list (Z * Z * bytes) :=
  match payloads with
  | [] => []
  | x :: rest =>
      (p, len (frame zlib compresslevel x), x)
        :: layout zlib compresslevel (p + len (frame zlib compresslevel x)) rest
  end.

(** What [BgzfBlocks] yields for a block. *)
Definition summary (blk : Z * Z * bytes) : Z * Z * Z :=
  (fst (fst blk), snd (fst blk), len (snd blk)).

(** The sum of the block lengths of a listing. *)
Definition total_size (blocks : list (Z * Z * Z)) : Z :=
  fold_right (fun blk acc => snd (fst blk) + acc) 0 blocks.

(** The exception is not [StopIteration]. *)
Definition never_stops {St A} (o : outcome St A) : Prop :=
  forall s, o <> Raise StopIteration s.

(** ** A reader with a block loaded *)

(** The attributes of a reader after [_load_block]: the handle, the start
    and the size of the block, its data, and the cursor at 0. *)
Definition reader_on (handle : file) (block_start_offset block_size : Z) (buffer : bytes)
  : obj :=
  <["_within_block_offset" := VInt 0]>
    (<["_buffer" := VStr buffer]>
       (<["_block_size" := VInt block_size]>
          (<["_block_start_offset" := VInt block_start_offset]>
             (<["_handle" := VFile handle]> ∅)))).

(** ** Computations that leave the state alone *)

(** Returning or raising, the computation has left the state [s]. *)
Definition stays {St A} (s : St) (o : outcome St A) : Prop :=
  forall s', state_after o = Some s' -> s' = s.


(** ** Files by name *)

(** A file system with one file: [open] gives it for its name, in any
    mode, and raises [IOError] for other names. *)
Definition one_file (name : string) (f : file) : string -> string -> res file :=
  fun filename _ => if String.eqb filename name then Val f else Exc IOError.

(** The file closed. *)
Definition closed_file (f : file) : file := mkFile (content f) (pos f) true.

(** ** The script *)

(** The file with [data] written at its end. *)
Definition appended (f : file) (data : bytes) : file :=
  mkFile (content f ++ data) (pos f + length data) false.

(** The text the script prints when it is given arguments. *)
Definition usage : bytes :=
  concat
    (List.map (fun s => str s ++ newline)
       ["Call this with no arguments and pipe uncompressed data in on stdin";
        "and it will produce BGZF compressed data on stdout. e.g.";
        EmptyString;
        "./bgzf.py < example.fastq > example.fastq.bgz";
        EmptyString;
        "The extension convention of *.bgz is to distinugish these from *.gz";
        "used for standard gzipped files without the block structure of BGZF.";
        "You can use the standard gunzip command to decompress BGZF files,";
        "if it complains about the extension try something like this:";
        EmptyString;
        "cat example.fastq.bgz | gunzip > example.fastq";
        EmptyString]).

(** What the script writes to [sys.stderr] when it compresses. *)
Definition progress_messages : bytes :=
  (str "Producing BGZF output from stdin..." ++ newline)
    ++ (str "BGZF data produced" ++ newline).

(** * Properties *)

(** ** Virtual offsets *)

Lemma make_virtual_offset_Val block_start_offset within_block_offset :
  0 <= within_block_offset < 2 ^ 16 ->
  0 <= block_start_offset < 2 ^ 28 ->
  make_virtual_offset block_start_offset within_block_offset
  = Val (Z.lor (Z.shiftl block_start_offset 16) within_block_offset).
Proof.
  intros Hw Hb. unfold make_virtual_offset.
  destruct (within_block_offset <? 0) eqn:E1; [lia|].
  destruct (within_block_offset >=? 2 ^ 16) eqn:E2; [lia|].
  destruct (block_start_offset <? 0) eqn:E3; [lia|].
  destruct (block_start_offset >=? 2 ^ 28) eqn:E4; [lia|].
  reflexivity.
Qed.

(** The packing arithmetic itself is inverted by [split_virtual_offset] for
    every non-negative block start, whatever its size. *)
Lemma split_packed block_start_offset within_block_offset :
  0 <= within_block_offset < 2 ^ 16 ->
  0 <= block_start_offset ->
  split_virtual_offset (Z.lor (Z.shiftl block_start_offset 16) within_block_offset)
  = (block_start_offset, within_block_offset).
Proof.
  intros Hw Hb. unfold split_virtual_offset.
  assert (Hs : Z.shiftr (Z.lor (Z.shiftl block_start_offset 16) within_block_offset) 16
               = block_start_offset).
  { rewrite Z.shiftr_lor, Z.shiftr_shiftl_l by lia.
    rewrite Z.sub_diag, Z.shiftl_0_r.
    rewrite (Z.shiftr_div_pow2 within_block_offset) by lia.
    rewrite Z.div_small by lia. apply Z.lor_0_r. }
  cbv zeta. rewrite Hs. f_equal.
  apply Z.bits_inj'. intros n Hn.
  rewrite Z.lxor_spec, Z.lor_spec.
  destruct (Z.testbit (Z.shiftl block_start_offset 16) n) eqn:E;
    [|destruct (Z.testbit within_block_offset n); reflexivity].
  destruct (Z.ltb_spec n 16) as [Hlt|Hge].
  - rewrite Z.shiftl_spec_low in E by lia. discriminate.
  - replace (Z.testbit within_block_offset n) with false; [reflexivity|].
    symmetry. destruct (Z.eq_dec within_block_offset 0) as [->|Hne].
    + apply Z.bits_0.
    + apply Z.bits_above_log2; [lia|].
      apply Z.lt_le_trans with 16; [|lia]. apply Z.log2_lt_pow2; lia.
Qed.

(** X4: whenever [make_virtual_offset] returns, [split_virtual_offset]
    gives the block start and the within-block offset back. *)
Lemma split_make_virtual_offset block_start_offset within_block_offset v :
  make_virtual_offset block_start_offset within_block_offset = Val v ->
  split_virtual_offset v = (block_start_offset, within_block_offset).
Proof.
  unfold make_virtual_offset.
  destruct (within_block_offset <? 0) eqn:E1; [discriminate|].
  destruct (within_block_offset >=? 2 ^ 16) eqn:E2; [discriminate|].
  destruct (block_start_offset <? 0) eqn:E3; [discriminate|].
  destruct (block_start_offset >=? 2 ^ 28) eqn:E4; [discriminate|].
  simpl. intros [= <-]. apply split_packed; lia.
Qed.

(** C2: [make_virtual_offset] is claimed to accept every block start below
    2^48. It refuses 2^28, which is in that range, with the message of its
    own 2^48 check; block starts up to 2^28 - 1 are accepted. The docstring
    examples (100000, 10), (2^48, 0) and (0, 2^16) behave as documented. *)
Theorem make_virtual_offset_rejects_2_28 :
  0 <= 2 ^ 28 < 2 ^ 48 /\
  make_virtual_offset (2 ^ 28) 0
    = Exc (ValueError "Require 0 <= block_start_offset < 2**48") /\
  make_virtual_offset (2 ^ 28 - 1) 0 = Val ((2 ^ 28 - 1) * 2 ^ 16) /\
  make_virtual_offset 100000 10 = Val 6553600010 /\
  make_virtual_offset (2 ^ 48) 0
    = Exc (ValueError "Require 0 <= block_start_offset < 2**48") /\
  make_virtual_offset 0 65536
    = Exc (ValueError "Require 0 <= within_block_offset < 2**16").
Proof. repeat split; try lia; reflexivity. Qed.

(** C3: the round trip through [make_virtual_offset] and
    [split_virtual_offset] is claimed for every block start below 2^48. At
    (2^28, 0) packing raises, so nothing is unpacked; were the guard not in
    the way, unpacking would return the pair. *)
Theorem split_make_virtual_offset_fails_2_28 :
  (forall v, make_virtual_offset (2 ^ 28) 0 <> Val v) /\
  split_virtual_offset (Z.lor (Z.shiftl (2 ^ 28) 16) 0) = (2 ^ 28, 0).
Proof. split; [intros v; discriminate | reflexivity]. Qed.

(** ** Computations *)

Section Computations.
Context {St A B : Type}.
Implicit Types (m : M St A) (k : A -> M St B).

Lemma bind_Ok m k s a s' : m s = Ok a s' -> bind m k s = k a s'.
Proof. unfold bind. intros ->. reflexivity. Qed.

Lemma bind_Raise m k s e s' : m s = Raise e s' -> bind m k s = Raise e s'.
Proof. unfold bind. intros ->. reflexivity. Qed.

Lemma bind_inv_Ok m k s b s' :
  bind m k s = Ok b s' -> exists a s1, m s = Ok a s1 /\ k a s1 = Ok b s'.
Proof.
  unfold bind. destruct (m s) as [a s1|e s1|]; try discriminate.
  intros H. exists a, s1. split; [reflexivity | exact H].
Qed.

Lemma bind_not_OutOfFuel m k s :
  m s <> OutOfFuel -> (forall a s1, m s = Ok a s1 -> k a s1 <> OutOfFuel) ->
  bind m k s <> OutOfFuel.
Proof.
  unfold bind. intros Hm Hk. destruct (m s) as [a s1|e s1|]; try congruence.
  apply Hk. reflexivity.
Qed.

Lemma lift_inv_Ok (r : res A) (s : St) a s' :
  lift r s = Ok a s' -> r = Val a /\ s' = s.
Proof. unfold lift. destruct r; intros [= -> ->]; auto. Qed.

Lemma or_raise_inv_Ok (o : option A) e (s : St) a s' :
  or_raise o e s = Ok a s' -> o = Some a /\ s' = s.
Proof. unfold or_raise, ret, raise. destruct o; intros [= -> ->]; auto. Qed.

Lemma lift_not_OutOfFuel (r : res A) (s : St) : lift r s <> OutOfFuel.
Proof. unfold lift. destruct r; discriminate. Qed.

Lemma or_raise_not_OutOfFuel (o : option A) e (s : St) : or_raise o e s <> OutOfFuel.
Proof. unfold or_raise, ret, raise. destruct o; discriminate. Qed.

End Computations.

Lemma Ok_inj {St A} (a a' : A) (s s' : St) : Ok a s = Ok a' s' -> a = a' /\ s = s'.
Proof. intros H. injection H. auto. Qed.

Lemma assert_inv_Ok {St} cond msg (s : St) u s' :
  assert cond msg s = Ok u s' -> cond = true /\ s' = s.
Proof.
  unfold assert, ret, raise. destruct cond; [|discriminate].
  intros H. inversion H. auto.
Qed.

Lemma assert_not_OutOfFuel {St} cond msg (s : St) : assert cond msg s <> OutOfFuel.
Proof. unfold assert, ret, raise. destruct cond; discriminate. Qed.

(** Decompose a hypothesis [H : (x <- m ;; k) s = Ok b s'] one step. *)
Tactic Notation "inv_step" hyp(H) "as" ident(a) ident(s) ident(Hm) :=
  apply bind_inv_Ok in H; destruct H as (a & s & Hm & H).

(** ** File objects *)

Lemma len_nonneg {A} (l : list A) : 0 <= len l.
Proof. unfold len. lia. Qed.

Lemma len_app {A} (l1 l2 : list A) : len (l1 ++ l2) = len l1 + len l2.
Proof. unfold len. rewrite length_app. lia. Qed.

Lemma len_le_split n v : len (le_split n v) = Z.of_nat n.
Proof. unfold len. rewrite length_le_split. reflexivity. Qed.

Lemma firstn_add_skipn {A} (a b : nat) (l : list A) :
  firstn (a + b) l = firstn a l ++ firstn b (skipn a l).
Proof.
  revert l. induction a as [|a IH]; intros l; [reflexivity|].
  destruct l as [|x l]; simpl.
  - rewrite firstn_nil. reflexivity.
  - rewrite IH. reflexivity.
Qed.

Lemma advanced_refl f : advanced 0 f f.
Proof. unfold advanced. repeat split; auto. left. lia. Qed.

Lemma advanced_pos n f f' : advanced n f f' -> (pos f <= pos f')%nat.
Proof. intros (_ & _ & _ & _ & H). exact H. Qed.

Lemma advanced_trans n m f f1 f2 :
  advanced n f f1 -> advanced m f1 f2 -> advanced (n + m) f f2.
Proof.
  intros (Hc1 & Hk1 & Hp1 & He1 & Hm1) (Hc2 & Hk2 & Hp2 & He2 & Hm2).
  unfold advanced. repeat split; try congruence; [|tauto|lia].
  destruct Hp2 as [Hp2|Hp2]; [|tauto].
  destruct Hp1 as [Hp1|Hp1]; [left; lia | tauto].
Qed.

Lemma remaining_after f k :
  File.remaining (mkFile (content f) (pos f + k) false) = skipn k (File.remaining f).
Proof.
  unfold File.remaining. simpl. rewrite skipn_skipn. f_equal. lia.
Qed.

Lemma read_inv n f d f' :
  File.read n f = Ok d f' ->
  closed f = false /\
  d = (if n <? 0 then File.remaining f else firstn (Z.to_nat n) (File.remaining f)) /\
  f' = mkFile (content f) (pos f + length d) false.
Proof.
  unfold File.read. destruct (closed f); [discriminate|].
  intros [= <- <-]. auto.
Qed.

Lemma read_advanced n f d f' :
  File.read n f = Ok d f' ->
  advanced n f f' /\ (eof f -> d = []) /\ pos f' = (pos f + length d)%nat /\ len d <= Z.max n (len d).
Proof.
  intros H. apply read_inv in H. destruct H as (Hc & Hd & ->).
  assert (Hrem : File.remaining (mkFile (content f) (pos f + length d) false)
                 = skipn (length d) (File.remaining f)) by apply remaining_after.
  split; [|split; [|split; [reflexivity | lia]]].
  - unfold advanced, eof. rewrite Hrem. simpl. repeat split; auto.
    + destruct (n <? 0) eqn:En.
      * right. subst d. apply skipn_all.
      * destruct (Nat.le_gt_cases (Z.to_nat n) (length (File.remaining f))) as [Hle|Hgt].
        -- left. subst d. rewrite length_firstn. lia.
        -- right. subst d. rewrite firstn_all2 by lia. apply skipn_all.
    + intros ->. apply skipn_nil.
    + lia.
  - unfold eof. intros He. rewrite He in Hd. subst d.
    destruct (n <? 0); [reflexivity | apply firstn_nil].
Qed.

Lemma tell_inv f p f' :
  File.tell f = Ok p f' -> closed f = false /\ p = Z.of_nat (pos f) /\ f' = f.
Proof. unfold File.tell. destruct (closed f); [discriminate|]. intros [= <- <-]. auto. Qed.

Lemma unpack_H_inv s v : struct.unpack_H s = Val v -> length s = 2%nat /\ v = le_combine s.
Proof.
  unfold struct.unpack_H, len. destruct (Z.eqb_spec (Z.of_nat (length s)) 2); [|discriminate].
  intros [= <-]. split; [lia | reflexivity].
Qed.

Lemma unpack_I_inv s v : struct.unpack_I s = Val v -> length s = 4%nat /\ v = le_combine s.
Proof.
  unfold struct.unpack_I, len. destruct (Z.eqb_spec (Z.of_nat (length s)) 4); [|discriminate].
  intros [= <-]. split; [lia | reflexivity].
Qed.

Lemma le_combine_nonneg s : 0 <= le_combine s.
Proof. pose proof (le_combine_bound s). lia. Qed.

(** Packing a CRC gives the same four bytes, signed or not. *)
Lemma pack_crc_inv crc s :
  (if crc <? 0 then struct.pack_i crc else struct.pack_I crc) = Val s ->
  s = le_split 4 crc /\ -2147483648 <= crc <= 4294967295.
Proof.
  destruct (Z.ltb_spec crc 0) as [Hneg|Hpos].
  - unfold struct.pack_i.
    destruct (Z.leb_spec (-2147483648) crc); simpl; [|discriminate].
    destruct (Z.leb_spec crc 2147483647); simpl; [|discriminate].
    intros [= <-]. split; [reflexivity | lia].
  - unfold struct.pack_I.
    destruct (Z.leb_spec 0 crc); simpl; [|discriminate].
    destruct (Z.leb_spec crc 4294967295); simpl; [|discriminate].
    intros [= <-]. split; [reflexivity | lia].
Qed.

Lemma load_subfields_advanced fuel : forall extra_len x_len block_size f r f',
  load_subfields fuel extra_len x_len block_size f = Ok r f' ->
  advanced (fst r - x_len) f f'.
Proof.
  induction fuel as [|fuel IH]; intros extra_len x_len block_size f r f' H; simpl in H.
  - destruct (x_len <? extra_len); [discriminate|].
    injection H as <- <-. simpl. rewrite Z.sub_diag. apply advanced_refl.
  - destruct (x_len <? extra_len).
    2:{ injection H as <- <-. simpl. rewrite Z.sub_diag. apply advanced_refl. }
    inv_step H as id f1 R1. inv_step H as s f2 R2.
    inv_step H as n f3 U. inv_step H as d f4 R3.
    apply read_advanced in R1 as (A1 & _). apply read_advanced in R2 as (A2 & _).
    apply lift_inv_Ok in U as (_ & ->). apply read_advanced in R3 as (A3 & _).
    assert (Hadv : advanced (n + 4) f f4).
    { replace (n + 4) with (2 + 2 + n) by lia.
      eapply advanced_trans; [eapply advanced_trans|]; eassumption. }
    assert (Hrest : forall bs, load_subfields fuel extra_len (x_len + (n + 4)) bs f4 = Ok r f' ->
                               advanced (fst r - x_len) f f').
    { intros bs Hbs. apply IH in Hbs.
      replace (fst r - x_len) with ((n + 4) + (fst r - (x_len + (n + 4)))) by lia.
      eapply advanced_trans; eassumption. }
    destruct (decide (id = BC)).
    + inv_step H as u1 f5 C1. inv_step H as u2 f6 C2. inv_step H as v f7 C3.
      apply assert_inv_Ok in C1 as (_ & ->). apply assert_inv_Ok in C2 as (_ & ->).
      apply lift_inv_Ok in C3 as (_ & ->). eapply Hrest; eassumption.
    + eapply Hrest; eassumption.
Qed.

Lemma read_not_OutOfFuel n f : File.read n f <> OutOfFuel.
Proof. unfold File.read. destruct (closed f); discriminate. Qed.

Lemma tell_not_OutOfFuel f : File.tell f <> OutOfFuel.
Proof. unfold File.tell. destruct (closed f); discriminate. Qed.

Lemma load_subfields_not_OutOfFuel fuel : forall extra_len x_len block_size f,
  extra_len - x_len <= Z.of_nat fuel ->
  load_subfields fuel extra_len x_len block_size f <> OutOfFuel.
Proof.
  induction fuel as [|fuel IH]; intros extra_len x_len block_size f Hfuel; simpl.
  - destruct (Z.ltb_spec x_len extra_len); [lia | discriminate].
  - destruct (Z.ltb_spec x_len extra_len); [|discriminate].
    apply bind_not_OutOfFuel; [apply read_not_OutOfFuel|]. intros id f1 _.
    apply bind_not_OutOfFuel; [apply read_not_OutOfFuel|]. intros s f2 _.
    apply bind_not_OutOfFuel; [apply lift_not_OutOfFuel|]. intros n f3 U.
    apply lift_inv_Ok in U as (U & _). apply unpack_H_inv in U as (_ & ->).
    pose proof (le_combine_nonneg s).
    apply bind_not_OutOfFuel; [apply read_not_OutOfFuel|]. intros d f4 _.
    destruct (decide (id = BC)).
    + apply bind_not_OutOfFuel; [apply assert_not_OutOfFuel|]. intros u1 f5 _.
      apply bind_not_OutOfFuel; [apply assert_not_OutOfFuel|]. intros u2 f6 _.
      apply bind_not_OutOfFuel; [apply lift_not_OutOfFuel|]. intros v f7 _.
      apply IH. lia.
    + apply IH. lia.
Qed.

Lemma tell_Ok f : closed f = false -> File.tell f = Ok (Z.of_nat (pos f)) f.
Proof. unfold File.tell. intros ->. reflexivity. Qed.

Lemma read_Ok n f :
  closed f = false ->
  File.read n f
  = let data := if n <? 0 then File.remaining f
                else firstn (Z.to_nat n) (File.remaining f) in
    Ok data (mkFile (content f) (pos f + length data) false).
Proof. unfold File.read. intros ->. reflexivity. Qed.

Section DecodeProperties.
Context (zlib : Zlib).

Lemma _load_bgzf_block_not_OutOfFuel f : _load_bgzf_block zlib f <> OutOfFuel.
Proof.
  unfold _load_bgzf_block.
  apply bind_not_OutOfFuel; [apply tell_not_OutOfFuel|]. intros start f1 _.
  apply bind_not_OutOfFuel; [apply read_not_OutOfFuel|]. intros magic f2 _.
  destruct (decide (magic = [])); [discriminate|].
  destruct (decide (magic <> bgzf_magic)); [discriminate|].
  apply bind_not_OutOfFuel; [apply read_not_OutOfFuel|]. intros t1 f3 _.
  apply bind_not_OutOfFuel; [apply read_not_OutOfFuel|]. intros t2 f4 _.
  apply bind_not_OutOfFuel; [apply read_not_OutOfFuel|]. intros t3 f5 _.
  apply bind_not_OutOfFuel; [apply read_not_OutOfFuel|]. intros s f6 _.
  apply bind_not_OutOfFuel; [apply lift_not_OutOfFuel|]. intros e f7 _.
  apply bind_not_OutOfFuel; [apply load_subfields_not_OutOfFuel; lia|]. intros r f8 _.
  apply bind_not_OutOfFuel; [apply assert_not_OutOfFuel|]. intros u1 f9 _.
  apply bind_not_OutOfFuel; [apply or_raise_not_OutOfFuel|]. intros bs f10 _.
  apply bind_not_OutOfFuel; [apply read_not_OutOfFuel|]. intros c f11 _.
  apply bind_not_OutOfFuel; [apply or_raise_not_OutOfFuel|]. intros d f12 _.
  apply bind_not_OutOfFuel; [apply read_not_OutOfFuel|]. intros ec f13 _.
  apply bind_not_OutOfFuel; [apply read_not_OutOfFuel|]. intros s2 f14 _.
  apply bind_not_OutOfFuel; [apply lift_not_OutOfFuel|]. intros es f15 _.
  apply bind_not_OutOfFuel; [apply assert_not_OutOfFuel|]. intros u2 f16 _.
  apply bind_not_OutOfFuel; [apply lift_not_OutOfFuel|]. intros crc f17 _.
  apply bind_not_OutOfFuel; [apply assert_not_OutOfFuel|]. intros u3 f18 _.
  discriminate.
Qed.

Lemma _load_bgzf_block_eof f :
  closed f = false -> eof f -> _load_bgzf_block zlib f = Raise StopIteration f.
Proof.
  intros Hc He. unfold _load_bgzf_block.
  erewrite bind_Ok by (apply tell_Ok; exact Hc).
  erewrite bind_Ok by (apply read_Ok; exact Hc).
  unfold eof in He. rewrite He. simpl.
  destruct f as [c p k]. simpl in *. subst k. unfold raise.
  f_equal. f_equal. lia.
Qed.

Lemma _load_bgzf_block_bad_magic f :
  closed f = false -> ~ eof f -> firstn 4 (File.remaining f) <> bgzf_magic ->
  exists f', _load_bgzf_block zlib f
             = Raise (ValueError "A BGZF (e.g. a BAM file) block should start with 1f 8b 08 04") f'.
Proof.
  intros Hc He Hm. unfold _load_bgzf_block.
  erewrite bind_Ok by (apply tell_Ok; exact Hc).
  erewrite bind_Ok by (apply read_Ok; exact Hc).
  change (4 <? 0) with false. cbv iota.
  change (Z.to_nat 4) with 4%nat.
  destruct (decide (firstn 4 (File.remaining f) = [])) as [E|_].
  { exfalso. apply He. unfold eof. destruct (File.remaining f); [reflexivity | discriminate]. }
  destruct (decide (firstn 4 (File.remaining f) <> bgzf_magic)) as [_|E]; [|tauto].
  eexists. reflexivity.
Qed.

Lemma _load_bgzf_block_inv f start block_size data f' :
  _load_bgzf_block zlib f = Ok (start, block_size, data) f' ->
  closed f = false /\ start = Z.of_nat (pos f) /\
  firstn 4 (File.remaining f) = bgzf_magic /\
  content f' = content f /\ closed f' = false /\
  Z.of_nat (pos f') = start + block_size /\
  trailer f' = le_split 4 (zlib_crc32 zlib data) ++ le_split 4 (len data) /\
  len data < 2 ^ 32 /\
  (pos f + 4 <= pos f')%nat.
Proof.
  unfold _load_bgzf_block. intros H.
  inv_step H as st f1 T. apply tell_inv in T as (Hc & -> & ->).
  inv_step H as magic f2 R0.
  destruct (decide (magic = [])); [discriminate|].
  destruct (decide (magic <> bgzf_magic)) as [|Hmagic]; [discriminate|].
  apply dec_stable in Hmagic.
  inv_step H as t1 f3 R1. inv_step H as t2 f4 R2. inv_step H as t3 f5 R3.
  inv_step H as s f6 R4. inv_step H as e f7 U1.
  inv_step H as r f8 L. inv_step H as u1 f9 A1. inv_step H as bs f10 B.
  inv_step H as c f11 R5. inv_step H as d f12 D. inv_step H as ec f13 R6.
  inv_step H as s2 f14 R7. inv_step H as es f15 U2. inv_step H as u2 f16 A2.
  inv_step H as crc f17 P. inv_step H as u3 f18 A3.
  injection H as <- <- <- <-.
  apply lift_inv_Ok in U1 as (U1 & ->). apply unpack_H_inv in U1 as (Ls & ->).
  apply assert_inv_Ok in A1 as (A1 & ->). apply Z.eqb_eq in A1.
  apply or_raise_inv_Ok in B as (B & ->).
  apply or_raise_inv_Ok in D as (D & ->).
  apply lift_inv_Ok in U2 as (U2 & ->). apply unpack_I_inv in U2 as (Ls2 & ->).
  apply assert_inv_Ok in A2 as (A2 & ->). apply Z.eqb_eq in A2.
  apply lift_inv_Ok in P as (P & ->). apply pack_crc_inv in P as (-> & _).
  apply assert_inv_Ok in A3 as (A3 & ->). apply bool_decide_eq_true in A3. subst ec.
  pose proof (read_inv _ _ _ _ R0) as (_ & Hmag & _). change (4 <? 0) with false in Hmag.
  change (Z.to_nat 4) with 4%nat in Hmag. cbv iota in Hmag.
  apply load_subfields_advanced in L. rewrite A1, Z.sub_0_r in L.
  apply read_advanced in R0 as (G0 & _). apply read_advanced in R1 as (G1 & _).
  apply read_advanced in R2 as (G2 & _). apply read_advanced in R3 as (G3 & _).
  apply read_advanced in R4 as (G4 & _). apply read_advanced in R5 as (G5 & _).
  pose proof (read_inv _ _ _ _ R6) as (_ & Hd6 & _).
  pose proof (read_inv _ _ _ _ R7) as (_ & Hd7 & _).
  apply read_advanced in R6 as (G6 & E6 & P6 & _).
  apply read_advanced in R7 as (G7 & E7 & P7 & _).
  assert (Gall : advanced (bs - 8) f f11).
  { replace (bs - 8)
      with (4 + (4 + (1 + (1 + (2 + (le_combine s + (bs - 1 - le_combine s - 19)))))))
      by lia.
    repeat (eapply advanced_trans; [eassumption|]). assumption. }
  assert (N13 : ~ eof f13). { intros He. apply E7 in He. rewrite He in Ls2. discriminate Ls2. }
  assert (N11 : ~ eof f11). { intros He. apply N13. apply G6. exact He. }
  pose proof (advanced_pos _ _ _ Gall) as Hmono.
  destruct Gall as (Hcont & Hclosed & Hpos & _).
  destruct Hpos as [Hpos|]; [|tauto].
  destruct G6 as (Hc6 & Hk6 & _). destruct G7 as (Hc7 & Hk7 & _).
  rewrite length_le_split in P6.
  repeat split; try congruence.
  - lia.
  - unfold trailer. rewrite Hc7, Hc6, P7, P6, Ls2.
    replace (pos f11 + 4 + 4 - 8)%nat with (pos f11) by lia.
    change 8%nat with (4 + 4)%nat. rewrite firstn_add_skipn.
    change (4 <? 0) with false in Hd6, Hd7. cbv iota in Hd6, Hd7.
    change (Z.to_nat 4) with 4%nat in Hd6, Hd7.
    fold (File.remaining f11). rewrite <- Hd6. f_equal.
    assert (R13 : File.remaining f13 = skipn 4 (File.remaining f11)).
    { unfold File.remaining. rewrite Hc6, P6, skipn_skipn. f_equal. lia. }
    rewrite <- R13, <- Hd7. rewrite <- A2.
    rewrite <- Ls2. symmetry. apply split_le_combine.
  - rewrite <- A2. pose proof (le_combine_bound s2) as Hb. rewrite Ls2 in Hb.
    change (2 ^ (8 * Z.of_nat 4)) with (2 ^ 32) in Hb. lia.
  - lia.
Qed.

End DecodeProperties.

Section BlocksProperties.
Context (zlib : Zlib).

Lemma blocks_loop_contiguous fuel : forall handle blocks handle',
  blocks_loop zlib (fun blk => (fst (fst blk), snd (fst blk), len (snd blk))) fuel handle
    = Ok blocks handle' ->
  contiguous (Z.of_nat (pos handle)) blocks.
Proof.
  induction fuel as [|fuel IH]; intros handle blocks handle' H; simpl in H.
  - destruct (_load_bgzf_block zlib handle) as [blk h1|e h1|] eqn:E;
      [discriminate| |discriminate].
    destruct e; try discriminate. injection H as <- <-. exact I.
  - destruct (_load_bgzf_block zlib handle) as [[[start size] data] h1|e h1|] eqn:E;
      [| |discriminate].
    + destruct (blocks_loop zlib _ fuel h1) as [rest h2| |] eqn:E2; try discriminate.
      injection H as <- <-. simpl.
      apply _load_bgzf_block_inv in E as (_ & Hs & _ & _ & _ & Hp & _).
      split; [exact Hs|]. rewrite <- Hp. eapply IH. exact E2.
    + destruct e; try discriminate. injection H as <- <-. exact I.
Qed.

Lemma blocks_loop_not_OutOfFuel {A} (yield : Z * Z * bytes -> A) fuel : forall handle,
  (length (File.remaining handle) <= fuel)%nat ->
  blocks_loop zlib yield fuel handle <> OutOfFuel.
Proof.
  induction fuel as [|fuel IH]; intros handle Hf; cbn [blocks_loop];
    pose proof (_load_bgzf_block_not_OutOfFuel zlib handle) as Hn;
    destruct (_load_bgzf_block zlib handle) as [[[start size] data] h1|e h1|] eqn:E;
    try congruence; try (destruct e; discriminate).
  - apply _load_bgzf_block_inv in E as (_ & _ & Hm & _).
    assert (length (firstn 4 (File.remaining handle)) = 4%nat) as Hl by (rewrite Hm; reflexivity).
    rewrite length_firstn in Hl. lia.
  - apply _load_bgzf_block_inv in E as (_ & _ & Hm & Hc & _ & _ & _ & _ & Hp).
    assert (length (firstn 4 (File.remaining handle)) = 4%nat) as Hl by (rewrite Hm; reflexivity).
    rewrite length_firstn in Hl.
    assert (Hr : (length (File.remaining h1) <= fuel)%nat).
    { unfold File.remaining in *. rewrite length_skipn in *. rewrite Hc. lia. }
    specialize (IH h1 Hr).
    destruct (blocks_loop zlib yield fuel h1); congruence.
Qed.

Lemma BgzfBlocks_not_OutOfFuel handle : BgzfBlocks zlib handle <> OutOfFuel.
Proof.
  unfold BgzfBlocks. apply blocks_loop_not_OutOfFuel.
  unfold blocks_fuel, File.remaining. rewrite length_skipn. lia.
Qed.

End BlocksProperties.

(** C10: whenever [_load_bgzf_block] returns [(start_offset, block_size,
    data)], it started at [start_offset] and leaves the handle at
    [start_offset + block_size], on the same bytes; hence the blocks that
    [BgzfBlocks] lists are contiguous, from the position the handle had.
    [BgzfBlocks] ends on every file. *)
Theorem load_bgzf_block_consumes_block_size (zlib : Zlib) (handle : file) :
  (forall start_offset block_size data handle',
      _load_bgzf_block zlib handle = Ok (start_offset, block_size, data) handle' ->
      start_offset = Z.of_nat (pos handle) /\
      Z.of_nat (pos handle') = start_offset + block_size /\
      content handle' = content handle) /\
  (forall blocks handle',
      BgzfBlocks zlib handle = Ok blocks handle' ->
      contiguous (Z.of_nat (pos handle)) blocks) /\
  BgzfBlocks zlib handle <> OutOfFuel.
Proof.
  split; [|split].
  - intros start_offset block_size data handle' H.
    apply _load_bgzf_block_inv in H as (_ & Hs & _ & Hc & _ & Hp & _). auto.
  - intros blocks handle' H. unfold BgzfBlocks in H.
    eapply blocks_loop_contiguous. exact H.
  - apply BgzfBlocks_not_OutOfFuel.
Qed.

(** C5: on an open handle, the decoder raises [StopIteration] when no byte
    is left; it raises [ValueError] when bytes are left that do not start
    with 1f 8b 08 04; and it always terminates, never returning a payload
    whose length or CRC32 differs from what the eight trailer bytes before
    the final position declare. *)
Theorem load_bgzf_block_failure_modes (zlib : Zlib) (handle : file) :
  closed handle = false ->
  (eof handle -> _load_bgzf_block zlib handle = Raise StopIteration handle) /\
  (~ eof handle -> firstn 4 (File.remaining handle) <> bgzf_magic ->
   exists handle',
     _load_bgzf_block zlib handle
     = Raise (ValueError "A BGZF (e.g. a BAM file) block should start with 1f 8b 08 04")
         handle') /\
  _load_bgzf_block zlib handle <> OutOfFuel /\
  (forall start_offset block_size data handle',
      _load_bgzf_block zlib handle = Ok (start_offset, block_size, data) handle' ->
      firstn 4 (trailer handle') = le_split 4 (zlib_crc32 zlib data) /\
      struct.unpack_I (skipn 4 (trailer handle')) = Val (len data)).
Proof.
  intros Hc. repeat split.
  - intros He. apply _load_bgzf_block_eof; assumption.
  - intros He Hm. apply _load_bgzf_block_bad_magic; assumption.
  - apply _load_bgzf_block_not_OutOfFuel.
  - apply _load_bgzf_block_inv in H as (_ & _ & _ & _ & _ & _ & Ht & _).
    rewrite Ht. apply take_app_length'. symmetry. apply length_le_split.
  - apply _load_bgzf_block_inv in H as (_ & _ & _ & _ & _ & _ & Ht & Hl).
    rewrite Ht. rewrite drop_app_length' by (symmetry; apply length_le_split).
    unfold struct.unpack_I. rewrite len_le_split. change (Z.of_nat 4 =? 4) with true. cbv iota.
    rewrite le_combine_split. f_equal. apply Z.mod_small.
    pose proof (len_nonneg data). change (2 ^ (Z.of_nat 4 * 8)) with (2 ^ 32). lia.
Qed.

(** ** Instances *)

Lemma getattr_Ok (self : obj) name v :
  self !! name = Some v -> getattr name self = Ok v self.
Proof. unfold getattr. intros ->. reflexivity. Qed.

Lemma getattr_missing (self : obj) name :
  self !! name = None -> getattr name self = Raise (AttributeError name) self.
Proof. unfold getattr. intros ->. reflexivity. Qed.

Lemma get_int_Ok (self : obj) name n :
  self !! name = Some (VInt n) -> get_int name self = Ok n self.
Proof. intros H. unfold get_int. rewrite (bind_Ok _ _ _ _ _ (getattr_Ok _ _ _ H)). reflexivity. Qed.

Lemma get_str_Ok (self : obj) name s :
  self !! name = Some (VStr s) -> get_str name self = Ok s self.
Proof. intros H. unfold get_str. rewrite (bind_Ok _ _ _ _ _ (getattr_Ok _ _ _ H)). reflexivity. Qed.

Lemma get_int_missing (self : obj) name :
  self !! name = None -> get_int name self = Raise (AttributeError name) self.
Proof.
  intros H. unfold get_int. rewrite (bind_Raise _ _ _ _ _ (getattr_missing _ _ H)). reflexivity.
Qed.

Lemma on_file_Ok {A} name (m : M file A) (self : obj) f a f' :
  self !! name = Some (VFile f) -> m f = Ok a f' ->
  on_file name m self = Ok a (<[name := VFile f']> self).
Proof. unfold on_file. intros -> ->. reflexivity. Qed.

Lemma on_file_missing {A} name (m : M file A) (self : obj) :
  self !! name = None -> on_file name m self = Raise (AttributeError name) self.
Proof. unfold on_file. intros ->. reflexivity. Qed.

Lemma on_file_inv_Ok {A} name (m : M file A) (self : obj) a self' :
  on_file name m self = Ok a self' ->
  exists f f', self !! name = Some (VFile f) /\ m f = Ok a f' /\
               self' = <[name := VFile f']> self.
Proof.
  unfold on_file. destruct (self !! name) as [[| | |f]|]; try discriminate.
  destruct (m f) as [a' f'| |] eqn:E; try discriminate.
  intros H. apply Ok_inj in H as (<- & <-). eauto.
Qed.

Lemma getattr_inv_Ok name (self : obj) v self' :
  getattr name self = Ok v self' -> self' = self.
Proof.
  unfold getattr. destruct (self !! name); [|discriminate].
  intros H. apply Ok_inj in H as (_ & <-). reflexivity.
Qed.

Lemma get_int_inv_Ok name (self : obj) n self' :
  get_int name self = Ok n self' -> self' = self.
Proof.
  unfold get_int, getattr, bind. destruct (self !! name) as [v|]; [|discriminate].
  intros H. apply lift_inv_Ok in H as (_ & ->). reflexivity.
Qed.

Lemma get_str_inv_Ok name (self : obj) b self' :
  get_str name self = Ok b self' -> self' = self.
Proof.
  unfold get_str, getattr, bind. destruct (self !! name) as [v|]; [|discriminate].
  intros H. apply lift_inv_Ok in H as (_ & ->). reflexivity.
Qed.

Lemma get_int_not_OutOfFuel name (self : obj) : get_int name self <> OutOfFuel.
Proof.
  unfold get_int, getattr, bind. destruct (self !! name) as [v|]; [|discriminate].
  apply lift_not_OutOfFuel.
Qed.

Lemma get_str_not_OutOfFuel name (self : obj) : get_str name self <> OutOfFuel.
Proof.
  unfold get_str, getattr, bind. destruct (self !! name) as [v|]; [|discriminate].
  apply lift_not_OutOfFuel.
Qed.

Lemma on_file_not_OutOfFuel {A} name (m : M file A) (self : obj) :
  (forall f, self !! name = Some (VFile f) -> m f <> OutOfFuel) ->
  on_file name m self <> OutOfFuel.
Proof.
  unfold on_file. intros H. destruct (self !! name) as [[| | |f]|]; try discriminate.
  specialize (H f eq_refl). destruct (m f); congruence.
Qed.

Lemma seek_not_OutOfFuel p f : File.seek p f <> OutOfFuel.
Proof. unfold File.seek. destruct (closed f), (p <? 0); discriminate. Qed.

(** ** Writing a block *)

Lemma len_framed compressed crc size :
  len (framed compressed crc size) = 12 + 6 + len compressed + 4 + 4.
Proof.
  unfold framed. rewrite !len_app, !len_le_split.
  change (len BgzfWriter.block_header) with 16. lia.
Qed.

Lemma framed_header compressed crc size :
  firstn 16 (framed compressed crc size) = BgzfWriter.block_header.
Proof. reflexivity. Qed.

Lemma framed_BC compressed crc size :
  len compressed <= 65510 ->
  struct.unpack_H (slice (framed compressed crc size) 16 18)
  = Val (len (framed compressed crc size) - 1).
Proof.
  intros Hc. pose proof (len_nonneg compressed) as Hn.
  pose proof (len_framed compressed crc size) as Hl.
  unfold slice, clamp_index. rewrite Hl.
  destruct (Z.ltb_spec 16 0); [lia|]. destruct (Z.ltb_spec 18 0); [lia|].
  replace (Z.min 16 (12 + 6 + len compressed + 4 + 4)) with 16 by lia.
  replace (Z.min 18 (12 + 6 + len compressed + 4 + 4)) with 18 by lia.
  change (Z.to_nat (18 - 16)) with 2%nat. change (Z.to_nat 16) with 16%nat.
  unfold framed. rewrite drop_app_length' by reflexivity.
  rewrite take_app_length' by (symmetry; apply length_le_split).
  unfold struct.unpack_H. rewrite len_le_split. change (Z.of_nat 2 =? 2) with true. cbv iota.
  rewrite le_combine_split. f_equal. change (2 ^ (Z.of_nat 2 * 8)) with 65536.
  rewrite Z.mod_small; lia.
Qed.

Section WriteBlock.
Context (zlib : Zlib).

Lemma _write_block_Ok (self : obj) handle compresslevel block compressed :
  self !! "_handle" = Some (VFile handle) ->
  closed handle = false ->
  self !! "compresslevel" = Some (VInt compresslevel) ->
  len block <= 65536 ->
  zlib_compress zlib compresslevel block = Some compressed ->
  len compressed <= 65510 ->
  -2147483648 <= zlib_crc32 zlib block <= 4294967295 ->
  exists handle',
    File.write (framed compressed (zlib_crc32 zlib block) (len block)) handle
      = Ok tt handle' /\
    BgzfWriter._write_block zlib block self
      = Ok tt (<["_handle" := VFile handle']> self).
Proof.
  intros Hh Hc Hl Hb Hz Hs Hcrc.
  pose proof (len_nonneg block) as Hb0. pose proof (len_nonneg compressed) as Hc0.
  unfold File.write. rewrite Hc. eexists. split; [reflexivity|].
  unfold BgzfWriter._write_block.
  rewrite (bind_Ok _ _ _ _ _ (on_file_Ok _ _ _ _ _ _ Hh (tell_Ok _ Hc))).
  rewrite (insert_id _ _ _ Hh).
  unfold assert at 1. destruct (Z.leb_spec (len block) 65536); [|lia].
  rewrite (bind_Ok _ _ _ tt self) by reflexivity.
  rewrite (bind_Ok _ _ _ _ _ (get_int_Ok _ _ _ Hl)).
  rewrite Hz. rewrite (bind_Ok _ _ _ compressed self) by reflexivity.
  unfold assert at 1. destruct (Z.ltb_spec (len compressed) 65536); [|lia].
  rewrite (bind_Ok _ _ _ tt self) by reflexivity.
  assert (Hp1 : exists s, (if zlib_crc32 zlib block <? 0
                           then struct.pack_i (zlib_crc32 zlib block)
                           else struct.pack_I (zlib_crc32 zlib block)) = Val s).
  { destruct (Z.ltb_spec (zlib_crc32 zlib block) 0).
    - unfold struct.pack_i.
      destruct (Z.leb_spec (-2147483648) (zlib_crc32 zlib block)); [|lia].
      destruct (Z.leb_spec (zlib_crc32 zlib block) 2147483647); [|lia]. eauto.
    - unfold struct.pack_I.
      destruct (Z.leb_spec 0 (zlib_crc32 zlib block)); [|lia].
      destruct (Z.leb_spec (zlib_crc32 zlib block) 4294967295); [|lia]. eauto. }
  destruct Hp1 as (s1 & ->).
  rewrite (bind_Ok _ _ _ s1 self) by reflexivity.
  unfold struct.pack_H.
  destruct (Z.leb_spec 0 (len compressed + 25)); [|lia].
  destruct (Z.leb_spec (len compressed + 25) 65535); [|lia].
  rewrite (bind_Ok _ _ _ (le_split 2 (len compressed + 25)) self) by reflexivity.
  assert (Hland : 0 <= Z.land (zlib_crc32 zlib block) 4294967295 <= 4294967295).
  { change 4294967295 with (Z.ones 32). rewrite Z.land_ones by lia.
    pose proof (Z.mod_pos_bound (zlib_crc32 zlib block) (2 ^ 32) ltac:(lia)).
    change (Z.ones 32) with (2 ^ 32 - 1). lia. }
  unfold struct.pack_I.
  destruct (Z.leb_spec 0 (Z.land (zlib_crc32 zlib block) 4294967295)); [|lia].
  destruct (Z.leb_spec (Z.land (zlib_crc32 zlib block) 4294967295) 4294967295); [|lia].
  rewrite (bind_Ok _ _ _ (le_split 4 (Z.land (zlib_crc32 zlib block) 4294967295)) self)
    by reflexivity.
  destruct (Z.leb_spec 0 (len block)); [|lia].
  destruct (Z.leb_spec (len block) 4294967295); [|lia].
  rewrite (bind_Ok _ _ _ (le_split 4 (len block)) self) by reflexivity.
  erewrite on_file_Ok; [reflexivity | exact Hh |].
  unfold File.write. rewrite Hc. reflexivity.
Qed.

End WriteBlock.

(** ** Reading a block back *)

Lemma read_app_step n d rest f :
  closed f = false -> File.remaining f = d ++ rest -> n = len d ->
  exists f', File.read n f = Ok d f' /\ closed f' = false /\ File.remaining f' = rest /\
             content f' = content f /\ pos f' = (pos f + length d)%nat.
Proof.
  intros Hc Hr ->. eexists. rewrite (read_Ok _ _ Hc). cbv zeta.
  destruct (Z.ltb_spec (len d) 0) as [Hneg|_]; [pose proof (len_nonneg d); lia|].
  rewrite Hr. unfold len. rewrite Nat2Z.id, take_app_length.
  split; [reflexivity|]. split; [reflexivity|]. split; [|split; reflexivity].
  rewrite remaining_after, Hr. apply drop_app_length.
Qed.

Lemma load_subfields_BC f v rest :
  closed f = false -> 0 <= v <= 65535 ->
  File.remaining f = BC ++ [Byte.x02; Byte.x00] ++ le_split 2 v ++ rest ->
  exists f', load_subfields 6 6 0 None f = Ok (6, Some (v + 1)) f' /\
             closed f' = false /\ File.remaining f' = rest /\
             content f' = content f /\ pos f' = (pos f + 6)%nat.
Proof.
  intros Hc Hv Hr.
  cbn [load_subfields]. change (0 <? 6) with true. cbv iota.
  destruct (read_app_step 2 _ _ f Hc Hr eq_refl) as (f1 & R1 & Hc1 & Hr1 & Hk1 & Hp1).
  rewrite (bind_Ok _ _ _ _ _ R1).
  destruct (read_app_step 2 _ _ f1 Hc1 Hr1 eq_refl) as (f2 & R2 & Hc2 & Hr2 & Hk2 & Hp2).
  rewrite (bind_Ok _ _ _ _ _ R2).
  rewrite (bind_Ok _ _ _ 2 f2) by reflexivity.
  destruct (read_app_step 2 _ _ f2 Hc2 Hr2 ltac:(symmetry; apply len_le_split))
    as (f3 & R3 & Hc3 & Hr3 & Hk3 & Hp3).
  rewrite (bind_Ok _ _ _ _ _ R3).
  destruct (decide (BC = BC)) as [_|E]; [|congruence].
  rewrite (bind_Ok _ _ _ tt f3) by reflexivity.
  rewrite (bind_Ok _ _ _ tt f3) by reflexivity.
  assert (Hu : struct.unpack_H (le_split 2 v) = Val v).
  { unfold struct.unpack_H. rewrite len_le_split. change (Z.of_nat 2 =? 2) with true.
    cbv iota. rewrite le_combine_split. f_equal.
    change (2 ^ (Z.of_nat 2 * 8)) with 65536. apply Z.mod_small. lia. }
  rewrite Hu. rewrite (bind_Ok _ _ _ v f3) by reflexivity.
  change (0 + (2 + 4) <? 6) with false. cbv iota.
  exists f3. split; [reflexivity|]. split; [exact Hc3|]. split; [exact Hr3|].
  split; [congruence|]. rewrite Hp3, Hp2, Hp1, length_le_split. simpl. lia.
Qed.

Lemma le_split_land_crc crc :
  le_split 4 (Z.land crc 4294967295) = le_split 4 crc.
Proof.
  rewrite (le_split_mod crc 4). change 4294967295 with (Z.ones 32).
  rewrite Z.land_ones by lia. reflexivity.
Qed.

Lemma pack_crc_Val crc :
  -2147483648 <= crc <= 4294967295 ->
  exists s, (if crc <? 0 then struct.pack_i crc else struct.pack_I crc) = Val s /\
            s = le_split 4 crc.
Proof.
  intros H. destruct (Z.ltb_spec crc 0).
  - unfold struct.pack_i.
    destruct (Z.leb_spec (-2147483648) crc); [|lia].
    destruct (Z.leb_spec crc 2147483647); [|lia]. eauto.
  - unfold struct.pack_I.
    destruct (Z.leb_spec 0 crc); [|lia].
    destruct (Z.leb_spec crc 4294967295); [|lia]. eauto.
Qed.

Section LoadFramed.
Context (zlib : Zlib).

Lemma load_framed f payload compressed rest :
  closed f = false ->
  zlib_decompress zlib compressed = Some payload ->
  len compressed <= 65510 ->
  -2147483648 <= zlib_crc32 zlib payload <= 4294967295 ->
  len payload <= 4294967295 ->
  File.remaining f
    = framed compressed (zlib_crc32 zlib payload) (len payload) ++ rest ->
  exists f',
    _load_bgzf_block zlib f
      = Ok (Z.of_nat (pos f), 12 + 6 + len compressed + 4 + 4, payload) f' /\
    closed f' = false /\ File.remaining f' = rest /\ content f' = content f.
Proof.
  intros Hc Hd Hs Hcrc Hp Hr.
  pose proof (len_nonneg compressed) as Hc0. pose proof (len_nonneg payload) as Hp0.
  unfold framed, BgzfWriter.block_header in Hr.
  change ([Byte.x1f; Byte.x8b; Byte.x08; Byte.x04; Byte.x00; Byte.x00; Byte.x00; Byte.x00;
           Byte.x00; Byte.xff; Byte.x06; Byte.x00; Byte.x42; Byte.x43; Byte.x02; Byte.x00]
          ++ ?t)
    with (bgzf_magic ++ [Byte.x00; Byte.x00; Byte.x00; Byte.x00] ++ [Byte.x00] ++ [Byte.xff]
          ++ [Byte.x06; Byte.x00] ++ BC ++ [Byte.x02; Byte.x00] ++ t) in Hr.
  rewrite <- !app_assoc in Hr.
  unfold _load_bgzf_block.
  rewrite (bind_Ok _ _ _ _ _ (tell_Ok _ Hc)).
  destruct (read_app_step 4 _ _ f Hc Hr eq_refl) as (f1 & R1 & Hc1 & Hr1 & Hk1 & Hp1).
  rewrite (bind_Ok _ _ _ _ _ R1).
  destruct (decide (bgzf_magic = [])) as [E|_]; [discriminate E|].
  destruct (decide (bgzf_magic <> bgzf_magic)) as [E|_]; [congruence|].
  destruct (read_app_step 4 _ _ f1 Hc1 Hr1 eq_refl) as (f2 & R2 & Hc2 & Hr2 & Hk2 & Hp2).
  rewrite (bind_Ok _ _ _ _ _ R2).
  destruct (read_app_step 1 _ _ f2 Hc2 Hr2 eq_refl) as (f3 & R3 & Hc3 & Hr3 & Hk3 & Hp3).
  rewrite (bind_Ok _ _ _ _ _ R3).
  destruct (read_app_step 1 _ _ f3 Hc3 Hr3 eq_refl) as (f4 & R4 & Hc4 & Hr4 & Hk4 & Hp4).
  rewrite (bind_Ok _ _ _ _ _ R4).
  destruct (read_app_step 2 _ _ f4 Hc4 Hr4 eq_refl) as (f5 & R5 & Hc5 & Hr5 & Hk5 & Hp5).
  rewrite (bind_Ok _ _ _ _ _ R5).
  rewrite (bind_Ok _ _ _ 6 f5) by reflexivity.
  change (Z.to_nat 6) with 6%nat.
  destruct (load_subfields_BC f5 (len compressed + 25) _ Hc5 ltac:(lia) Hr5)
    as (f6 & L & Hc6 & Hr6 & Hk6 & Hp6).
  rewrite (bind_Ok _ _ _ _ _ L).
  rewrite (bind_Ok _ _ _ tt f6) by reflexivity.
  rewrite (bind_Ok _ _ _ (len compressed + 25 + 1) f6) by reflexivity.
  destruct (read_app_step (len compressed + 25 + 1 - 1 - 6 - 19) _ _ f6 Hc6 Hr6 ltac:(lia))
    as (f7 & R7 & Hc7 & Hr7 & Hk7 & Hp7).
  rewrite (bind_Ok _ _ _ _ _ R7).
  rewrite Hd. rewrite (bind_Ok _ _ _ payload f7) by reflexivity.
  destruct (read_app_step 4 _ _ f7 Hc7 Hr7 ltac:(symmetry; apply len_le_split))
    as (f8 & R8 & Hc8 & Hr8 & Hk8 & Hp8).
  rewrite (bind_Ok _ _ _ _ _ R8).
  destruct (read_app_step 4 _ _ f8 Hc8 Hr8 ltac:(symmetry; apply len_le_split))
    as (f9 & R9 & Hc9 & Hr9 & Hk9 & Hp9).
  rewrite (bind_Ok _ _ _ _ _ R9).
  assert (Hu : struct.unpack_I (le_split 4 (len payload)) = Val (len payload)).
  { unfold struct.unpack_I. rewrite len_le_split. change (Z.of_nat 4 =? 4) with true.
    cbv iota. rewrite le_combine_split. f_equal.
    change (2 ^ (Z.of_nat 4 * 8)) with 4294967296. apply Z.mod_small. lia. }
  rewrite Hu. rewrite (bind_Ok _ _ _ (len payload) f9) by reflexivity.
  rewrite Z.eqb_refl. rewrite (bind_Ok _ _ _ tt f9) by reflexivity.
  destruct (pack_crc_Val _ Hcrc) as (p & Hpack & ->). rewrite Hpack.
  rewrite (bind_Ok _ _ _ _ f9) by reflexivity.
  rewrite bool_decide_eq_true_2 by apply le_split_land_crc.
  rewrite (bind_Ok _ _ _ tt f9) by reflexivity.
  exists f9. split.
  - unfold ret. do 2 f_equal. f_equal. lia.
  - split; [exact Hc9|]. split; [exact Hr9|]. congruence.
Qed.
End LoadFramed.

(** ** Writing a stream *)

Lemma writer_state_handle self handle handle' buffer compresslevel :
  writer_state self handle buffer compresslevel ->
  writer_state (<["_handle" := VFile handle']> self) handle' buffer compresslevel.
Proof.
  intros (H1 & H2 & H3). unfold writer_state.
  rewrite lookup_insert_eq, !lookup_insert_ne by done. auto.
Qed.

Lemma writer_state_buffer self handle buffer buffer' compresslevel :
  writer_state self handle buffer compresslevel ->
  writer_state (<["_buffer" := VStr buffer']> self) handle buffer' compresslevel.
Proof.
  intros (H1 & H2 & H3). unfold writer_state.
  rewrite lookup_insert_eq, !lookup_insert_ne by done. auto.
Qed.

Lemma write_at_end data f :
  closed f = false -> at_end f ->
  File.write data f = Ok tt (mkFile (content f ++ data) (pos f + length data) false).
Proof.
  unfold at_end, File.write. intros -> Hp. rewrite Hp.
  rewrite firstn_all, Nat.sub_diag, skipn_all2 by lia.
  simpl. rewrite !app_nil_r. reflexivity.
Qed.

Lemma full_chunks_concat fuel : forall b,
  concat (fst (full_chunks fuel b)) ++ snd (full_chunks fuel b) = b.
Proof.
  induction fuel as [|fuel IH]; intros b; simpl; [reflexivity|].
  destruct (len b >=? 65536); simpl; [|reflexivity].
  rewrite <- app_assoc, IH. apply firstn_skipn.
Qed.

Lemma full_chunks_rest fuel : forall b,
  (length b <= fuel)%nat -> len (snd (full_chunks fuel b)) < 65536.
Proof.
  induction fuel as [|fuel IH]; intros b Hb; simpl.
  - unfold len. lia.
  - destruct (Z.geb_spec (len b) 65536) as [Hge|Hlt]; simpl; [|lia].
    apply IH. unfold slice_from. rewrite length_skipn. unfold len in Hge. lia.
Qed.

Lemma blocks_of_concat b : concat (blocks_of b) = b.
Proof.
  unfold blocks_of. cbv zeta. rewrite concat_app. simpl. rewrite app_nil_r.
  apply full_chunks_concat.
Qed.

Section WriteStream.
Context (zlib : Zlib) (compresslevel : Z).

Lemma _write_block_at_end self handle buffer payload :
  writer_state self handle buffer compresslevel ->
  closed handle = false -> at_end handle ->
  len payload <= 65536 ->
  encodable zlib compresslevel payload ->
  exists self' handle',
    BgzfWriter._write_block zlib payload self = Ok tt self' /\
    writer_state self' handle' buffer compresslevel /\
    closed handle' = false /\ at_end handle' /\
    content handle' = content handle ++ frame zlib compresslevel payload.
Proof.
  intros Hw Hc He Hl (compressed & Hz & Hs & _ & Hcrc).
  pose proof Hw as (Hh & _ & Hlv).
  destruct (_write_block_Ok zlib self handle compresslevel payload compressed
              Hh Hc Hlv Hl Hz Hs Hcrc) as (handle' & Hwr & Hok).
  rewrite (write_at_end _ _ Hc He) in Hwr. apply Ok_inj in Hwr as (_ & <-).
  eexists _, _. split; [exact Hok|]. split; [eapply writer_state_handle; exact Hw|].
  split; [reflexivity|]. split.
  - unfold at_end in *. cbn [pos content]. rewrite length_app. lia.
  - cbn [content]. unfold frame. rewrite Hz. reflexivity.
Qed.

Lemma drain_65536 fuel : forall self handle buffer,
  writer_state self handle buffer compresslevel ->
  closed handle = false -> at_end handle ->
  (length buffer <= fuel)%nat ->
  Forall (encodable zlib compresslevel) (fst (full_chunks fuel buffer)) ->
  exists self' handle',
    BgzfWriter.drain zlib 65536 fuel self = Ok tt self' /\
    writer_state self' handle' (snd (full_chunks fuel buffer)) compresslevel /\
    closed handle' = false /\ at_end handle' /\
    content handle'
      = content handle
          ++ concat (List.map (frame zlib compresslevel) (fst (full_chunks fuel buffer))).
Proof.
  induction fuel as [|fuel IH]; intros self handle buffer Hw Hc He Hf Henc;
    pose proof Hw as (Hh & Hb & Hlv); cbn [BgzfWriter.drain full_chunks] in *.
  - rewrite (bind_Ok _ _ _ _ _ (get_str_Ok _ _ _ Hb)).
    destruct (Z.geb_spec (len buffer) 65536) as [Hge|Hlt]; [unfold len in Hge; lia|].
    exists self, handle. simpl. rewrite app_nil_r. auto.
  - rewrite (bind_Ok _ _ _ _ _ (get_str_Ok _ _ _ Hb)).
    destruct (Z.geb_spec (len buffer) 65536) as [Hge|Hlt].
    2:{ exists self, handle. simpl. rewrite app_nil_r. auto. }
    cbn [fst snd] in *. apply Forall_cons in Henc as (Henc1 & Henc2).
    rewrite (bind_Ok _ _ _ _ _ (get_str_Ok _ _ _ Hb)).
    assert (Hlen : len (slice_to buffer 65536) <= 65536).
    { unfold slice_to, len. rewrite length_firstn. lia. }
    destruct (_write_block_at_end self handle buffer _ Hw Hc He Hlen Henc1)
      as (self1 & handle1 & Hwb & Hw1 & Hc1 & He1 & Hk1).
    rewrite (bind_Ok _ _ _ _ _ Hwb).
    pose proof Hw1 as (_ & Hb1 & _).
    rewrite (bind_Ok _ _ _ _ _ (get_str_Ok _ _ _ Hb1)).
    unfold setattr at 1.
    rewrite (bind_Ok _ _ _ tt (<["_buffer" := VStr (slice_from buffer 65536)]> self1))
      by reflexivity.
    apply (writer_state_buffer _ _ _ (slice_from buffer 65536)) in Hw1.
    assert (Hf' : (length (slice_from buffer 65536) <= fuel)%nat).
    { unfold slice_from. rewrite length_skipn. unfold len in Hge. lia. }
    destruct (IH _ _ _ Hw1 Hc1 He1 Hf' Henc2) as (self2 & handle2 & Hd & Hw2 & Hc2 & He2 & Hk2).
    exists self2, handle2. split; [exact Hd|]. split; [exact Hw2|].
    split; [exact Hc2|]. split; [exact He2|].
    rewrite Hk2, Hk1. simpl. rewrite <- app_assoc. reflexivity.
Qed.

End WriteStream.

Lemma full_chunks_sizes fuel : forall b,
  Forall (fun x => len x <= 65536) (fst (full_chunks fuel b)).
Proof.
  induction fuel as [|fuel IH]; intros b; simpl; [constructor|].
  destruct (len b >=? 65536); simpl; [|constructor].
  constructor; [|apply IH]. unfold slice_to, len. rewrite length_firstn. lia.
Qed.

Lemma BgzfWriter_init_Ok builtin_open handle compresslevel :
  BgzfWriter.__init__ builtin_open None None (Some handle) compresslevel ∅
  = Ok tt (writer_on handle compresslevel).
Proof. reflexivity. Qed.

Lemma writer_on_state handle compresslevel :
  writer_state (writer_on handle compresslevel) handle [] compresslevel.
Proof. unfold writer_state, writer_on. repeat split. Qed.

Section Stream.
Context (zlib : Zlib) (compresslevel : Z).

Lemma write_fresh self handle b :
  writer_state self handle [] compresslevel ->
  closed handle = false -> at_end handle ->
  Forall (encodable zlib compresslevel) (fst (full_chunks (length b) b)) ->
  exists self' handle',
    BgzfWriter.write zlib b self = Ok tt self' /\
    writer_state self' handle' (snd (full_chunks (length b) b)) compresslevel /\
    closed handle' = false /\ at_end handle' /\
    content handle'
      = content handle
          ++ concat (List.map (frame zlib compresslevel) (fst (full_chunks (length b) b))).
Proof.
  intros Hw Hc He Henc. pose proof Hw as (Hh & Hb & Hlv).
  unfold BgzfWriter.write. cbv zeta.
  rewrite (bind_Ok _ _ _ _ _ (get_str_Ok _ _ _ Hb)). cbn [app].
  change (len (@nil byte)) with 0. rewrite Z.add_0_l.
  apply (writer_state_buffer _ _ _ b) in Hw.
  destruct (Z.ltb_spec (len b) 65536) as [Hlt|Hge].
  - exists (<["_buffer" := VStr b]> self), handle.
    assert (Hfc : full_chunks (length b) b = ([], b)).
    { destruct (length b) eqn:E; [reflexivity|]. simpl.
      destruct (Z.geb_spec (len b) 65536); [lia | reflexivity]. }
    rewrite Hfc. simpl. rewrite app_nil_r. auto.
  - unfold setattr at 1.
    rewrite (bind_Ok _ _ _ tt (<["_buffer" := VStr b]> self)) by reflexivity.
    apply (drain_65536 zlib compresslevel (length b) _ _ _ Hw Hc He (Nat.le_refl _) Henc).
Qed.

Lemma drain_65535_small fuel self handle buffer :
  writer_state self handle buffer compresslevel ->
  len buffer < 65536 ->
  BgzfWriter.drain zlib 65535 fuel self = Ok tt self.
Proof.
  intros (_ & Hb & _) Hlt.
  destruct fuel; cbn [BgzfWriter.drain];
    rewrite (bind_Ok _ _ _ _ _ (get_str_Ok _ _ _ Hb));
    destruct (Z.geb_spec (len buffer) 65536); (lia || reflexivity).
Qed.

Lemma flush_small self handle buffer :
  writer_state self handle buffer compresslevel ->
  closed handle = false -> at_end handle ->
  len buffer < 65536 ->
  encodable zlib compresslevel buffer ->
  exists self' handle',
    BgzfWriter.flush zlib self = Ok tt self' /\
    writer_state self' handle' [] compresslevel /\
    closed handle' = false /\ at_end handle' /\
    content handle' = content handle ++ frame zlib compresslevel buffer.
Proof.
  intros Hw Hc He Hlt Henc. pose proof Hw as (Hh & Hb & Hlv).
  unfold BgzfWriter.flush.
  rewrite (bind_Ok _ _ _ _ _ (get_str_Ok _ _ _ Hb)).
  rewrite (bind_Ok _ _ _ _ _ (drain_65535_small _ _ _ _ Hw Hlt)).
  rewrite (bind_Ok _ _ _ _ _ (get_str_Ok _ _ _ Hb)).
  destruct (_write_block_at_end zlib compresslevel self handle buffer buffer
              Hw Hc He ltac:(lia) Henc) as (self1 & handle1 & Hwb & Hw1 & Hc1 & He1 & Hk1).
  rewrite (bind_Ok _ _ _ _ _ Hwb).
  unfold setattr at 1.
  rewrite (bind_Ok _ _ _ tt (<["_buffer" := VStr []]> self1)) by reflexivity.
  apply (writer_state_buffer _ _ _ []) in Hw1. pose proof Hw1 as (Hh1 & _).
  rewrite (on_file_Ok _ _ _ _ tt handle1 Hh1) by (unfold File.flush; rewrite Hc1; reflexivity).
  exists (<["_handle" := VFile handle1]> (<["_buffer" := VStr []]> self1)), handle1.
  split; [reflexivity|]. split; [eapply writer_state_handle; exact Hw1|]. auto.
Qed.

Lemma frame_length payload :
  encodable zlib compresslevel payload ->
  (1 <= length (frame zlib compresslevel payload))%nat.
Proof.
  intros (c & Hz & _). unfold frame. rewrite Hz.
  pose proof (len_framed c (zlib_crc32 zlib payload) (len payload)) as H.
  pose proof (len_nonneg c). unfold len in *. lia.
Qed.

Lemma frames_length blocks :
  Forall (encodable zlib compresslevel) blocks ->
  (length blocks <= length (concat (List.map (frame zlib compresslevel) blocks)))%nat.
Proof.
  induction 1 as [|x l Hx _ IH]; simpl; [lia|].
  rewrite length_app. pose proof (frame_length x Hx). lia.
Qed.

Lemma blocks_loop_frames blocks : forall fuel f,
  closed f = false ->
  File.remaining f = concat (List.map (frame zlib compresslevel) blocks) ->
  Forall (encodable zlib compresslevel) blocks ->
  Forall (fun x => len x <= 65536) blocks ->
  (length blocks <= fuel)%nat ->
  exists f', blocks_loop zlib (fun blk => snd blk) fuel f = Ok blocks f'.
Proof.
  induction blocks as [|x blocks IH]; intros fuel f Hc Hr Henc Hsz Hf.
  - exists f. simpl in Hr.
    destruct fuel; cbn [blocks_loop]; rewrite (_load_bgzf_block_eof zlib f Hc Hr); reflexivity.
  - apply Forall_cons in Henc as (Hx & Henc). apply Forall_cons in Hsz as (Hsx & Hsz).
    destruct fuel as [|fuel]; [simpl in Hf; lia|].
    pose proof Hx as (c & Hz & Hs & Hd & Hcrc).
    cbn [List.map concat] in Hr. unfold frame at 1 in Hr. rewrite Hz in Hr.
    destruct (load_framed zlib f x c _ Hc Hd Hs Hcrc ltac:(lia) Hr)
      as (f1 & Hl & Hc1 & Hr1 & _).
    cbn [blocks_loop]. rewrite Hl.
    destruct (IH fuel f1 Hc1 Hr1 Henc Hsz ltac:(simpl in Hf; lia)) as (f2 & ->).
    exists f2. reflexivity.
Qed.

Lemma decode_all_frames blocks :
  Forall (encodable zlib compresslevel) blocks ->
  Forall (fun x => len x <= 65536) blocks ->
  exists f',
    decode_all zlib (File.of_bytes (concat (List.map (frame zlib compresslevel) blocks)))
    = Ok (concat blocks) f'.
Proof.
  intros Henc Hsz. unfold decode_all.
  destruct (blocks_loop_frames blocks
              (blocks_fuel (File.of_bytes (concat (List.map (frame zlib compresslevel) blocks))))
              (File.of_bytes (concat (List.map (frame zlib compresslevel) blocks)))
              eq_refl eq_refl Henc Hsz (frames_length blocks Henc)) as (f' & H).
  exists f'. rewrite (bind_Ok _ _ _ _ _ H). reflexivity.
Qed.

End Stream.

Lemma encodableb_true zlib compresslevel payload :
  encodableb zlib compresslevel payload = true -> encodable zlib compresslevel payload.
Proof.
  unfold encodableb, encodable.
  destruct (zlib_compress zlib compresslevel payload) as [c|]; [|discriminate].
  rewrite !andb_true_iff. intros (((H1 & H2) & H3) & H4).
  exists c. apply bool_decide_eq_true in H2. repeat split; auto; lia.
Qed.

Lemma encodableb_Forall zlib compresslevel blocks :
  forallb (encodableb zlib compresslevel) blocks = true ->
  Forall (encodable zlib compresslevel) blocks.
Proof.
  intros H. apply Forall_forall. intros x Hx.
  apply encodableb_true. rewrite forallb_forall in H. apply H.
  apply list_elem_of_In. exact Hx.
Qed.

Section RoundTrip.
Context (zlib : Zlib) (compresslevel : Z).

Lemma write_flush_sink b :
  Forall (encodable zlib compresslevel) (blocks_of b) ->
  exists self sink,
    (BgzfWriter.write zlib b ;; BgzfWriter.flush zlib) (writer_on File.empty compresslevel)
      = Ok tt self /\
    handle_of self = Some sink /\
    content sink = concat (List.map (frame zlib compresslevel) (blocks_of b)).
Proof.
  unfold blocks_of. cbv zeta. intros Henc.
  apply Forall_app in Henc as (Hfull & Hrest). apply Forall_inv in Hrest.
  destruct (write_fresh zlib compresslevel _ File.empty b
              (writer_on_state _ _) eq_refl eq_refl Hfull)
    as (self1 & h1 & Hw & Hs1 & Hc1 & He1 & Hk1).
  destruct (flush_small zlib compresslevel self1 h1 _ Hs1 Hc1 He1
              (full_chunks_rest _ _ (Nat.le_refl _)) Hrest)
    as (self2 & h2 & Hf & Hs2 & Hc2 & He2 & Hk2).
  exists self2, h2. split; [|split].
  - rewrite (bind_Ok _ _ _ _ _ Hw). exact Hf.
  - unfold handle_of. destruct Hs2 as (-> & _). reflexivity.
  - rewrite Hk2, Hk1. cbn [content File.empty app].
    rewrite map_app, concat_app. simpl. rewrite app_nil_r. reflexivity.
Qed.

Lemma write_close_sink b :
  Forall (encodable zlib compresslevel) (blocks_of b) ->
  exists self sink blocks,
    (BgzfWriter.write zlib b ;; BgzfWriter.close zlib) (writer_on File.empty compresslevel)
      = Ok tt self /\
    handle_of self = Some sink /\ closed sink = true /\
    content sink = concat (List.map (frame zlib compresslevel) blocks) /\
    Forall (encodable zlib compresslevel) blocks /\
    Forall (fun x => len x <= 65536) blocks /\
    concat blocks = b.
Proof.
  unfold blocks_of. cbv zeta. intros Henc.
  pose proof (full_chunks_concat (length b) b) as Hcat.
  pose proof (full_chunks_sizes (length b) b) as Hsz.
  pose proof (full_chunks_rest (length b) b (Nat.le_refl _)) as Hrl.
  apply Forall_app in Henc as (Hfull & Hrest). apply Forall_inv in Hrest.
  destruct (write_fresh zlib compresslevel _ File.empty b
              (writer_on_state _ _) eq_refl eq_refl Hfull)
    as (self1 & h1 & Hw & Hs1 & Hc1 & He1 & Hk1).
  rewrite (bind_Ok _ _ _ _ _ Hw). unfold BgzfWriter.close.
  pose proof Hs1 as (Hh1 & Hb1 & _).
  rewrite (bind_Ok _ _ _ _ _ (get_str_Ok _ _ _ Hb1)).
  destruct (decide (snd (full_chunks (length b) b) = [])) as [Hnil|Hne].
  - rewrite (bind_Ok _ _ _ tt self1) by reflexivity.
    rewrite (on_file_Ok _ _ _ _ tt (mkFile (content h1) (pos h1) true) Hh1) by reflexivity.
    eexists _, _, (fst (full_chunks (length b) b)). split; [reflexivity|].
    split; [unfold handle_of; rewrite lookup_insert_eq; reflexivity|].
    split; [reflexivity|]. split; [exact Hk1|]. split; [exact Hfull|].
    split; [exact Hsz|]. rewrite Hnil, app_nil_r in Hcat. exact Hcat.
  - destruct (flush_small zlib compresslevel self1 h1 _ Hs1 Hc1 He1 Hrl Hrest)
      as (self2 & h2 & Hf & Hs2 & Hc2 & He2 & Hk2).
    rewrite (bind_Ok _ _ _ _ _ Hf). pose proof Hs2 as (Hh2 & _).
    rewrite (on_file_Ok _ _ _ _ tt (mkFile (content h2) (pos h2) true) Hh2) by reflexivity.
    eexists _, _, (fst (full_chunks (length b) b) ++ [snd (full_chunks (length b) b)]).
    split; [reflexivity|].
    split; [unfold handle_of; rewrite lookup_insert_eq; reflexivity|].
    split; [reflexivity|]. split.
    { cbn [content]. rewrite Hk2, Hk1. cbn [content File.empty app].
      rewrite map_app, concat_app. simpl. rewrite app_nil_r. reflexivity. }
    split; [apply Forall_app; split; [exact Hfull | constructor; [exact Hrest | constructor]]|].
    split; [apply Forall_app; split; [exact Hsz | constructor; [lia | constructor]]|].
    rewrite concat_app. simpl. rewrite app_nil_r. exact Hcat.
Qed.

End RoundTrip.

(** C1, amended: take any byte string [b] such that zlib compresses each of
    the chunks [write] and [flush] cut from it (the 65536-byte chunks, then the
    rest) to at most 65510 bytes, restores it, and gives a CRC in the 32-bit
    range. Then on a new writer over an empty file, [write(b)] followed by
    [flush()], or by [close()], succeeds, and decoding the blocks of the file
    in order and concatenating the payloads gives [b]. *)
Theorem write_then_decode_all (zlib : Zlib) (compresslevel : Z) (b : bytes) :
  Forall (encodable zlib compresslevel) (blocks_of b) ->
  (exists self sink handle',
      (BgzfWriter.write zlib b ;; BgzfWriter.flush zlib) (writer_on File.empty compresslevel)
        = Ok tt self /\
      handle_of self = Some sink /\
      decode_all zlib (File.of_bytes (content sink)) = Ok b handle') /\
  (exists self sink handle',
      (BgzfWriter.write zlib b ;; BgzfWriter.close zlib) (writer_on File.empty compresslevel)
        = Ok tt self /\
      handle_of self = Some sink /\
      decode_all zlib (File.of_bytes (content sink)) = Ok b handle').
Proof.
  intros Henc. split.
  - destruct (write_flush_sink zlib compresslevel b Henc) as (self & sink & Hrun & Hh & Hk).
    assert (Hsz : Forall (fun x => len x <= 65536) (blocks_of b)).
    { unfold blocks_of. cbv zeta. apply Forall_app. split; [apply full_chunks_sizes|].
      constructor; [|constructor].
      pose proof (full_chunks_rest (length b) b (Nat.le_refl _)). lia. }
    destruct (decode_all_frames zlib compresslevel _ Henc Hsz) as (h' & Hd).
    exists self, sink, h'. rewrite Hk, Hd, blocks_of_concat. auto.
  - destruct (write_close_sink zlib compresslevel b Henc)
      as (self & sink & blocks & Hrun & Hh & _ & Hk & Hb & Hsz & Hcat).
    destruct (decode_all_frames zlib compresslevel _ Hb Hsz) as (h' & Hd).
    exists self, sink, h'. rewrite Hk, Hd, Hcat. auto.
Qed.

(** ** The reader *)

Section ReaderProperties.
Context (zlib : Zlib) (builtin_open : string -> string -> res file).

(** [_load_block] decodes a block from the handle and assigns five
    attributes, no other. *)
Lemma _load_block_inv start_offset (self self' : obj) :
  BgzfReader._load_block zlib start_offset self = Ok tt self' ->
  exists handle handle' start size data,
    self !! "_handle" = Some (VFile handle) /\
    ((match start_offset with
      | Some p => if p =? 0 then ret tt else File.seek p
      | None => ret tt
      end) ;; _load_bgzf_block zlib) handle = Ok (start, size, data) handle' /\
    self' = <["_within_block_offset" := VInt 0]>
              (<["_buffer" := VStr data]>
                 (<["_block_size" := VInt size]>
                    (<["_block_start_offset" := VInt start]>
                       (<["_handle" := VFile handle']> self)))).
Proof.
  unfold BgzfReader._load_block. intros H.
  inv_step H as v s1 G. apply getattr_inv_Ok in G as ->.
  inv_step H as r s2 F. apply on_file_inv_Ok in F as (f & f' & Hh & Hrun & ->).
  destruct r as [[start size] data]. cbn [fst snd] in H.
  unfold setattr, bind in H. apply Ok_inj in H as (_ & <-).
  exists f, f', start, size, data.
  split; [exact Hh | split; [exact Hrun | reflexivity]].
Qed.

Lemma reader_init_inv filename mode fileobj (self : obj) :
  BgzfReader.__init__ zlib builtin_open filename mode fileobj ∅ = Ok tt self ->
  exists handle handle' start size data,
    self = <["_within_block_offset" := VInt 0]>
             (<["_buffer" := VStr data]>
                (<["_block_size" := VInt size]>
                   (<["_block_start_offset" := VInt start]>
                      (<["_handle" := VFile handle']> (<["_handle" := VFile handle]> ∅))))).
Proof.
  unfold BgzfReader.__init__. intros H.
  inv_step H as handle s1 O.
  assert (s1 = ∅) as ->.
  { destruct fileobj as [f|].
    - inv_step O as u s0 A. apply assert_inv_Ok in A as (_ & ->).
      apply Ok_inj in O as (_ & <-). reflexivity.
    - destruct mode as [m|]; [|discriminate].
      destruct (mode_has "w" m || mode_has "a" m); [discriminate|].
      destruct filename as [name|]; [|discriminate].
      apply lift_inv_Ok in O as (_ & ->). reflexivity. }
  inv_step H as u s2 S. apply Ok_inj in S as (_ & <-).
  apply _load_block_inv in H as (h0 & handle' & start & size & data & _ & _ & ->).
  eauto 6.
Qed.

Lemma read_bounded_missing_cursor fuel size (self : obj) :
  0 < size -> self !! "_with_block_offset" = None ->
  BgzfReader.read_bounded zlib fuel size self
  = Raise (AttributeError "_with_block_offset") self.
Proof.
  intros Hs Hm.
  destruct fuel; cbn [BgzfReader.read_bounded];
    (destruct (Z.ltb_spec size 0); [lia|]); (destruct (Z.eqb_spec size 0); [lia|]);
    rewrite (bind_Raise _ _ _ _ _ (get_int_missing _ _ Hm)); reflexivity.
Qed.

Lemma _load_block_not_OutOfFuel start_offset (self : obj) :
  BgzfReader._load_block zlib start_offset self <> OutOfFuel.
Proof.
  unfold BgzfReader._load_block.
  apply bind_not_OutOfFuel.
  { unfold getattr. destruct (self !! "_handle"); discriminate. }
  intros v s1 _. apply bind_not_OutOfFuel.
  { apply on_file_not_OutOfFuel. intros f _. apply bind_not_OutOfFuel.
    - destruct start_offset as [p|]; [|discriminate].
      destruct (p =? 0); [discriminate | apply seek_not_OutOfFuel].
    - intros u f1 _. apply _load_bgzf_block_not_OutOfFuel. }
  intros r s2 _. discriminate.
Qed.

(** The bytes left in the file bound the depth of the recursion of [read]. *)
Lemma read_bounded_not_OutOfFuel fuel : forall size (self : obj),
  (forall handle, self !! "_handle" = Some (VFile handle) ->
                  (length (File.remaining handle) <= fuel)%nat) ->
  BgzfReader.read_bounded zlib fuel size self <> OutOfFuel.
Proof.
  induction fuel as [|fuel IH]; intros size self Hf; cbn [BgzfReader.read_bounded];
    (destruct (size <? 0); [discriminate|]); (destruct (size =? 0); [discriminate|]);
    (apply bind_not_OutOfFuel; [apply get_int_not_OutOfFuel|]);
    intros off s1 E1; apply get_int_inv_Ok in E1 as ->;
    (apply bind_not_OutOfFuel; [apply get_str_not_OutOfFuel|]);
    intros buf s2 E2; apply get_str_inv_Ok in E2 as ->;
    (destruct (off + size <? len buf);
     [ apply bind_not_OutOfFuel; [apply get_int_not_OutOfFuel|];
       intros o1 s3 _; apply bind_not_OutOfFuel; [discriminate|];
       intros u s4 _; apply bind_not_OutOfFuel; [apply get_str_not_OutOfFuel|];
       intros b1 s5 _; apply bind_not_OutOfFuel; [apply get_int_not_OutOfFuel|];
       intros o2 s6 _; discriminate
     | ]);
    (apply bind_not_OutOfFuel; [apply get_str_not_OutOfFuel|]);
    intros data s7 E7; apply get_str_inv_Ok in E7 as ->;
    (apply bind_not_OutOfFuel; [apply _load_block_not_OutOfFuel|]);
    intros [] s8 E8;
    apply _load_block_inv in E8 as (h & h' & st & sz & d & Hh & Hrun & ->);
    unfold bind at 1, ret in Hrun;
    pose proof (_load_bgzf_block_inv zlib _ _ _ _ _ Hrun)
      as (_ & _ & Hm & Hc & _ & _ & _ & _ & Hp);
    assert (length (firstn 4 (File.remaining h)) = 4%nat) as Hl
        by (rewrite Hm; reflexivity);
    rewrite length_firstn in Hl; specialize (Hf h Hh).
  - lia.
  - apply bind_not_OutOfFuel; [|intros rest s9 _; discriminate].
    apply IH. intros h2 Hh2.
    rewrite !lookup_insert_ne, lookup_insert_eq in Hh2 by done.
    injection Hh2 as <-.
    unfold File.remaining in *. rewrite length_skipn in *. rewrite Hc. lia.
Qed.

Lemma reader_read_terminates size (self : obj) :
  BgzfReader.read zlib size self <> OutOfFuel.
Proof.
  unfold BgzfReader.read. cbv zeta. apply read_bounded_not_OutOfFuel.
  intros handle ->. unfold File.remaining. rewrite length_skipn. lia.
Qed.

End ReaderProperties.

(** C6: [read(n)] is claimed to return [n] bytes, within the block or across
    blocks. On every reader that [__init__] built and for every [n > 0] it
    raises [AttributeError]: it reads the attribute [_with_block_offset],
    while [_load_block] assigns [_within_block_offset]. *)
Theorem reader_read_raises_AttributeError
    (zlib : Zlib) (builtin_open : string -> string -> res file)
    (filename mode : option string) (fileobj : option file) (self : obj)
    (size : Z) :
  BgzfReader.__init__ zlib builtin_open filename mode fileobj ∅ = Ok tt self ->
  0 < size ->
  self !! "_within_block_offset" = Some (VInt 0) /\
  BgzfReader.read zlib size self = Raise (AttributeError "_with_block_offset") self.
Proof.
  intros Hi Hs. apply reader_init_inv in Hi as (h & h' & st & sz & d & ->). split.
  - apply lookup_insert_eq.
  - unfold BgzfReader.read. cbv zeta. apply read_bounded_missing_cursor; [exact Hs|].
    rewrite !lookup_insert_ne by done. apply lookup_empty.
Qed.

(** ** The writer's [tell] *)

Lemma writer_init_inv builtin_open filename mode fileobj compresslevel (self : obj) :
  BgzfWriter.__init__ builtin_open filename mode fileobj compresslevel ∅ = Ok tt self ->
  exists handle, self = writer_on handle compresslevel.
Proof.
  unfold BgzfWriter.__init__. intros H.
  inv_step H as handle s1 O.
  assert (s1 = ∅) as ->.
  { destruct fileobj as [f|].
    - inv_step O as u s0 A. apply assert_inv_Ok in A as (_ & ->).
      apply Ok_inj in O as (_ & <-). reflexivity.
    - destruct mode as [m|]; [|discriminate].
      destruct (negb (mode_has "w" m) && negb (mode_has "a" m)); [discriminate|].
      destruct filename as [name|]; [|discriminate].
      apply lift_inv_Ok in O as (_ & ->). reflexivity. }
  unfold setattr, bind in H. apply Ok_inj in H as (_ & <-). exists handle. reflexivity.
Qed.

(** C8: [tell()] of a writer is claimed to return the packed position of the
    sink and length of the buffer. On every writer that [__init__] built,
    also after bytes were buffered, it raises [AttributeError]: it reads the
    attribute [handle], while [__init__] assigns [_handle]. *)
Theorem writer_tell_raises_AttributeError
    (builtin_open : string -> string -> res file)
    (filename mode : option string) (fileobj : option file) (compresslevel : Z)
    (self : obj) (buffer : bytes) :
  BgzfWriter.__init__ builtin_open filename mode fileobj compresslevel ∅ = Ok tt self ->
  BgzfWriter.tell self = Raise (AttributeError "handle") self /\
  BgzfWriter.tell (<["_buffer" := VStr buffer]> self)
    = Raise (AttributeError "handle") (<["_buffer" := VStr buffer]> self).
Proof.
  intros Hi. apply writer_init_inv in Hi as (h & ->).
  unfold BgzfWriter.tell. split.
  - rewrite (bind_Raise _ _ _ (AttributeError "handle") (writer_on h compresslevel));
      [reflexivity|]. apply on_file_missing. reflexivity.
  - rewrite (bind_Raise _ _ _ (AttributeError "handle")
               (<["_buffer" := VStr buffer]> (writer_on h compresslevel)));
      [reflexivity|]. apply on_file_missing.
    rewrite lookup_insert_ne by done. reflexivity.
Qed.

(** ** Termination of the writer *)

Section WriterTermination.
Context (zlib : Zlib).

Lemma File_write_not_OutOfFuel data f : File.write data f <> OutOfFuel.
Proof. unfold File.write. destruct (closed f); discriminate. Qed.

Lemma _write_block_not_OutOfFuel block (self : obj) :
  BgzfWriter._write_block zlib block self <> OutOfFuel.
Proof.
  unfold BgzfWriter._write_block.
  apply bind_not_OutOfFuel.
  { apply on_file_not_OutOfFuel. intros f _. apply tell_not_OutOfFuel. }
  intros p s1 _. apply bind_not_OutOfFuel; [apply assert_not_OutOfFuel|].
  intros u1 s2 _. apply bind_not_OutOfFuel; [apply get_int_not_OutOfFuel|].
  intros lv s3 _. apply bind_not_OutOfFuel; [apply or_raise_not_OutOfFuel|].
  intros c s4 _. apply bind_not_OutOfFuel; [apply assert_not_OutOfFuel|].
  intros u2 s5 _. apply bind_not_OutOfFuel; [apply lift_not_OutOfFuel|].
  intros c1 s6 _. apply bind_not_OutOfFuel; [apply lift_not_OutOfFuel|].
  intros bs s7 _. apply bind_not_OutOfFuel; [apply lift_not_OutOfFuel|].
  intros c2 s8 _. apply bind_not_OutOfFuel; [apply lift_not_OutOfFuel|].
  intros ul s9 _. apply on_file_not_OutOfFuel. intros f _. apply File_write_not_OutOfFuel.
Qed.

(** [_write_block] touches the file object only. *)
Lemma _write_block_buffer block (self self' : obj) :
  BgzfWriter._write_block zlib block self = Ok tt self' ->
  self' !! "_buffer" = self !! "_buffer".
Proof.
  unfold BgzfWriter._write_block. intros H.
  inv_step H as p s1 T. apply on_file_inv_Ok in T as (f & f1 & _ & _ & ->).
  inv_step H as u1 s2 A1. apply assert_inv_Ok in A1 as (_ & ->).
  inv_step H as lv s3 G. apply get_int_inv_Ok in G as ->.
  inv_step H as c s4 C. apply or_raise_inv_Ok in C as (_ & ->).
  inv_step H as u2 s5 A2. apply assert_inv_Ok in A2 as (_ & ->).
  inv_step H as c1 s6 P1. apply lift_inv_Ok in P1 as (_ & ->).
  inv_step H as bs s7 P2. apply lift_inv_Ok in P2 as (_ & ->).
  inv_step H as c2 s8 P3. apply lift_inv_Ok in P3 as (_ & ->).
  inv_step H as ul s9 P4. apply lift_inv_Ok in P4 as (_ & ->).
  apply on_file_inv_Ok in H as (f2 & f3 & _ & _ & ->).
  rewrite !lookup_insert_ne by done. reflexivity.
Qed.

(** The loop over the buffer ends: every round shortens the buffer. *)
Lemma drain_not_OutOfFuel chunk fuel : forall self : obj,
  0 < chunk ->
  (forall buffer, self !! "_buffer" = Some (VStr buffer) -> (length buffer <= fuel)%nat) ->
  BgzfWriter.drain zlib chunk fuel self <> OutOfFuel.
Proof.
  induction fuel as [|fuel IH]; intros self Hc Hf; cbn [BgzfWriter.drain];
    (apply bind_not_OutOfFuel; [apply get_str_not_OutOfFuel|]);
    intros buffer s1 E1; pose proof (get_str_inv_Ok _ _ _ _ E1) as ->;
    assert (Hb : self !! "_buffer" = Some (VStr buffer))
      by (revert E1; unfold get_str, getattr, bind;
          destruct (self !! "_buffer") as [[| |b|]|]; try discriminate;
          intros E; apply Ok_inj in E as (-> & _); reflexivity);
    specialize (Hf _ Hb);
    (destruct (Z.geb_spec (len buffer) 65536) as [Hge|Hlt]; [|discriminate]);
    unfold len in Hge.
  - lia.
  - apply bind_not_OutOfFuel; [apply get_str_not_OutOfFuel|].
    intros b1 s2 E2. apply get_str_inv_Ok in E2 as ->.
    apply bind_not_OutOfFuel; [apply _write_block_not_OutOfFuel|].
    intros [] s3 W. apply _write_block_buffer in W.
    apply bind_not_OutOfFuel; [apply get_str_not_OutOfFuel|].
    intros b2 s4 E4. pose proof (get_str_inv_Ok _ _ _ _ E4) as ->.
    assert (b2 = buffer) as ->.
    { revert E4. unfold get_str, getattr, bind. rewrite W, Hb. simpl.
      intros E. apply Ok_inj in E as (-> & _). reflexivity. }
    apply bind_not_OutOfFuel; [discriminate|].
    intros u s5 S. apply Ok_inj in S as (_ & <-).
    apply IH; [exact Hc|]. intros b3. rewrite lookup_insert_eq. intros [= <-].
    unfold slice_from. rewrite length_skipn. lia.
Qed.

Lemma writer_write_terminates data (self : obj) :
  BgzfWriter.write zlib data self <> OutOfFuel.
Proof.
  unfold BgzfWriter.write. cbv zeta.
  apply bind_not_OutOfFuel; [apply get_str_not_OutOfFuel|].
  intros buffer s1 _. destruct (len buffer + len data <? 65536); [discriminate|].
  apply bind_not_OutOfFuel; [discriminate|].
  intros u s2 S. apply Ok_inj in S as (_ & <-).
  apply drain_not_OutOfFuel; [lia|].
  intros b. rewrite lookup_insert_eq. intros [= <-]. lia.
Qed.

Lemma writer_flush_terminates (self : obj) : BgzfWriter.flush zlib self <> OutOfFuel.
Proof.
  unfold BgzfWriter.flush.
  apply bind_not_OutOfFuel; [apply get_str_not_OutOfFuel|].
  intros buffer s1 E1. pose proof (get_str_inv_Ok _ _ _ _ E1) as ->.
  apply bind_not_OutOfFuel.
  { apply drain_not_OutOfFuel; [lia|]. intros b Hb. revert E1.
    unfold get_str, getattr, bind. rewrite Hb. simpl.
    intros E. apply Ok_inj in E as (-> & _). lia. }
  intros u1 s2 _. apply bind_not_OutOfFuel; [apply get_str_not_OutOfFuel|].
  intros b1 s3 _. apply bind_not_OutOfFuel; [apply _write_block_not_OutOfFuel|].
  intros u2 s4 _. apply bind_not_OutOfFuel; [discriminate|].
  intros u3 s5 _. apply on_file_not_OutOfFuel. intros f _.
  unfold File.flush. destruct (closed f); discriminate.
Qed.

Lemma writer_close_terminates (self : obj) : BgzfWriter.close zlib self <> OutOfFuel.
Proof.
  unfold BgzfWriter.close.
  apply bind_not_OutOfFuel; [apply get_str_not_OutOfFuel|].
  intros buffer s1 _. apply bind_not_OutOfFuel.
  { destruct (decide (buffer = [])); [discriminate | apply writer_flush_terminates]. }
  intros u s2 _. apply on_file_not_OutOfFuel. intros f _. discriminate.
Qed.

End WriterTermination.

(** ** Concrete runs *)

(** The reference zlib and the writer agree with zlib and with the source:
    flushing a new writer gives the empty block quoted in [close], and the
    block of "abc" carries the DEFLATE stream and CRC-32 that zlib gives. *)
Example flush_new_writer_is_empty_block :
  sink_of (BgzfWriter.flush RefZlib.lib (writer_on File.empty 6)) = Some empty_block.
Proof. vm_compute. reflexivity. Qed.

Example write_abc_flush_twice :
  sink_of (and_then (and_then (BgzfWriter.write RefZlib.lib abc (writer_on File.empty 6))
                       (BgzfWriter.flush RefZlib.lib))
             (BgzfWriter.flush RefZlib.lib))
  = Some abc_stream.
Proof. vm_compute. reflexivity. Qed.

Example BgzfBlocks_abc_stream :
  exists handle', BgzfBlocks RefZlib.lib (File.of_bytes abc_stream)
                  = Ok [(0, 31, 3); (31, 28, 0)] handle'.
Proof. eexists. vm_compute. reflexivity. Qed.

(** C1 as claimed fails: at compression level 0 zlib stores the input, so a
    chunk of 65536 bytes deflates to more than 65535 bytes, and [write] stops
    at the assertion of [_write_block]. *)
Lemma write_then_decode_all_level_0_fails :
  exception ((BgzfWriter.write RefZlib.lib (zeros 65536) ;; BgzfWriter.flush RefZlib.lib)
               (writer_on File.empty 0))
  = Some (AssertionError "TODO - Didn't compress enough, try less data in this block") /\
  forall self,
    (BgzfWriter.write RefZlib.lib (zeros 65536) ;; BgzfWriter.flush RefZlib.lib)
      (writer_on File.empty 0) <> Ok tt self.
Proof.
  assert (H : exception ((BgzfWriter.write RefZlib.lib (zeros 65536) ;;
                          BgzfWriter.flush RefZlib.lib) (writer_on File.empty 0))
              = Some (AssertionError
                        "TODO - Didn't compress enough, try less data in this block")).
  { vm_compute. reflexivity. }
  split; [exact H|]. intros self E. rewrite E in H. discriminate H.
Qed.

Lemma write_then_decode_all_witness :
  Forall (encodable RefZlib.lib 6) (blocks_of (zeros 65539)) /\
  exists self sink handle',
    (BgzfWriter.write RefZlib.lib (zeros 65539) ;; BgzfWriter.flush RefZlib.lib)
      (writer_on File.empty 6) = Ok tt self /\
    handle_of self = Some sink /\
    decode_all RefZlib.lib (File.of_bytes (content sink)) = Ok (zeros 65539) handle'.
Proof.
  assert (H : Forall (encodable RefZlib.lib 6) (blocks_of (zeros 65539))).
  { apply encodableb_Forall. vm_compute. reflexivity. }
  split; [exact H|].
  exact (proj1 (write_then_decode_all RefZlib.lib 6 (zeros 65539) H)).
Defined.

(** C4, amended: for every payload of at most 65536 bytes whose compressed
    form has at most 65510 bytes (and a CRC in the 32-bit range),
    [_write_block] writes header, BC subfield, compressed bytes, CRC and
    length, 12 + 6 + len(compressed) + 4 + 4 bytes in all, and bytes 16 and
    17 hold that total minus 1, little-endian. *)
Theorem write_block_framing (zlib : Zlib) (self : obj) (handle : file)
    (compresslevel : Z) (block compressed : bytes) :
  self !! "_handle" = Some (VFile handle) ->
  closed handle = false ->
  self !! "compresslevel" = Some (VInt compresslevel) ->
  len block <= 65536 ->
  zlib_compress zlib compresslevel block = Some compressed ->
  len compressed <= 65510 ->
  -2147483648 <= zlib_crc32 zlib block <= 4294967295 ->
  exists data handle',
    data = framed compressed (zlib_crc32 zlib block) (len block) /\
    File.write data handle = Ok tt handle' /\
    BgzfWriter._write_block zlib block self = Ok tt (<["_handle" := VFile handle']> self) /\
    len data = 12 + 6 + len compressed + 4 + 4 /\
    struct.unpack_H (slice data 16 18) = Val (len data - 1).
Proof.
  intros Hh Hc Hl Hb Hz Hs Hcrc.
  destruct (_write_block_Ok zlib self handle compresslevel block compressed
              Hh Hc Hl Hb Hz Hs Hcrc) as (handle' & Hw & Hok).
  exists (framed compressed (zlib_crc32 zlib block) (len block)), handle'.
  split; [reflexivity|]. split; [exact Hw|]. split; [exact Hok|].
  split; [apply len_framed | apply framed_BC; exact Hs].
Qed.

Lemma write_block_framing_witness :
  exists data handle',
    data = framed [Byte.x4b; Byte.x4c; Byte.x4a; Byte.x06; Byte.x00]
             (zlib_crc32 RefZlib.lib abc) (len abc) /\
    File.write data File.empty = Ok tt handle' /\
    BgzfWriter._write_block RefZlib.lib abc (writer_on File.empty 6)
      = Ok tt (<["_handle" := VFile handle']> (writer_on File.empty 6)) /\
    len data = 12 + 6 + len [Byte.x4b; Byte.x4c; Byte.x4a; Byte.x06; Byte.x00] + 4 + 4 /\
    struct.unpack_H (slice data 16 18) = Val (len data - 1).
Proof.
  apply (write_block_framing RefZlib.lib (writer_on File.empty 6) File.empty 6 abc
           [Byte.x4b; Byte.x4c; Byte.x4a; Byte.x06; Byte.x00]).
  - reflexivity.
  - reflexivity.
  - reflexivity.
  - vm_compute. discriminate.
  - vm_compute. reflexivity.
  - vm_compute. discriminate.
  - vm_compute. split; discriminate.
Defined.

(** C4 as claimed fails: 65510 zero bytes at level 0 deflate to 65515 bytes,
    fewer than 65536, yet the total minus 1 is 65540 and does not fit the
    two bytes of the BC subfield; [struct.pack] raises and nothing is
    written. *)
Lemma write_block_framing_overflow :
  len (zeros 65510) <= 65536 /\
  option_map len (zlib_compress RefZlib.lib 0 (zeros 65510)) = Some 65515 /\
  65515 < 65536 /\
  exception (BgzfWriter._write_block RefZlib.lib (zeros 65510) (writer_on File.empty 0))
    = Some StructError /\
  sink_of (BgzfWriter._write_block RefZlib.lib (zeros 65510) (writer_on File.empty 0))
    = Some [].
Proof.
  split; [vm_compute; discriminate|]. split; [vm_compute; reflexivity|].
  split; [lia|]. split; vm_compute; reflexivity.
Qed.

Lemma succeeded_Ok (o : outcome obj unit) : succeeded o = true -> o = Ok tt (the_state o).
Proof. destruct o as [[] s| |]; try discriminate. reflexivity. Qed.

(** C7 as claimed fails: neither the class [BgzfReader] nor a reader that
    [__init__] built has an attribute [seek]. *)
Lemma reader_has_no_seek :
  ~ In "seek"%string BgzfReader.class /\
  succeeded (new_reader RefZlib.lib abc_stream) = true /\
  hasattr BgzfReader.class (the_state (new_reader RefZlib.lib abc_stream)) "seek" = false /\
  hasattr BgzfReader.class (the_state (new_reader RefZlib.lib abc_stream)) "read" = true.
Proof.
  split.
  - simpl. intros [H|[H|[H|[H|[]]]]]; discriminate H.
  - split; [|split]; vm_compute; reflexivity.
Qed.

(** C7, amended: the reader has no [seek]; what it has is
    [_load_block(start_offset)]. For a start offset other than 0 it seeks the
    handle there and decodes the block at that offset afresh, whichever block
    was loaded before, and it sets the within-block cursor to 0. *)
Theorem reader_load_block_at_offset (zlib : Zlib) (self : obj) (handle : file)
    (start_offset block_start block_size : Z) (data : bytes) (handle' : file) :
  self !! "_handle" = Some (VFile handle) ->
  closed handle = false ->
  0 < start_offset ->
  _load_bgzf_block zlib (mkFile (content handle) (Z.to_nat start_offset) false)
    = Ok (block_start, block_size, data) handle' ->
  ~ In "seek"%string BgzfReader.class /\
  exists self',
    BgzfReader._load_block zlib (Some start_offset) self = Ok tt self' /\
    self' !! "_handle" = Some (VFile handle') /\
    self' !! "_block_start_offset" = Some (VInt start_offset) /\
    self' !! "_block_size" = Some (VInt block_size) /\
    self' !! "_buffer" = Some (VStr data) /\
    self' !! "_within_block_offset" = Some (VInt 0).
Proof.
  intros Hh Hc Hp Hl.
  split; [simpl; intros [H|[H|[H|[H|[]]]]]; discriminate H|].
  pose proof (_load_bgzf_block_inv zlib _ _ _ _ _ Hl) as (_ & Hs & _).
  cbn [pos] in Hs. rewrite Z2Nat.id in Hs by lia. subst block_start.
  unfold BgzfReader._load_block.
  rewrite (bind_Ok _ _ _ _ _ (getattr_Ok _ _ _ Hh)).
  assert (Hrun : ((if start_offset =? 0 then ret tt else File.seek start_offset) ;;
                  _load_bgzf_block zlib) handle
                 = Ok (start_offset, block_size, data) handle').
  { destruct (Z.eqb_spec start_offset 0); [lia|].
    unfold bind at 1, File.seek. rewrite Hc.
    destruct (Z.ltb_spec start_offset 0); [lia|]. exact Hl. }
  rewrite (bind_Ok _ _ _ _ _ (on_file_Ok _ _ _ _ _ _ Hh Hrun)).
  cbn [fst snd]. eexists. split; [reflexivity|].
  repeat split; simplify_map_eq; reflexivity.
Qed.

Lemma reader_load_block_at_offset_witness :
  ~ In "seek"%string BgzfReader.class /\
  exists self',
    BgzfReader._load_block RefZlib.lib (Some 31) (the_state (new_reader RefZlib.lib abc_stream))
      = Ok tt self' /\
    self' !! "_handle" = Some (VFile (mkFile abc_stream 59 false)) /\
    self' !! "_block_start_offset" = Some (VInt 31) /\
    self' !! "_block_size" = Some (VInt 28) /\
    self' !! "_buffer" = Some (VStr []) /\
    self' !! "_within_block_offset" = Some (VInt 0).
Proof.
  apply (reader_load_block_at_offset RefZlib.lib
           (the_state (new_reader RefZlib.lib abc_stream)) (mkFile abc_stream 31 false)
           31 31 28 [] (mkFile abc_stream 59 false)).
  - vm_compute. reflexivity.
  - reflexivity.
  - lia.
  - vm_compute. reflexivity.
Defined.

Lemma reader_read_raises_AttributeError_witness :
  (the_state (new_reader RefZlib.lib abc_stream)) !! "_within_block_offset" = Some (VInt 0) /\
  BgzfReader.read RefZlib.lib 1 (the_state (new_reader RefZlib.lib abc_stream))
  = Raise (AttributeError "_with_block_offset") (the_state (new_reader RefZlib.lib abc_stream)).
Proof.
  apply (reader_read_raises_AttributeError RefZlib.lib RefZlib.no_open None None
           (Some (File.of_bytes abc_stream))).
  - apply succeeded_Ok. vm_compute. reflexivity.
  - lia.
Defined.

Lemma writer_tell_raises_AttributeError_witness :
  BgzfWriter.tell (the_state (new_writer 6))
  = Raise (AttributeError "handle") (the_state (new_writer 6)) /\
  BgzfWriter.tell (<["_buffer" := VStr abc]> (the_state (new_writer 6)))
  = Raise (AttributeError "handle") (<["_buffer" := VStr abc]> (the_state (new_writer 6))).
Proof.
  apply (writer_tell_raises_AttributeError RefZlib.no_open None None (Some File.empty) 6).
  apply succeeded_Ok. vm_compute. reflexivity.
Defined.

Lemma load_bgzf_block_failure_modes_witness :
  _load_bgzf_block RefZlib.lib (File.of_bytes []) = Raise StopIteration (File.of_bytes []) /\
  (exists handle',
      _load_bgzf_block RefZlib.lib (File.of_bytes abc)
      = Raise (ValueError "A BGZF (e.g. a BAM file) block should start with 1f 8b 08 04")
          handle') /\
  firstn 4 (trailer (mkFile abc_stream 31 false)) = le_split 4 (zlib_crc32 RefZlib.lib abc) /\
  struct.unpack_I (skipn 4 (trailer (mkFile abc_stream 31 false))) = Val (len abc).
Proof.
  split; [|split].
  - apply (load_bgzf_block_failure_modes RefZlib.lib (File.of_bytes []) eq_refl).
    reflexivity.
  - apply (load_bgzf_block_failure_modes RefZlib.lib (File.of_bytes abc) eq_refl).
    + unfold eof. vm_compute. discriminate.
    + vm_compute. discriminate.
  - apply (proj2 (proj2 (proj2
             (load_bgzf_block_failure_modes RefZlib.lib (File.of_bytes abc_stream) eq_refl)))
             0 31 abc (mkFile abc_stream 31 false)).
    vm_compute. reflexivity.
Defined.

Lemma load_bgzf_block_consumes_block_size_witness :
  (0 = Z.of_nat (pos (File.of_bytes abc_stream)) /\
   Z.of_nat (pos (mkFile abc_stream 31 false)) = 0 + 31 /\
   content (mkFile abc_stream 31 false) = content (File.of_bytes abc_stream)) /\
  contiguous (Z.of_nat (pos (File.of_bytes abc_stream))) [(0, 31, 3); (31, 28, 0)].
Proof.
  split.
  - apply (proj1 (load_bgzf_block_consumes_block_size RefZlib.lib (File.of_bytes abc_stream))
             0 31 abc (mkFile abc_stream 31 false)).
    vm_compute. reflexivity.
  - apply (proj1 (proj2 (load_bgzf_block_consumes_block_size RefZlib.lib
                            (File.of_bytes abc_stream)))
             [(0, 31, 3); (31, 28, 0)] (mkFile abc_stream 59 false)).
    vm_compute. reflexivity.
Defined.

(** C9: [flush()] is claimed to emit the complete 65536-byte chunks of the
    pending buffer and then the rest. A [write] of 65536 bytes that fails (at
    level 0 the chunk does not deflate below 65536 bytes) leaves them in the
    buffer; once the level is raised, [flush()] emits a block of 65535 bytes
    and a block of 1 byte, where the claim has a block of 65536 bytes and an
    empty block. The rest of the claim holds: flushing a new writer twice
    gives two empty blocks, and the buffer is empty afterwards. *)
Theorem flush_cuts_65535_byte_chunks :
  let failed := BgzfWriter.write RefZlib.lib (zeros 65536) (writer_on File.empty 0) in
  let retried :=
    and_then (and_then failed (setattr "compresslevel" (VInt 6)))
      (BgzfWriter.flush RefZlib.lib) in
  let twice :=
    and_then (BgzfWriter.flush RefZlib.lib (writer_on File.empty 6))
      (BgzfWriter.flush RefZlib.lib) in
  exception failed
    = Some (AssertionError "TODO - Didn't compress enough, try less data in this block") /\
  buffer_len failed = Some 65536 /\
  succeeded retried = true /\
  listing RefZlib.lib retried = Some [(0, 443, 65535); (443, 29, 1)] /\
  buffer_len retried = Some 0 /\
  succeeded twice = true /\
  listing RefZlib.lib twice = Some [(0, 28, 0); (28, 28, 0)] /\
  buffer_len twice = Some 0.
Proof.
  cbv zeta. repeat (apply conj; [vm_compute; reflexivity|]). vm_compute. reflexivity.
Qed.

(** * Further properties *)

(** ** Virtual offsets as numbers *)

Lemma packed_value block_start_offset within_block_offset :
  0 <= within_block_offset < 2 ^ 16 ->
  Z.lor (Z.shiftl block_start_offset 16) within_block_offset
  = block_start_offset * 2 ^ 16 + within_block_offset.
Proof.
  intros Hw. rewrite <- Z.shiftl_mul_pow2 by lia.
  rewrite <- Z.lxor_lor, <- Z.add_nocarry_lxor; try reflexivity;
    apply Z.bits_inj'; intros n Hn; rewrite Z.land_spec, Z.bits_0;
    destruct (Z.ltb_spec n 16) as [Hlt|Hge];
    try (rewrite Z.shiftl_spec_low by lia; reflexivity);
    (destruct (Z.eq_dec within_block_offset 0) as [->|Hne];
     [rewrite Z.bits_0; apply andb_false_r|]);
    rewrite (Z.bits_above_log2 within_block_offset n), andb_false_r; try reflexivity; try lia;
    apply Z.lt_le_trans with 16; try lia; apply Z.log2_lt_pow2; lia.
Qed.

Lemma make_virtual_offset_inv block_start_offset within_block_offset v :
  make_virtual_offset block_start_offset within_block_offset = Val v ->
  0 <= within_block_offset < 2 ^ 16 /\ 0 <= block_start_offset < 2 ^ 28 /\
  v = block_start_offset * 2 ^ 16 + within_block_offset.
Proof.
  unfold make_virtual_offset.
  destruct (Z.ltb_spec within_block_offset 0); [discriminate|].
  destruct (Z.geb_spec within_block_offset (2 ^ 16)); [discriminate|].
  destruct (Z.ltb_spec block_start_offset 0); [discriminate|].
  destruct (Z.geb_spec block_start_offset (2 ^ 28)); [discriminate|].
  simpl. intros [= <-]. rewrite packed_value by lia. lia.
Qed.

Lemma split_virtual_offset_div_mod virtual_offset :
  split_virtual_offset virtual_offset = (virtual_offset / 2 ^ 16, virtual_offset mod 2 ^ 16).
Proof.
  unfold split_virtual_offset. cbv zeta. rewrite Z.shiftr_div_pow2 by lia. f_equal.
  rewrite <- Z.shiftr_div_pow2 by lia.
  apply Z.bits_inj'. intros n Hn. rewrite Z.lxor_spec.
  destruct (Z.ltb_spec n 16) as [Hlt|Hge].
  - rewrite Z.shiftl_spec_low by lia. rewrite Z.mod_pow2_bits_low by lia.
    apply xorb_false_r.
  - rewrite Z.shiftl_spec by lia. rewrite Z.shiftr_spec by lia.
    replace (n - 16 + 16) with n by lia. rewrite Z.mod_pow2_bits_high by lia.
    apply xorb_nilpotent.
Qed.

(** X1: [make_virtual_offset] returns exactly when the within-block offset
    is in [0, 2^16) and the block start in [0, 2^28); what it returns is
    the number [block_start_offset * 2^16 + within_block_offset], which is
    below 2^44. *)
Theorem make_virtual_offset_returns_iff (block_start_offset within_block_offset : Z) :
  ((exists v, make_virtual_offset block_start_offset within_block_offset = Val v) <->
   0 <= within_block_offset < 2 ^ 16 /\ 0 <= block_start_offset < 2 ^ 28) /\
  (forall v, make_virtual_offset block_start_offset within_block_offset = Val v ->
             v = block_start_offset * 2 ^ 16 + within_block_offset /\ 0 <= v < 2 ^ 44).
Proof.
  split; [split|].
  - intros (v & H). apply make_virtual_offset_inv in H. tauto.
  - intros (Hw & Hb). eexists. apply make_virtual_offset_Val; assumption.
  - intros v H. apply make_virtual_offset_inv in H as (Hw & Hb & ->). split; [reflexivity|lia].
Qed.

(** X2: [split_virtual_offset] is division by 2^16 with remainder, for
    every integer, negative ones included: the second component is in
    [0, 2^16) and the two components give the offset back. *)
Theorem split_virtual_offset_is_divmod (virtual_offset : Z) :
  split_virtual_offset virtual_offset = (virtual_offset / 2 ^ 16, virtual_offset mod 2 ^ 16) /\
  0 <= snd (split_virtual_offset virtual_offset) < 2 ^ 16 /\
  virtual_offset
  = fst (split_virtual_offset virtual_offset) * 2 ^ 16 + snd (split_virtual_offset virtual_offset).
Proof.
  rewrite split_virtual_offset_div_mod. cbn [fst snd].
  pose proof (Z.mod_pos_bound virtual_offset (2 ^ 16) ltac:(lia)).
  pose proof (Z.div_mod virtual_offset (2 ^ 16) ltac:(lia)).
  split; [reflexivity|]. split; lia.
Qed.

(** X3: packing what [split_virtual_offset] returns gives the virtual
    offset back, for every virtual offset in [0, 2^44). *)
Theorem make_split_virtual_offset (virtual_offset : Z) :
  0 <= virtual_offset < 2 ^ 44 ->
  make_virtual_offset (fst (split_virtual_offset virtual_offset))
                      (snd (split_virtual_offset virtual_offset))
  = Val virtual_offset.
Proof.
  intros Hv. rewrite split_virtual_offset_div_mod. cbn [fst snd].
  pose proof (Z.mod_pos_bound virtual_offset (2 ^ 16) ltac:(lia)) as Hm.
  pose proof (Z.div_mod virtual_offset (2 ^ 16) ltac:(lia)) as Hd.
  assert (Hq : 0 <= virtual_offset / 2 ^ 16 < 2 ^ 28).
  { split; [apply Z.div_pos; lia|]. apply Z.div_lt_upper_bound; lia. }
  rewrite make_virtual_offset_Val by assumption.
  rewrite packed_value by assumption. f_equal. lia.
Qed.

Lemma make_split_virtual_offset_witness :
  make_virtual_offset (fst (split_virtual_offset 6553600010))
                      (snd (split_virtual_offset 6553600010))
  = Val 6553600010.
Proof. apply (make_split_virtual_offset 6553600010). lia. Defined.

(** X5: virtual offsets compare as the pairs they pack: first by block
    start, then by the offset within the block. *)
Theorem make_virtual_offset_order (b1 w1 b2 w2 v1 v2 : Z) :
  make_virtual_offset b1 w1 = Val v1 ->
  make_virtual_offset b2 w2 = Val v2 ->
  (v1 < v2 <-> b1 < b2 \/ (b1 = b2 /\ w1 < w2)) /\
  (v1 = v2 <-> b1 = b2 /\ w1 = w2).
Proof.
  intros H1 H2.
  apply make_virtual_offset_inv in H1 as (Hw1 & Hb1 & ->).
  apply make_virtual_offset_inv in H2 as (Hw2 & Hb2 & ->).
  change (2 ^ 16) with 65536 in *. lia.
Qed.

Lemma make_virtual_offset_order_witness :
  (131071 < 6553600000 <-> 1 < 100000 \/ (1 = 100000 /\ 65535 < 0)) /\
  (131071 = 6553600000 <-> 1 = 100000 /\ 65535 = 0).
Proof.
  apply (make_virtual_offset_order 1 65535 100000 0 131071 6553600000); reflexivity.
Defined.

Lemma split_make_virtual_offset_witness :
  split_virtual_offset 6553600010 = (100000, 10).
Proof. apply (split_make_virtual_offset 100000 10 6553600010). reflexivity. Defined.

(** ** The decoder only reads *)

Lemma read_on_refl f : read_on f f.
Proof. unfold read_on. auto. Qed.

Lemma read_on_trans f1 f2 f3 : read_on f1 f2 -> read_on f2 f3 -> read_on f1 f3.
Proof. unfold read_on. intros (? & ? & ?) (? & ? & ?). repeat split; try congruence. lia. Qed.

Lemma keeps_bind {A B} (m : M file A) (k : A -> M file B) f :
  keeps f (m f) -> (forall a f1, m f = Ok a f1 -> keeps f1 (k a f1)) ->
  keeps f (bind m k f).
Proof.
  unfold keeps, bind. intros Hm Hk f' H.
  destruct (m f) as [a f1|e f1|] eqn:E.
  - eapply read_on_trans; [apply Hm; reflexivity|]. eapply Hk; [reflexivity | exact H].
  - apply Hm. exact H.
  - discriminate.
Qed.

Lemma keeps_pure {A} (m : M file A) f :
  (forall f', state_after (m f) = Some f' -> f' = f) -> keeps f (m f).
Proof. intros H f' E. apply H in E. subst. apply read_on_refl. Qed.

Lemma keeps_tell f : keeps f (File.tell f).
Proof. apply keeps_pure. unfold File.tell. destruct (closed f); simpl; congruence. Qed.

Lemma keeps_read n f : keeps f (File.read n f).
Proof.
  unfold keeps, File.read. destruct (closed f) eqn:E; simpl; intros f' [= <-].
  - apply read_on_refl.
  - unfold read_on. simpl. repeat split; [congruence | lia].
Qed.

Lemma keeps_lift {A} (r : res A) f : keeps f (lift r f).
Proof. apply keeps_pure. unfold lift. destruct r; simpl; congruence. Qed.

Lemma keeps_or_raise {A} (o : option A) e f : keeps f (or_raise o e f).
Proof. apply keeps_pure. unfold or_raise, ret, raise. destruct o; simpl; congruence. Qed.

Lemma keeps_assert cond msg (f : file) : keeps f (assert cond msg f).
Proof. apply keeps_pure. unfold assert, ret, raise. destruct cond; simpl; congruence. Qed.

Lemma keeps_ret {A} (a : A) (f : file) : keeps f (ret a f).
Proof. apply keeps_pure. simpl. congruence. Qed.

Lemma keeps_raise {A} e (f : file) : keeps f (@raise file A e f).
Proof. apply keeps_pure. simpl. congruence. Qed.

Ltac keeps_step :=
  first [ apply keeps_ret | apply keeps_raise
        | apply keeps_bind;
          [ first [ apply keeps_tell | apply keeps_read | apply keeps_lift
                  | apply keeps_or_raise | apply keeps_assert ]
          | intros ? ? _ ] ].

Section DecoderReads.
Context (zlib : Zlib).

Lemma keeps_load_subfields fuel : forall extra_len x_len block_size f,
  keeps f (load_subfields fuel extra_len x_len block_size f).
Proof.
  induction fuel as [|fuel IH]; intros extra_len x_len block_size f; cbn [load_subfields];
    destruct (x_len <? extra_len); try apply keeps_ret.
  - intros f' H. discriminate H.
  - do 4 keeps_step. destruct (decide (_ = BC)); [do 3 keeps_step|]; apply IH.
Qed.

Lemma keeps__load_bgzf_block f : keeps f (_load_bgzf_block zlib f).
Proof.
  unfold _load_bgzf_block. do 2 keeps_step.
  destruct (decide (_ = [])); [apply keeps_raise|].
  destruct (decide (_ <> bgzf_magic)); [apply keeps_raise|].
  do 5 keeps_step.
  apply keeps_bind; [apply keeps_load_subfields | intros ? ? _].
  repeat keeps_step.
Qed.

Lemma keeps_blocks_loop {A} (yield : Z * Z * bytes -> A) fuel : forall f,
  keeps f (blocks_loop zlib yield fuel f).
Proof.
  induction fuel as [|fuel IH]; intros f f'; cbn [blocks_loop];
    pose proof (keeps__load_bgzf_block f) as K; unfold keeps in K;
    destruct (_load_bgzf_block zlib f) as [blk f1|e f1|] eqn:E; try discriminate.
  - destruct e; simpl; intros [= <-]; apply K; reflexivity.
  - specialize (IH f1). unfold keeps in IH.
    destruct (blocks_loop zlib yield fuel f1) as [rest f2|e f2|] eqn:E2; simpl;
      try discriminate; intros [= <-];
      (eapply read_on_trans; [apply K; reflexivity | apply IH; reflexivity]).
  - destruct e; simpl; intros [= <-]; apply K; reflexivity.
Qed.

End DecoderReads.

(** X6: the decoder only reads. Whether [_load_bgzf_block] returns a block
    or raises, and whether [BgzfBlocks] runs to the end or raises, the file is
    left with the bytes it had, open or closed as it was, at a position not
    before the one it had. *)
Theorem decoder_only_reads (zlib : Zlib) (handle : file) :
  (exists handle', state_after (_load_bgzf_block zlib handle) = Some handle' /\
                   read_on handle handle') /\
  (exists handle', state_after (BgzfBlocks zlib handle) = Some handle' /\
                   read_on handle handle').
Proof.
  split.
  - pose proof (_load_bgzf_block_not_OutOfFuel zlib handle) as N.
    pose proof (keeps__load_bgzf_block zlib handle) as K. unfold keeps in K.
    destruct (_load_bgzf_block zlib handle) as [a f|e f|]; [| |congruence];
      exists f; (split; [reflexivity | apply K; reflexivity]).
  - pose proof (BgzfBlocks_not_OutOfFuel zlib handle) as N.
    pose proof (keeps_blocks_loop zlib
                  (fun blk => (fst (fst blk), snd (fst blk), len (snd blk)))
                  (blocks_fuel handle) handle) as K.
    unfold keeps in K. fold (BgzfBlocks zlib handle) in K.
    destruct (BgzfBlocks zlib handle) as [a f|e f|]; [| |congruence];
      exists f; (split; [reflexivity | apply K; reflexivity]).
Qed.

(** ** A file that ends in the header *)

Lemma read_firstn n f :
  closed f = false -> 0 <= n ->
  exists f', File.read n f = Ok (firstn (Z.to_nat n) (File.remaining f)) f' /\
             closed f' = false /\
             File.remaining f' = skipn (Z.to_nat n) (File.remaining f).
Proof.
  intros Hc Hn. rewrite (read_Ok _ _ Hc). cbv zeta.
  destruct (Z.ltb_spec n 0); [lia|]. eexists. split; [reflexivity|]. split; [reflexivity|].
  rewrite remaining_after. rewrite length_firstn.
  destruct (Nat.le_gt_cases (Z.to_nat n) (length (File.remaining f))).
  - f_equal. lia.
  - rewrite Nat.min_r by lia. rewrite !skipn_all2 by lia. reflexivity.
Qed.

(** X7: a file that has the four magic bytes but ends before the twelve
    bytes of the gzip header are complete makes the decoder raise
    [struct.error]: the two bytes of the extra length cannot be unpacked. *)
Theorem load_bgzf_block_truncated_header (zlib : Zlib) (handle : file) (t : bytes) :
  closed handle = false ->
  File.remaining handle = bgzf_magic ++ t ->
  (length t < 8)%nat ->
  exception (_load_bgzf_block zlib handle) = Some StructError.
Proof.
  intros Hc Hr Ht. unfold _load_bgzf_block.
  rewrite (bind_Ok _ _ _ _ _ (tell_Ok _ Hc)).
  destruct (read_app_step 4 _ _ handle Hc Hr eq_refl) as (f1 & R1 & Hc1 & Hr1 & _).
  rewrite (bind_Ok _ _ _ _ _ R1).
  destruct (decide (bgzf_magic = [])) as [E|_]; [discriminate E|].
  destruct (decide (bgzf_magic <> bgzf_magic)) as [E|_]; [congruence|].
  destruct (read_firstn 4 f1 Hc1 ltac:(lia)) as (f2 & R2 & Hc2 & Hr2).
  rewrite (bind_Ok _ _ _ _ _ R2).
  destruct (read_firstn 1 f2 Hc2 ltac:(lia)) as (f3 & R3 & Hc3 & Hr3).
  rewrite (bind_Ok _ _ _ _ _ R3).
  destruct (read_firstn 1 f3 Hc3 ltac:(lia)) as (f4 & R4 & Hc4 & Hr4).
  rewrite (bind_Ok _ _ _ _ _ R4).
  destruct (read_firstn 2 f4 Hc4 ltac:(lia)) as (f5 & R5 & Hc5 & Hr5).
  rewrite (bind_Ok _ _ _ _ _ R5).
  assert (Hs : (length (firstn (Z.to_nat 2) (File.remaining f4)) < 2)%nat).
  { rewrite length_firstn, Hr4, Hr3, Hr2, Hr1, !length_skipn. lia. }
  unfold struct.unpack_H, len.
  destruct (Z.eqb_spec (Z.of_nat (length (firstn (Z.to_nat 2) (File.remaining f4)))) 2);
    [lia|].
  reflexivity.
Qed.

Lemma load_bgzf_block_truncated_header_witness :
  exception (_load_bgzf_block RefZlib.lib (File.of_bytes (firstn 11 empty_block)))
  = Some StructError.
Proof.
  apply (load_bgzf_block_truncated_header RefZlib.lib (File.of_bytes (firstn 11 empty_block))
           (firstn 7 (skipn 4 empty_block))).
  - reflexivity.
  - reflexivity.
  - simpl. lia.
Defined.

(** ** The subfields of the extra field *)

Lemma len_subfield id data : len (subfield id data) = len id + 2 + len data.
Proof. unfold subfield. rewrite !len_app, len_le_split. lia. Qed.

Lemma extra_field_cons x l :
  extra_field (x :: l) = subfield (fst x) (snd x) ++ extra_field l.
Proof. reflexivity. Qed.

Lemma len_foreign x : foreign x -> len (subfield (fst x) (snd x)) = len (snd x) + 4.
Proof. intros (H & _). rewrite len_subfield. unfold len at 1. rewrite H. lia. Qed.

Lemma extra_field_count l :
  Forall foreign l -> 4 * Z.of_nat (length l) <= len (extra_field l).
Proof.
  induction 1 as [|x l Hx _ IH]; [unfold len; simpl; lia|].
  rewrite extra_field_cons, len_app, (len_foreign x Hx).
  pose proof (len_nonneg (snd x)). simpl length. lia.
Qed.

Lemma unpack_H_le_split v : 0 <= v <= 65535 -> struct.unpack_H (le_split 2 v) = Val v.
Proof.
  intros Hv. unfold struct.unpack_H. rewrite len_le_split. change (Z.of_nat 2 =? 2) with true.
  cbv iota. rewrite le_combine_split. f_equal.
  change (2 ^ (Z.of_nat 2 * 8)) with 65536. apply Z.mod_small. lia.
Qed.

Lemma unpack_I_le_split v : 0 <= v <= 4294967295 -> struct.unpack_I (le_split 4 v) = Val v.
Proof.
  intros Hv. unfold struct.unpack_I. rewrite len_le_split. change (Z.of_nat 4 =? 4) with true.
  cbv iota. rewrite le_combine_split. f_equal.
  change (2 ^ (Z.of_nat 4 * 8)) with 4294967296. apply Z.mod_small. lia.
Qed.

(** The three reads of one round of the loop, on a subfield. *)
Lemma read_subfield f id data rest :
  closed f = false -> length id = 2%nat -> len data <= 65535 ->
  File.remaining f = subfield id data ++ rest ->
  exists f1 f2 f3,
    File.read 2 f = Ok id f1 /\
    File.read 2 f1 = Ok (le_split 2 (len data)) f2 /\
    struct.unpack_H (le_split 2 (len data)) = Val (len data) /\
    File.read (len data) f2 = Ok data f3 /\
    closed f3 = false /\ File.remaining f3 = rest /\ content f3 = content f.
Proof.
  intros Hc Hid Hd Hr. unfold subfield in Hr. rewrite <- !app_assoc in Hr.
  pose proof (len_nonneg data).
  destruct (read_app_step 2 _ _ f Hc Hr ltac:(unfold len; lia))
    as (f1 & R1 & Hc1 & Hr1 & Hk1 & _).
  destruct (read_app_step 2 _ _ f1 Hc1 Hr1 ltac:(symmetry; apply len_le_split))
    as (f2 & R2 & Hc2 & Hr2 & Hk2 & _).
  destruct (read_app_step (len data) _ _ f2 Hc2 Hr2 eq_refl)
    as (f3 & R3 & Hc3 & Hr3 & Hk3 & _).
  exists f1, f2, f3. repeat split; try assumption; [apply unpack_H_le_split; lia | congruence].
Qed.

Section Subfields.
Context (zlib : Zlib).

Lemma load_subfields_foreign fuel extra_len x_len block_size f x rest :
  closed f = false -> foreign x -> x_len < extra_len ->
  File.remaining f = subfield (fst x) (snd x) ++ rest ->
  exists f',
    load_subfields (S fuel) extra_len x_len block_size f
    = load_subfields fuel extra_len (x_len + (len (snd x) + 4)) block_size f' /\
    closed f' = false /\ File.remaining f' = rest /\ content f' = content f.
Proof.
  intros Hc (Hid & Hne & Hd) Hx Hr.
  destruct (read_subfield f _ _ rest Hc Hid Hd Hr)
    as (f1 & f2 & f3 & R1 & R2 & U & R3 & Hc3 & Hr3 & Hk3).
  exists f3. split; [|auto].
  cbn [load_subfields]. destruct (Z.ltb_spec x_len extra_len); [|lia].
  rewrite (bind_Ok _ _ _ _ _ R1), (bind_Ok _ _ _ _ _ R2). rewrite U.
  rewrite (bind_Ok _ _ _ (len (snd x)) f2) by reflexivity.
  rewrite (bind_Ok _ _ _ _ _ R3).
  destruct (decide (fst x = BC)); [contradiction | reflexivity].
Qed.

Lemma load_subfields_skip l : forall fuel extra_len x_len block_size f rest,
  closed f = false -> Forall foreign l ->
  x_len + len (extra_field l) <= extra_len ->
  (length l <= fuel)%nat ->
  File.remaining f = extra_field l ++ rest ->
  exists f',
    load_subfields fuel extra_len x_len block_size f
    = load_subfields (fuel - length l) extra_len (x_len + len (extra_field l)) block_size f' /\
    closed f' = false /\ File.remaining f' = rest /\ content f' = content f.
Proof.
  induction l as [|x l IH]; intros fuel extra_len x_len block_size f rest Hc Hl Hx Hf Hr.
  - exists f. simpl. rewrite Nat.sub_0_r. change (len (@nil byte)) with 0.
    rewrite Z.add_0_r. auto.
  - apply Forall_cons in Hl as (Hx1 & Hl).
    rewrite extra_field_cons in Hr, Hx. rewrite <- app_assoc in Hr.
    rewrite len_app, (len_foreign x Hx1) in Hx.
    pose proof (len_nonneg (snd x)). pose proof (len_nonneg (extra_field l)).
    destruct fuel as [|fuel]; [simpl in Hf; lia|].
    destruct (load_subfields_foreign fuel extra_len x_len block_size f x _ Hc Hx1
                ltac:(lia) Hr) as (f1 & E1 & Hc1 & Hr1 & Hk1).
    destruct (IH fuel extra_len (x_len + (len (snd x) + 4)) block_size f1 rest Hc1 Hl
                ltac:(lia) ltac:(simpl in Hf; lia) Hr1) as (f2 & E2 & Hc2 & Hr2 & Hk2).
    exists f2. split; [|split; [exact Hc2 | split; [exact Hr2 | congruence]]].
    rewrite E1, E2. rewrite extra_field_cons, len_app, (len_foreign x Hx1).
    cbn [length]. replace (S fuel - S (length l))%nat with (fuel - length l)%nat by lia.
    f_equal. lia.
Qed.

(** The round of the loop on the subfield BC. *)
Lemma load_subfields_BC_first fuel extra_len x_len f v rest :
  closed f = false -> 0 <= v <= 65535 -> x_len < extra_len ->
  File.remaining f = subfield BC (le_split 2 v) ++ rest ->
  exists f',
    load_subfields (S fuel) extra_len x_len None f
    = load_subfields fuel extra_len (x_len + 6) (Some (v + 1)) f' /\
    closed f' = false /\ File.remaining f' = rest /\ content f' = content f.
Proof.
  intros Hc Hv Hx Hr.
  assert (Hd : len (le_split 2 v) = 2) by apply len_le_split.
  assert (Hd' : len (le_split 2 v) <= 65535) by lia.
  destruct (read_subfield f BC _ rest Hc eq_refl Hd' Hr)
    as (f1 & f2 & f3 & R1 & R2 & U & R3 & Hc3 & Hr3 & Hk3).
  exists f3. split; [|auto].
  cbn [load_subfields]. destruct (Z.ltb_spec x_len extra_len); [|lia].
  rewrite (bind_Ok _ _ _ _ _ R1), (bind_Ok _ _ _ _ _ R2). rewrite U.
  rewrite (bind_Ok _ _ _ (len (le_split 2 v)) f2) by reflexivity.
  rewrite (bind_Ok _ _ _ _ _ R3).
  destruct (decide (BC = BC)) as [_|E]; [|congruence].
  rewrite Hd. rewrite (bind_Ok _ _ _ tt f3) by reflexivity.
  rewrite (bind_Ok _ _ _ tt f3) by reflexivity.
  rewrite (unpack_H_le_split v Hv).
  rewrite (bind_Ok _ _ _ v f3) by reflexivity.
  replace (x_len + (2 + 4)) with (x_len + 6) by lia. reflexivity.
Qed.

Lemma load_subfields_BC_second fuel extra_len x_len block_size f data rest :
  closed f = false -> len data = 2 -> x_len < extra_len ->
  File.remaining f = subfield BC data ++ rest ->
  exception (load_subfields (S fuel) extra_len x_len (Some block_size) f)
  = Some (AssertionError "Two BC subfields?").
Proof.
  intros Hc Hd Hx Hr.
  assert (Hd' : len data <= 65535) by lia.
  destruct (read_subfield f BC _ rest Hc eq_refl Hd' Hr)
    as (f1 & f2 & f3 & R1 & R2 & U & R3 & Hc3 & Hr3 & Hk3).
  cbn [load_subfields]. destruct (Z.ltb_spec x_len extra_len); [|lia].
  rewrite (bind_Ok _ _ _ _ _ R1), (bind_Ok _ _ _ _ _ R2). rewrite U.
  rewrite (bind_Ok _ _ _ (len data) f2) by reflexivity.
  rewrite (bind_Ok _ _ _ _ _ R3).
  destruct (decide (BC = BC)) as [_|E]; [|congruence].
  rewrite Hd. rewrite (bind_Ok _ _ _ tt f3) by reflexivity.
  reflexivity.
Qed.

Lemma load_subfields_BC_wrong_length fuel extra_len x_len block_size f data rest :
  closed f = false -> len data <= 65535 -> len data <> 2 -> x_len < extra_len ->
  File.remaining f = subfield BC data ++ rest ->
  exception (load_subfields (S fuel) extra_len x_len block_size f)
  = Some (AssertionError "Wrong BC payload length").
Proof.
  intros Hc Hd Hn Hx Hr.
  destruct (read_subfield f BC _ rest Hc eq_refl Hd Hr)
    as (f1 & f2 & f3 & R1 & R2 & U & R3 & Hc3 & Hr3 & Hk3).
  cbn [load_subfields]. destruct (Z.ltb_spec x_len extra_len); [|lia].
  rewrite (bind_Ok _ _ _ _ _ R1), (bind_Ok _ _ _ _ _ R2). rewrite U.
  rewrite (bind_Ok _ _ _ (len data) f2) by reflexivity.
  rewrite (bind_Ok _ _ _ _ _ R3).
  destruct (decide (BC = BC)) as [_|E]; [|congruence].
  destruct (Z.eqb_spec (len data) 2); [contradiction|]. reflexivity.
Qed.

(** The header up to the extra field. *)
Lemma load_header f header extra_len rest :
  closed f = false -> length header = 6%nat -> 0 <= extra_len <= 65535 ->
  File.remaining f = bgzf_magic ++ header ++ le_split 2 extra_len ++ rest ->
  exists f',
    closed f' = false /\ File.remaining f' = rest /\ content f' = content f /\
    _load_bgzf_block zlib f
    = (r <- load_subfields (Z.to_nat extra_len) extra_len 0 None ;;
       assert (fst r =? extra_len) "(x_len, extra_len)" ;;
       block_size <- or_raise (snd r) (AssertionError "Missing BC, this isn't a BGZF file!") ;;
       let deflate_size := block_size - 1 - extra_len - 19 in
       s <- File.read deflate_size ;;
       data <- or_raise (zlib_decompress zlib s) ZlibError ;;
       expected_crc <- File.read 4 ;;
       s <- File.read 4 ;;
       expected_size <- lift (struct.unpack_I s) ;;
       assert (expected_size =? len data) "Decompressed to %i, not %i" ;;
       let crc := zlib_crc32 zlib data in
       crc <- lift (if crc <? 0 then struct.pack_i crc else struct.pack_I crc) ;;
       assert (bool_decide (expected_crc = crc)) "CRC is %s, not %s" ;;
       ret (Z.of_nat (pos f), block_size, data)) f'.
Proof.
  intros Hc Hh He Hr.
  rewrite <- (firstn_skipn 4 header) in Hr.
  rewrite <- (firstn_skipn 1 (skipn 4 header)) in Hr.
  rewrite skipn_skipn in Hr. rewrite <- !app_assoc in Hr.
  destruct (read_app_step 4 _ _ f Hc Hr eq_refl) as (f1 & R1 & Hc1 & Hr1 & Hk1 & _).
  destruct (read_app_step 4 _ _ f1 Hc1 Hr1
              ltac:(unfold len; rewrite length_firstn; lia))
    as (f2 & R2 & Hc2 & Hr2 & Hk2 & _).
  destruct (read_app_step 1 _ _ f2 Hc2 Hr2
              ltac:(unfold len; rewrite length_firstn, length_skipn; lia))
    as (f3 & R3 & Hc3 & Hr3 & Hk3 & _).
  destruct (read_app_step 1 _ _ f3 Hc3 Hr3
              ltac:(unfold len; rewrite length_skipn; lia))
    as (f4 & R4 & Hc4 & Hr4 & Hk4 & _).
  destruct (read_app_step 2 _ _ f4 Hc4 Hr4 ltac:(symmetry; apply len_le_split))
    as (f5 & R5 & Hc5 & Hr5 & Hk5 & _).
  exists f5. split; [exact Hc5|]. split; [exact Hr5|]. split; [congruence|].
  unfold _load_bgzf_block.
  rewrite (bind_Ok _ _ _ _ _ (tell_Ok _ Hc)).
  rewrite (bind_Ok _ _ _ _ _ R1).
  destruct (decide (bgzf_magic = [])) as [E|_]; [discriminate E|].
  destruct (decide (bgzf_magic <> bgzf_magic)) as [E|_]; [congruence|].
  rewrite (bind_Ok _ _ _ _ _ R2), (bind_Ok _ _ _ _ _ R3), (bind_Ok _ _ _ _ _ R4),
    (bind_Ok _ _ _ _ _ R5).
  rewrite (unpack_H_le_split _ He).
  rewrite (bind_Ok _ _ _ extra_len f5) by reflexivity.
  reflexivity.
Qed.

End Subfields.

Lemma exception_bind {St A B} (m : M St A) (k : A -> M St B) s e :
  exception (m s) = Some e -> exception (bind m k s) = Some e.
Proof. unfold bind, exception. destruct (m s); congruence. Qed.

Lemma load_subfields_done fuel extra_len block_size (f : file) :
  load_subfields fuel extra_len extra_len block_size f = Ok (extra_len, block_size) f.
Proof. destruct fuel; simpl; rewrite Z.ltb_irrefl; reflexivity. Qed.

Section Members.
Context (zlib : Zlib).

Lemma load_subfields_member pre post v f rest :
  closed f = false -> Forall foreign pre -> Forall foreign post ->
  0 <= v <= 65535 ->
  len (extra_field pre) + 6 + len (extra_field post) <= 65535 ->
  File.remaining f
  = extra_field pre ++ subfield BC (le_split 2 v) ++ extra_field post ++ rest ->
  exists f',
    load_subfields (Z.to_nat (len (extra_field pre) + 6 + len (extra_field post)))
      (len (extra_field pre) + 6 + len (extra_field post)) 0 None f
    = Ok (len (extra_field pre) + 6 + len (extra_field post), Some (v + 1)) f' /\
    closed f' = false /\ File.remaining f' = rest /\ content f' = content f.
Proof.
  intros Hc Hpre Hpost Hv He Hr.
  pose proof (extra_field_count pre Hpre) as Cpre.
  pose proof (extra_field_count post Hpost) as Cpost.
  set (extra_len := len (extra_field pre) + 6 + len (extra_field post)) in *.
  destruct (load_subfields_skip pre (Z.to_nat extra_len) extra_len 0 None f _ Hc Hpre
              ltac:(lia) ltac:(lia) Hr) as (f1 & E1 & Hc1 & Hr1 & Hk1).
  rewrite E1. rewrite Z.add_0_l.
  destruct (Z.to_nat extra_len - length pre)%nat as [|fuel] eqn:Ef; [lia|].
  destruct (load_subfields_BC_first fuel extra_len (len (extra_field pre)) f1 v _ Hc1 Hv
              ltac:(lia) Hr1) as (f2 & E2 & Hc2 & Hr2 & Hk2).
  rewrite E2.
  destruct (load_subfields_skip post fuel extra_len (len (extra_field pre) + 6)
              (Some (v + 1)) f2 rest Hc2 Hpost ltac:(lia) ltac:(lia) Hr2)
    as (f3 & E3 & Hc3 & Hr3 & Hk3).
  rewrite E3. fold extra_len. rewrite load_subfields_done.
  exists f3. split; [reflexivity|]. split; [exact Hc3|]. split; [exact Hr3|]. congruence.
Qed.

End Members.

(** X9: the decoder reads a gzip member whatever its modification time,
    extra flags and operating system bytes are, and whatever subfields other
    than BC stand before and after the BC subfield in its extra field: it
    returns the start, the size the BC subfield declares and the inflated
    data, and leaves the file just after the member. *)
Theorem load_bgzf_block_skips_other_subfields (zlib : Zlib) (handle : file)
    (header : bytes) (pre post : list (bytes * bytes)) (compressed payload rest : bytes) :
  closed handle = false ->
  length header = 6%nat ->
  Forall foreign pre -> Forall foreign post ->
  member_size pre post compressed <= 65536 ->
  zlib_decompress zlib compressed = Some payload ->
  -2147483648 <= zlib_crc32 zlib payload <= 4294967295 ->
  len payload <= 4294967295 ->
  File.remaining handle
  = member header pre post compressed (zlib_crc32 zlib payload) (len payload) ++ rest ->
  exists handle',
    _load_bgzf_block zlib handle
    = Ok (Z.of_nat (pos handle), member_size pre post compressed, payload) handle' /\
    File.remaining handle' = rest /\ content handle' = content handle.
Proof.
  intros Hc Hh Hpre Hpost Hsz Hd Hcrc Hp Hr.
  pose proof (len_nonneg compressed) as Hc0. pose proof (len_nonneg payload) as Hp0.
  pose proof (len_nonneg (extra_field pre)). pose proof (len_nonneg (extra_field post)).
  unfold member in Hr. unfold member_size in *. rewrite <- !app_assoc in Hr.
  set (extra_len := len (extra_field pre) + 6 + len (extra_field post)) in *.
  destruct (load_header zlib handle header extra_len _ Hc Hh ltac:(lia) Hr)
    as (f1 & Hc1 & Hr1 & Hk1 & ->).
  destruct (load_subfields_member pre post (12 + extra_len + len compressed + 8 - 1) f1 _
              Hc1 Hpre Hpost ltac:(lia) ltac:(fold extra_len; lia) Hr1)
    as (f2 & L & Hc2 & Hr2 & Hk2).
  fold extra_len in L. rewrite (bind_Ok _ _ _ _ _ L). cbn [fst snd].
  rewrite Z.eqb_refl. rewrite (bind_Ok _ _ _ tt f2) by reflexivity.
  rewrite (bind_Ok _ _ _ (12 + extra_len + len compressed + 8 - 1 + 1) f2) by reflexivity.
  cbv zeta.
  destruct (read_app_step (12 + extra_len + len compressed + 8 - 1 + 1 - 1 - extra_len - 19)
              _ _ f2 Hc2 Hr2 ltac:(lia)) as (f3 & R3 & Hc3 & Hr3 & Hk3 & _).
  rewrite (bind_Ok _ _ _ _ _ R3).
  rewrite Hd. rewrite (bind_Ok _ _ _ payload f3) by reflexivity.
  destruct (read_app_step 4 _ _ f3 Hc3 Hr3 ltac:(symmetry; apply len_le_split))
    as (f4 & R4 & Hc4 & Hr4 & Hk4 & _).
  rewrite (bind_Ok _ _ _ _ _ R4).
  destruct (read_app_step 4 _ _ f4 Hc4 Hr4 ltac:(symmetry; apply len_le_split))
    as (f5 & R5 & Hc5 & Hr5 & Hk5 & _).
  rewrite (bind_Ok _ _ _ _ _ R5).
  rewrite (unpack_I_le_split (len payload)) by lia.
  rewrite (bind_Ok _ _ _ (len payload) f5) by reflexivity.
  rewrite Z.eqb_refl. rewrite (bind_Ok _ _ _ tt f5) by reflexivity.
  destruct (pack_crc_Val _ Hcrc) as (p & Hpack & ->). rewrite Hpack.
  rewrite (bind_Ok _ _ _ _ f5) by reflexivity.
  rewrite bool_decide_eq_true_2 by reflexivity.
  rewrite (bind_Ok _ _ _ tt f5) by reflexivity.
  exists f5. split; [|split; [exact Hr5 | congruence]].
  unfold ret. do 2 f_equal. f_equal. lia.
Qed.

(** X10: a gzip member whose extra field holds no BC subfield, only other
    subfields or none at all, makes the decoder raise the assertion error
    [Missing BC, this isn't a BGZF file!]. *)
Theorem load_bgzf_block_missing_BC (zlib : Zlib) (handle : file)
    (header : bytes) (l : list (bytes * bytes)) (rest : bytes) :
  closed handle = false ->
  length header = 6%nat ->
  Forall foreign l ->
  len (extra_field l) <= 65535 ->
  File.remaining handle
  = bgzf_magic ++ header ++ le_split 2 (len (extra_field l)) ++ extra_field l ++ rest ->
  exception (_load_bgzf_block zlib handle)
  = Some (AssertionError "Missing BC, this isn't a BGZF file!").
Proof.
  intros Hc Hh Hl He Hr.
  pose proof (len_nonneg (extra_field l)). pose proof (extra_field_count l Hl).
  destruct (load_header zlib handle header (len (extra_field l)) _ Hc Hh ltac:(lia) Hr)
    as (f1 & Hc1 & Hr1 & Hk1 & ->).
  destruct (load_subfields_skip l (Z.to_nat (len (extra_field l))) (len (extra_field l)) 0
              None f1 rest Hc1 Hl ltac:(lia) ltac:(lia) Hr1) as (f2 & E & _).
  rewrite Z.add_0_l in E. rewrite load_subfields_done in E.
  rewrite (bind_Ok _ _ _ _ _ E). cbn [fst snd].
  rewrite Z.eqb_refl. rewrite (bind_Ok _ _ _ tt f2) by reflexivity.
  reflexivity.
Qed.

(** X11: a second BC subfield in the extra field makes the decoder raise
    the assertion error [Two BC subfields?]. *)
Theorem load_bgzf_block_two_BC (zlib : Zlib) (handle : file) (header : bytes)
    (pre mid : list (bytes * bytes)) (v extra_len : Z) (data rest : bytes) :
  closed handle = false ->
  length header = 6%nat ->
  Forall foreign pre -> Forall foreign mid ->
  0 <= v <= 65535 -> len data = 2 ->
  len (extra_field pre) + 6 + len (extra_field mid) < extra_len <= 65535 ->
  File.remaining handle
  = bgzf_magic ++ header ++ le_split 2 extra_len
      ++ extra_field pre ++ subfield BC (le_split 2 v)
      ++ extra_field mid ++ subfield BC data ++ rest ->
  exception (_load_bgzf_block zlib handle) = Some (AssertionError "Two BC subfields?").
Proof.
  intros Hc Hh Hpre Hmid Hv Hd He Hr.
  pose proof (len_nonneg (extra_field pre)). pose proof (len_nonneg (extra_field mid)).
  pose proof (extra_field_count pre Hpre). pose proof (extra_field_count mid Hmid).
  destruct (load_header zlib handle header extra_len _ Hc Hh ltac:(lia) Hr)
    as (f1 & Hc1 & Hr1 & Hk1 & ->).
  apply exception_bind.
  destruct (load_subfields_skip pre (Z.to_nat extra_len) extra_len 0 None f1 _ Hc1 Hpre
              ltac:(lia) ltac:(lia) Hr1) as (f2 & E1 & Hc2 & Hr2 & _).
  rewrite E1, Z.add_0_l.
  destruct (Z.to_nat extra_len - length pre)%nat as [|fuel] eqn:Ef; [lia|].
  destruct (load_subfields_BC_first fuel extra_len (len (extra_field pre)) f2 v _ Hc2 Hv
              ltac:(lia) Hr2) as (f3 & E2 & Hc3 & Hr3 & _).
  rewrite E2.
  destruct (load_subfields_skip mid fuel extra_len (len (extra_field pre) + 6)
              (Some (v + 1)) f3 _ Hc3 Hmid ltac:(lia) ltac:(lia) Hr3)
    as (f4 & E3 & Hc4 & Hr4 & _).
  rewrite E3.
  destruct (fuel - length mid)%nat as [|fuel'] eqn:Ef'; [lia|].
  eapply load_subfields_BC_second; [exact Hc4 | exact Hd | lia | exact Hr4].
Qed.

(** X12: a BC subfield whose data is not two bytes long makes the decoder
    raise the assertion error [Wrong BC payload length]. *)
Theorem load_bgzf_block_wrong_BC_length (zlib : Zlib) (handle : file) (header : bytes)
    (pre : list (bytes * bytes)) (extra_len : Z) (data rest : bytes) :
  closed handle = false ->
  length header = 6%nat ->
  Forall foreign pre ->
  len data <= 65535 -> len data <> 2 ->
  len (extra_field pre) < extra_len <= 65535 ->
  File.remaining handle
  = bgzf_magic ++ header ++ le_split 2 extra_len
      ++ extra_field pre ++ subfield BC data ++ rest ->
  exception (_load_bgzf_block zlib handle) = Some (AssertionError "Wrong BC payload length").
Proof.
  intros Hc Hh Hpre Hd Hn He Hr.
  pose proof (len_nonneg (extra_field pre)). pose proof (extra_field_count pre Hpre).
  destruct (load_header zlib handle header extra_len _ Hc Hh ltac:(lia) Hr)
    as (f1 & Hc1 & Hr1 & Hk1 & ->).
  apply exception_bind.
  destruct (load_subfields_skip pre (Z.to_nat extra_len) extra_len 0 None f1 _ Hc1 Hpre
              ltac:(lia) ltac:(lia) Hr1) as (f2 & E1 & Hc2 & Hr2 & _).
  rewrite E1, Z.add_0_l.
  destruct (Z.to_nat extra_len - length pre)%nat as [|fuel] eqn:Ef; [lia|].
  eapply load_subfields_BC_wrong_length; [exact Hc2 | exact Hd | exact Hn | lia | exact Hr2].
Qed.

Lemma foreign_example : Forall foreign [([Byte.x41; Byte.x42], [Byte.x01])].
Proof.
  constructor; [|constructor].
  split; [reflexivity|]. split; [discriminate | vm_compute; discriminate].
Qed.

Lemma load_bgzf_block_skips_other_subfields_witness :
  exists handle',
    _load_bgzf_block RefZlib.lib
      (File.of_bytes
         (member [Byte.x01; Byte.x02; Byte.x03; Byte.x04; Byte.x02; Byte.x03]
            [([Byte.x41; Byte.x42], [Byte.x01])] [([Byte.x41; Byte.x42], [Byte.x01])]
            [Byte.x03; Byte.x00] 0 0 ++ abc))
    = Ok (Z.of_nat 0,
          member_size [([Byte.x41; Byte.x42], [Byte.x01])] [([Byte.x41; Byte.x42], [Byte.x01])]
            [Byte.x03; Byte.x00],
          []) handle' /\
    File.remaining handle' = abc /\
    content handle'
    = member [Byte.x01; Byte.x02; Byte.x03; Byte.x04; Byte.x02; Byte.x03]
        [([Byte.x41; Byte.x42], [Byte.x01])] [([Byte.x41; Byte.x42], [Byte.x01])]
        [Byte.x03; Byte.x00] 0 0 ++ abc.
Proof.
  apply (load_bgzf_block_skips_other_subfields RefZlib.lib
           (File.of_bytes
              (member [Byte.x01; Byte.x02; Byte.x03; Byte.x04; Byte.x02; Byte.x03]
                 [([Byte.x41; Byte.x42], [Byte.x01])] [([Byte.x41; Byte.x42], [Byte.x01])]
                 [Byte.x03; Byte.x00] 0 0 ++ abc))
           [Byte.x01; Byte.x02; Byte.x03; Byte.x04; Byte.x02; Byte.x03]
           [([Byte.x41; Byte.x42], [Byte.x01])] [([Byte.x41; Byte.x42], [Byte.x01])]
           [Byte.x03; Byte.x00] [] abc).
  - reflexivity.
  - reflexivity.
  - exact foreign_example.
  - exact foreign_example.
  - vm_compute. discriminate.
  - vm_compute. reflexivity.
  - vm_compute. split; discriminate.
  - vm_compute. discriminate.
  - reflexivity.
Defined.

Lemma load_bgzf_block_missing_BC_witness :
  exception (_load_bgzf_block RefZlib.lib
               (File.of_bytes
                  (bgzf_magic ++ [Byte.x00; Byte.x00; Byte.x00; Byte.x00; Byte.x00; Byte.xff]
                     ++ le_split 2 (len (extra_field [([Byte.x41; Byte.x42], [Byte.x01])]))
                     ++ extra_field [([Byte.x41; Byte.x42], [Byte.x01])]
                     ++ [Byte.x03; Byte.x00])))
  = Some (AssertionError "Missing BC, this isn't a BGZF file!").
Proof.
  apply (load_bgzf_block_missing_BC RefZlib.lib _
           [Byte.x00; Byte.x00; Byte.x00; Byte.x00; Byte.x00; Byte.xff]
           [([Byte.x41; Byte.x42], [Byte.x01])] [Byte.x03; Byte.x00]).
  - reflexivity.
  - reflexivity.
  - exact foreign_example.
  - vm_compute. discriminate.
  - reflexivity.
Defined.

Lemma load_bgzf_block_two_BC_witness :
  exception (_load_bgzf_block RefZlib.lib
               (File.of_bytes
                  (bgzf_magic ++ [Byte.x00; Byte.x00; Byte.x00; Byte.x00; Byte.x00; Byte.xff]
                     ++ le_split 2 12
                     ++ extra_field [] ++ subfield BC (le_split 2 33)
                     ++ extra_field [] ++ subfield BC [Byte.x21; Byte.x00]
                     ++ [Byte.x03; Byte.x00])))
  = Some (AssertionError "Two BC subfields?").
Proof.
  apply (load_bgzf_block_two_BC RefZlib.lib _
           [Byte.x00; Byte.x00; Byte.x00; Byte.x00; Byte.x00; Byte.xff]
           [] [] 33 12 [Byte.x21; Byte.x00] [Byte.x03; Byte.x00]).
  - reflexivity.
  - reflexivity.
  - constructor.
  - constructor.
  - lia.
  - reflexivity.
  - vm_compute. split; [reflexivity | discriminate].
  - reflexivity.
Defined.

Lemma load_bgzf_block_wrong_BC_length_witness :
  exception (_load_bgzf_block RefZlib.lib
               (File.of_bytes
                  (bgzf_magic ++ [Byte.x00; Byte.x00; Byte.x00; Byte.x00; Byte.x00; Byte.xff]
                     ++ le_split 2 7
                     ++ extra_field [] ++ subfield BC [Byte.x21; Byte.x00; Byte.x00]
                     ++ [Byte.x03; Byte.x00])))
  = Some (AssertionError "Wrong BC payload length").
Proof.
  apply (load_bgzf_block_wrong_BC_length RefZlib.lib _
           [Byte.x00; Byte.x00; Byte.x00; Byte.x00; Byte.x00; Byte.xff]
           [] 7 [Byte.x21; Byte.x00; Byte.x00] [Byte.x03; Byte.x00]).
  - reflexivity.
  - reflexivity.
  - constructor.
  - vm_compute. discriminate.
  - vm_compute. discriminate.
  - vm_compute. split; [reflexivity | discriminate].
  - reflexivity.
Defined.

(** ** Listing the blocks of a stream *)

Section Listing.
Context (zlib : Zlib) (compresslevel : Z).

Lemma len_frame payload :
  encodable zlib compresslevel payload ->
  exists compressed,
    zlib_compress zlib compresslevel payload = Some compressed /\
    len (frame zlib compresslevel payload) = 12 + 6 + len compressed + 4 + 4.
Proof.
  intros (c & Hz & _). exists c. split; [exact Hz|].
  unfold frame. rewrite Hz. apply len_framed.
Qed.

Lemma blocks_loop_layout {A} (yield : Z * Z * bytes -> A) blocks : forall fuel f tail,
  closed f = false ->
  File.remaining f = concat (List.map (frame zlib compresslevel) blocks) ++ tail ->
  Forall (encodable zlib compresslevel) blocks ->
  Forall (fun x => len x <= 65536) blocks ->
  (length blocks <= fuel)%nat ->
  exists f1,
    closed f1 = false /\ File.remaining f1 = tail /\ content f1 = content f /\
    Z.of_nat (pos f1)
    = Z.of_nat (pos f) + len (concat (List.map (frame zlib compresslevel) blocks)) /\
    blocks_loop zlib yield fuel f
    = match blocks_loop zlib yield (fuel - length blocks) f1 with
      | Ok rest f2 =>
          Ok (List.map yield (layout zlib compresslevel (Z.of_nat (pos f)) blocks) ++ rest) f2
      | other => other
      end.
Proof.
  induction blocks as [|x blocks IH]; intros fuel f tail Hc Hr Henc Hsz Hf.
  - exists f. simpl. rewrite Nat.sub_0_r. change (len (@nil byte)) with 0.
    repeat split; try assumption; [lia|].
    destruct (blocks_loop zlib yield fuel f); reflexivity.
  - apply Forall_cons in Henc as (Hx & Henc). apply Forall_cons in Hsz as (Hsx & Hsz).
    destruct fuel as [|fuel]; [simpl in Hf; lia|].
    pose proof Hx as (c & Hz & Hs & Hd & Hcrc).
    destruct (len_frame x Hx) as (c' & Hz' & Hlen). rewrite Hz in Hz'. injection Hz' as <-.
    cbn [List.map concat] in Hr. rewrite <- app_assoc in Hr.
    unfold frame at 1 in Hr. rewrite Hz in Hr.
    destruct (load_framed zlib f x c _ Hc Hd Hs Hcrc ltac:(lia) Hr)
      as (f1 & Hl & Hc1 & Hr1 & Hk1).
    pose proof (_load_bgzf_block_inv zlib _ _ _ _ _ Hl) as (_ & _ & _ & _ & _ & Hp & _).
    destruct (IH fuel f1 tail Hc1 Hr1 Henc Hsz ltac:(simpl in Hf; lia))
      as (f2 & Hc2 & Hr2 & Hk2 & Hp2 & E).
    exists f2. split; [exact Hc2|]. split; [exact Hr2|]. split; [congruence|]. split.
    { cbn [List.map concat]. rewrite len_app, Hlen. lia. }
    cbn [blocks_loop]. rewrite Hl. rewrite E. cbn [length Nat.sub].
    cbn [layout List.map]. rewrite Hlen.
    replace (Z.of_nat (pos f) + (12 + 6 + len c + 4 + 4)) with (Z.of_nat (pos f1)) by lia.
    destruct (blocks_loop zlib yield (fuel - length blocks) f2); reflexivity.
Qed.

Lemma blocks_loop_eof {A} (yield : Z * Z * bytes -> A) fuel f :
  closed f = false -> eof f -> blocks_loop zlib yield fuel f = Ok [] f.
Proof.
  intros Hc He. destruct fuel; cbn [blocks_loop];
    rewrite (_load_bgzf_block_eof zlib f Hc He); reflexivity.
Qed.

Lemma blocks_loop_bad_magic {A} (yield : Z * Z * bytes -> A) fuel f :
  closed f = false -> ~ eof f -> firstn 4 (File.remaining f) <> bgzf_magic ->
  exception (blocks_loop zlib yield fuel f)
  = Some (ValueError "A BGZF (e.g. a BAM file) block should start with 1f 8b 08 04").
Proof.
  intros Hc He Hm.
  destruct (_load_bgzf_block_bad_magic zlib f Hc He Hm) as (f' & E).
  destruct fuel; cbn [blocks_loop]; rewrite E; reflexivity.
Qed.

Lemma total_size_layout blocks : forall p,
  total_size (List.map summary (layout zlib compresslevel p blocks))
  = len (concat (List.map (frame zlib compresslevel) blocks)).
Proof.
  induction blocks as [|x blocks IH]; intros p; [reflexivity|].
  cbn [layout List.map concat]. unfold total_size in *. cbn [fold_right].
  rewrite IH, len_app. reflexivity.
Qed.

Lemma listing_frames blocks :
  Forall (encodable zlib compresslevel) blocks ->
  Forall (fun x => len x <= 65536) blocks ->
  exists f',
    BgzfBlocks zlib (File.of_bytes (concat (List.map (frame zlib compresslevel) blocks)))
    = Ok (List.map summary (layout zlib compresslevel 0 blocks)) f'.
Proof.
  intros Henc Hsz. unfold BgzfBlocks.
  set (f := File.of_bytes (concat (List.map (frame zlib compresslevel) blocks))).
  destruct (blocks_loop_layout (fun blk => (fst (fst blk), snd (fst blk), len (snd blk)))
              blocks (blocks_fuel f) f [] eq_refl
              ltac:(unfold f; simpl; rewrite app_nil_r; reflexivity) Henc Hsz
              (frames_length zlib compresslevel blocks Henc))
    as (f1 & Hc1 & Hr1 & _ & _ & E).
  rewrite E. rewrite (blocks_loop_eof _ _ f1 Hc1 Hr1). rewrite app_nil_r.
  exists f1. reflexivity.
Qed.

End Listing.

(** X13: on a stream written with [write(b)] and [flush()] by a new writer,
    [BgzfBlocks] lists one entry for each chunk written, in order: the
    offset where its block starts, the size of the block and the length of
    the chunk. The sizes add up to the length of the file. *)
Theorem BgzfBlocks_of_written_stream (zlib : Zlib) (compresslevel : Z) (b : bytes) :
  Forall (encodable zlib compresslevel) (blocks_of b) ->
  listing zlib ((BgzfWriter.write zlib b ;; BgzfWriter.flush zlib)
                  (writer_on File.empty compresslevel))
  = Some (List.map summary (layout zlib compresslevel 0 (blocks_of b))) /\
  option_map len (sink_of ((BgzfWriter.write zlib b ;; BgzfWriter.flush zlib)
                             (writer_on File.empty compresslevel)))
  = Some (total_size (List.map summary (layout zlib compresslevel 0 (blocks_of b)))).
Proof.
  intros Henc.
  destruct (write_flush_sink zlib compresslevel b Henc) as (self & sink & Hrun & Hh & Hk).
  assert (Hsz : Forall (fun x => len x <= 65536) (blocks_of b)).
  { unfold blocks_of. cbv zeta. apply Forall_app. split; [apply full_chunks_sizes|].
    constructor; [|constructor].
    pose proof (full_chunks_rest (length b) b (Nat.le_refl _)). lia. }
  destruct (listing_frames zlib compresslevel _ Henc Hsz) as (f' & Hl).
  unfold listing, sink_of. rewrite Hrun. cbn [state_after]. rewrite Hh. cbn [option_map].
  rewrite Hk, Hl. split; [reflexivity|]. rewrite total_size_layout. reflexivity.
Qed.

Lemma BgzfBlocks_of_written_stream_witness :
  listing RefZlib.lib ((BgzfWriter.write RefZlib.lib abc ;; BgzfWriter.flush RefZlib.lib)
                         (writer_on File.empty 6))
  = Some (List.map summary (layout RefZlib.lib 6 0 (blocks_of abc))) /\
  option_map len (sink_of ((BgzfWriter.write RefZlib.lib abc ;; BgzfWriter.flush RefZlib.lib)
                             (writer_on File.empty 6)))
  = Some (total_size (List.map summary (layout RefZlib.lib 6 0 (blocks_of abc)))).
Proof.
  apply (BgzfBlocks_of_written_stream RefZlib.lib 6 abc).
  apply encodableb_Forall. vm_compute. reflexivity.
Defined.

(** X15: bytes after the last block that do not start with the magic bytes
    are not passed over: on a stream of blocks followed by such bytes both
    [BgzfBlocks] and the decoding of all blocks raise [ValueError]. *)
Theorem trailing_bytes_raise_ValueError (zlib : Zlib) (compresslevel : Z)
    (blocks : list bytes) (tail : bytes) :
  Forall (encodable zlib compresslevel) blocks ->
  Forall (fun x => len x <= 65536) blocks ->
  tail <> [] -> firstn 4 tail <> bgzf_magic ->
  exception (BgzfBlocks zlib
               (File.of_bytes (concat (List.map (frame zlib compresslevel) blocks) ++ tail)))
  = Some (ValueError "A BGZF (e.g. a BAM file) block should start with 1f 8b 08 04") /\
  exception (decode_all zlib
               (File.of_bytes (concat (List.map (frame zlib compresslevel) blocks) ++ tail)))
  = Some (ValueError "A BGZF (e.g. a BAM file) block should start with 1f 8b 08 04").
Proof.
  intros Henc Hsz Hne Hm.
  set (f := File.of_bytes (concat (List.map (frame zlib compresslevel) blocks) ++ tail)).
  assert (Hfuel : (length blocks <= blocks_fuel f)%nat).
  { unfold blocks_fuel, f. cbn [content File.of_bytes]. rewrite length_app.
    pose proof (frames_length zlib compresslevel blocks Henc). lia. }
  assert (Hbad : forall A (yield : Z * Z * bytes -> A),
             exception (blocks_loop zlib yield (blocks_fuel f) f)
             = Some (ValueError "A BGZF (e.g. a BAM file) block should start with 1f 8b 08 04")).
  { intros A yield.
    destruct (blocks_loop_layout zlib compresslevel yield blocks (blocks_fuel f) f tail
                eq_refl eq_refl Henc Hsz Hfuel) as (f1 & Hc1 & Hr1 & _ & _ & E).
    rewrite E.
    assert (Hx : exception (blocks_loop zlib yield (blocks_fuel f - length blocks) f1)
                 = Some (ValueError
                           "A BGZF (e.g. a BAM file) block should start with 1f 8b 08 04")).
    { apply blocks_loop_bad_magic; [exact Hc1 | | rewrite Hr1; exact Hm].
      unfold eof. rewrite Hr1. exact Hne. }
    destruct (blocks_loop zlib yield (blocks_fuel f - length blocks) f1); try discriminate Hx.
    exact Hx. }
  split.
  - apply Hbad.
  - unfold decode_all. apply exception_bind. apply Hbad.
Qed.

Lemma trailing_bytes_raise_ValueError_witness :
  exception (BgzfBlocks RefZlib.lib
               (File.of_bytes (concat (List.map (frame RefZlib.lib 6) [abc; []]) ++ abc)))
  = Some (ValueError "A BGZF (e.g. a BAM file) block should start with 1f 8b 08 04") /\
  exception (decode_all RefZlib.lib
               (File.of_bytes (concat (List.map (frame RefZlib.lib 6) [abc; []]) ++ abc)))
  = Some (ValueError "A BGZF (e.g. a BAM file) block should start with 1f 8b 08 04").
Proof.
  apply (trailing_bytes_raise_ValueError RefZlib.lib 6 [abc; []] abc).
  - apply encodableb_Forall. vm_compute. reflexivity.
  - repeat constructor; vm_compute; discriminate.
  - discriminate.
  - discriminate.
Defined.

(** ** The end of the stream *)

Lemma never_stops_bind {St A B} (m : M St A) (k : A -> M St B) s :
  never_stops (m s) -> (forall a s1, m s = Ok a s1 -> never_stops (k a s1)) ->
  never_stops (bind m k s).
Proof.
  unfold never_stops, bind. intros Hm Hk s'.
  destruct (m s) as [a s1|e s1|] eqn:E; [eapply Hk; reflexivity | | discriminate].
  intros [= -> ->]. exact (Hm s' eq_refl).
Qed.

Lemma never_stops_tell f : never_stops (File.tell f).
Proof. intros s. unfold File.tell. destruct (closed f); discriminate. Qed.

Lemma never_stops_read n f : never_stops (File.read n f).
Proof. intros s. unfold File.read. destruct (closed f); discriminate. Qed.

Lemma never_stops_unpack_H {St} b (s : St) : never_stops (lift (struct.unpack_H b) s).
Proof. intros s'. unfold lift, struct.unpack_H. destruct (len b =? 2); discriminate. Qed.

Lemma never_stops_unpack_I {St} b (s : St) : never_stops (lift (struct.unpack_I b) s).
Proof. intros s'. unfold lift, struct.unpack_I. destruct (len b =? 4); discriminate. Qed.

Lemma never_stops_pack_crc {St} crc (s : St) :
  never_stops (lift (if crc <? 0 then struct.pack_i crc else struct.pack_I crc) s).
Proof.
  intros s'. unfold lift, struct.pack_i, struct.pack_I.
  destruct (crc <? 0); [destruct (_ && _) | destruct (_ && _)]; discriminate.
Qed.

Lemma never_stops_assert {St} cond msg (s : St) : never_stops (assert cond msg s).
Proof. intros s'. unfold assert, ret, raise. destruct cond; discriminate. Qed.

Lemma never_stops_or_raise {St A} (o : option A) e (s : St) :
  e <> StopIteration -> never_stops (or_raise o e s).
Proof. intros He s'. unfold or_raise, ret, raise. destruct o; congruence. Qed.

Lemma never_stops_ret {St A} (a : A) (s : St) : never_stops (ret a s).
Proof. intros s'. discriminate. Qed.

Ltac never_stops_step :=
  first [ apply never_stops_ret
        | apply never_stops_bind;
          [ first [ apply never_stops_tell | apply never_stops_read
                  | apply never_stops_unpack_H | apply never_stops_unpack_I
                  | apply never_stops_pack_crc | apply never_stops_assert
                  | apply never_stops_or_raise; discriminate ]
          | intros ? ? _ ] ].

Lemma never_stops_load_subfields fuel : forall extra_len x_len block_size f,
  never_stops (load_subfields fuel extra_len x_len block_size f).
Proof.
  induction fuel as [|fuel IH]; intros extra_len x_len block_size f; cbn [load_subfields];
    destruct (x_len <? extra_len); try apply never_stops_ret.
  - intros s. discriminate.
  - do 4 never_stops_step. destruct (decide (_ = BC)); [do 3 never_stops_step|]; apply IH.
Qed.

Section StreamEnd.
Context (zlib : Zlib).

(** [StopIteration] is raised only at the end of the file, before anything
    was read. *)
Lemma _load_bgzf_block_StopIteration f f' :
  _load_bgzf_block zlib f = Raise StopIteration f' ->
  eof f /\ content f' = content f /\ pos f' = pos f.
Proof.
  unfold _load_bgzf_block. intros H.
  unfold bind at 1 in H. destruct (File.tell f) as [st f0|e f0|] eqn:T;
    [|exfalso; injection H as -> _; exact (never_stops_tell f _ T) | discriminate].
  apply tell_inv in T as (Hc & -> & ->).
  unfold bind at 1 in H. rewrite (read_Ok _ _ Hc) in H. cbv zeta in H.
  change (4 <? 0) with false in H. cbv iota in H.
  destruct (decide (firstn (Z.to_nat 4) (File.remaining f) = [])) as [E|_].
  - injection H as <-. simpl. rewrite E. simpl. split; [|split; [reflexivity | lia]].
    unfold eof. destruct (File.remaining f); [reflexivity | discriminate E].
  - exfalso. revert H.
    destruct (decide (_ <> bgzf_magic)); [discriminate|].
    match goal with |- ?o = _ -> False => cut (never_stops o); [intros N E; exact (N _ E)|] end.
    do 5 never_stops_step.
    apply never_stops_bind; [apply never_stops_load_subfields | intros ? ? _].
    repeat never_stops_step.
Qed.

Lemma _load_bgzf_block_within f blk f' :
  _load_bgzf_block zlib f = Ok blk f' -> (pos f' <= length (content f))%nat.
Proof.
  destruct blk as [[start block_size] data]. intros H.
  apply _load_bgzf_block_inv in H as (_ & _ & _ & Hk & _ & _ & Ht & _).
  assert (Hl : length (trailer f') = 8%nat).
  { rewrite Ht, length_app, !length_le_split. reflexivity. }
  unfold trailer in Hl. rewrite length_firstn, length_skipn, Hk in Hl. lia.
Qed.

Lemma blocks_loop_end fuel : forall f blocks f',
  blocks_loop zlib (fun blk => (fst (fst blk), snd (fst blk), len (snd blk))) fuel f
    = Ok blocks f' ->
  eof f' /\ content f' = content f /\
  Z.of_nat (pos f') = Z.of_nat (pos f) + total_size blocks /\
  ((pos f <= length (content f))%nat -> (pos f' <= length (content f))%nat).
Proof.
  induction fuel as [|fuel IH]; intros f blocks f' H; cbn [blocks_loop] in H;
    destruct (_load_bgzf_block zlib f) as [[[start size] data] f1|e f1|] eqn:E;
    try discriminate.
  - destruct e; try discriminate. injection H as <- <-.
    apply _load_bgzf_block_StopIteration in E as (He & Hk & Hp).
    unfold eof, File.remaining in *. rewrite Hk, Hp. unfold total_size. simpl.
    repeat split; try assumption; lia.
  - destruct (blocks_loop zlib _ fuel f1) as [rest f2|e f2|] eqn:E2; try discriminate.
    injection H as <- <-.
    pose proof (_load_bgzf_block_within _ _ _ E) as Hw.
    apply _load_bgzf_block_inv in E as (_ & Hs & _ & Hk & _ & Hp & _).
    apply IH in E2 as (He & Hk2 & Hp2 & Hw2).
    split; [exact He|]. split; [congruence|]. split.
    + unfold total_size in *. cbn [fold_right fst snd]. lia.
    + intros _. rewrite Hk in Hw2. apply Hw2. exact Hw.
  - destruct e; try discriminate. injection H as <- <-.
    apply _load_bgzf_block_StopIteration in E as (He & Hk & Hp).
    unfold eof, File.remaining in *. rewrite Hk, Hp. unfold total_size. simpl.
    repeat split; try assumption; lia.
Qed.

End StreamEnd.

(** X14: when [BgzfBlocks] runs to its end without an exception, the file
    was read to its end, the bytes are unchanged, and the block sizes listed
    add up to the number of bytes between the position the handle had and
    the end of the file: no byte was skipped or left over. *)
Theorem BgzfBlocks_reads_to_the_end (zlib : Zlib) (handle : file)
    (blocks : list (Z * Z * Z)) (handle' : file) :
  BgzfBlocks zlib handle = Ok blocks handle' ->
  (pos handle <= length (content handle))%nat ->
  eof handle' /\ content handle' = content handle /\
  Z.of_nat (pos handle) + total_size blocks = len (content handle).
Proof.
  unfold BgzfBlocks. intros H Hp.
  apply blocks_loop_end in H as (He & Hk & Hpos & Hw).
  split; [exact He|]. split; [exact Hk|].
  specialize (Hw Hp). unfold eof, File.remaining in He.
  assert (length (skipn (pos handle') (content handle')) = 0%nat) as Hl by (rewrite He; reflexivity).
  rewrite length_skipn, Hk in Hl. unfold len. lia.
Qed.

Lemma BgzfBlocks_reads_to_the_end_witness :
  eof (mkFile abc_stream 59 false) /\
  content (mkFile abc_stream 59 false) = content (File.of_bytes abc_stream) /\
  Z.of_nat (pos (File.of_bytes abc_stream)) + total_size [(0, 31, 3); (31, 28, 0)]
  = len (content (File.of_bytes abc_stream)).
Proof.
  apply (BgzfBlocks_reads_to_the_end RefZlib.lib (File.of_bytes abc_stream)
           [(0, 31, 3); (31, 28, 0)] (mkFile abc_stream 59 false)).
  - vm_compute. reflexivity.
  - simpl. lia.
Defined.

(** ** The size of a block *)

Lemma load_subfields_block_size fuel : forall extra_len x_len block_size f r f',
  load_subfields fuel extra_len x_len block_size f = Ok r f' ->
  x_len <= fst r /\
  (snd r = block_size \/
   exists v, snd r = Some (v + 1) /\ 0 <= v <= 65535 /\ x_len + 6 <= fst r).
Proof.
  induction fuel as [|fuel IH]; intros extra_len x_len block_size f r f' H; simpl in H.
  - destruct (x_len <? extra_len); [discriminate|].
    injection H as <- <-. simpl. split; [lia | auto].
  - destruct (x_len <? extra_len).
    2:{ injection H as <- <-. simpl. split; [lia | auto]. }
    inv_step H as id f1 R1. inv_step H as s f2 R2.
    inv_step H as n f3 U. inv_step H as d f4 R3.
    apply lift_inv_Ok in U as (U & ->). apply unpack_H_inv in U as (_ & ->).
    pose proof (le_combine_nonneg s) as Hn.
    destruct (decide (id = BC)).
    + inv_step H as u1 f5 C1. inv_step H as u2 f6 C2. inv_step H as v f7 C3.
      apply assert_inv_Ok in C1 as (C1 & ->). apply Z.eqb_eq in C1.
      apply assert_inv_Ok in C2 as (_ & ->).
      apply lift_inv_Ok in C3 as (C3 & ->). apply unpack_H_inv in C3 as (Ld & ->).
      pose proof (le_combine_bound d) as Hb. rewrite Ld in Hb.
      change (2 ^ (8 * Z.of_nat 2)) with 65536 in Hb.
      apply IH in H as (Hx & Hs). split; [lia|]. right.
      destruct Hs as [Hs|(v & Hs & Hv & Hx')].
      * exists (le_combine d). split; [exact Hs|]. split; lia.
      * exists v. split; [exact Hs|]. split; lia.
    + apply IH in H as (Hx & Hs). split; [lia|].
      destruct Hs as [Hs|(v & Hs & Hv & Hx')]; [left; exact Hs|].
      right. exists v. split; [exact Hs|]. split; lia.
Qed.

(** X8: every block the decoder returns is between 26 and 65536 bytes
    long by its BC subfield, lies within the file, and holds less than 2^32
    bytes of data. *)
Theorem load_bgzf_block_size_bounds (zlib : Zlib) (handle : file)
    (start_offset block_size : Z) (data : bytes) (handle' : file) :
  _load_bgzf_block zlib handle = Ok (start_offset, block_size, data) handle' ->
  26 <= block_size <= 65536 /\
  start_offset + block_size <= len (content handle) /\
  len data < 2 ^ 32.
Proof.
  intros H.
  pose proof (_load_bgzf_block_within zlib _ _ _ H) as Hw.
  pose proof (_load_bgzf_block_inv zlib _ _ _ _ _ H) as (_ & _ & _ & _ & _ & Hp & _ & Hd & _).
  split; [|split; [unfold len; lia | exact Hd]].
  unfold _load_bgzf_block in H.
  inv_step H as st f1 T. apply tell_inv in T as (Hc & -> & ->).
  inv_step H as magic f2 R0.
  destruct (decide (magic = [])); [discriminate|].
  destruct (decide (magic <> bgzf_magic)) as [|Hmagic]; [discriminate|].
  inv_step H as t1 f3 R1. inv_step H as t2 f4 R2. inv_step H as t3 f5 R3.
  inv_step H as s f6 R4. inv_step H as e f7 U1.
  inv_step H as r f8 L. inv_step H as u1 f9 A1. inv_step H as bs f10 B.
  inv_step H as c f11 R5. inv_step H as d f12 D. inv_step H as ec f13 R6.
  inv_step H as s2 f14 R7. inv_step H as es f15 U2. inv_step H as u2 f16 A2.
  inv_step H as crc f17 P. inv_step H as u3 f18 A3.
  injection H as <- <- <- <-.
  apply lift_inv_Ok in U1 as (U1 & ->). apply unpack_H_inv in U1 as (Ls & ->).
  apply assert_inv_Ok in A1 as (A1 & ->). apply Z.eqb_eq in A1.
  apply or_raise_inv_Ok in B as (B & ->).
  apply or_raise_inv_Ok in D as (D & ->).
  apply lift_inv_Ok in U2 as (U2 & ->). apply unpack_I_inv in U2 as (Ls2 & ->).
  pose proof (load_subfields_block_size _ _ _ _ _ _ _ L) as (_ & Hbs).
  rewrite B in Hbs. destruct Hbs as [Hbs|(v & Hbs & Hv & Hx)]; [discriminate|].
  injection Hbs as ->. rewrite A1 in Hx.
  apply load_subfields_advanced in L. rewrite A1, Z.sub_0_r in L.
  apply read_advanced in R0 as (G0 & _). apply read_advanced in R1 as (G1 & _).
  apply read_advanced in R2 as (G2 & _). apply read_advanced in R3 as (G3 & _).
  apply read_advanced in R4 as (G4 & _). apply read_advanced in R5 as (G5 & _).
  apply read_advanced in R6 as (G6 & _). apply read_advanced in R7 as (G7 & E7 & _).
  assert (Ghead : advanced (12 + le_combine s) handle f8).
  { replace (12 + le_combine s) with (4 + (4 + (1 + (1 + (2 + le_combine s))))) by lia.
    repeat (eapply advanced_trans; [eassumption|]). assumption. }
  assert (N13 : ~ eof f13). { intros He. apply E7 in He. rewrite He in Ls2. discriminate Ls2. }
  assert (N11 : ~ eof f11). { intros He. apply N13. apply G6. exact He. }
  assert (N8 : ~ eof f8). { intros He. apply N11. apply G5. exact He. }
  pose proof (advanced_pos _ _ _ G5) as Hmono.
  destruct Ghead as (_ & _ & [Hhead|] & _); [|tauto].
  destruct G5 as (_ & _ & [Hdefl|] & _); [|tauto].
  lia.
Qed.

Lemma load_bgzf_block_size_bounds_witness :
  26 <= 31 <= 65536 /\ 0 + 31 <= len (content (File.of_bytes abc_stream)) /\ len abc < 2 ^ 32.
Proof.
  apply (load_bgzf_block_size_bounds RefZlib.lib (File.of_bytes abc_stream) 0 31 abc
           (mkFile abc_stream 31 false)).
  vm_compute. reflexivity.
Defined.

(** ** Constructing a reader *)

Lemma on_file_Raise {A} name (m : M file A) (self : obj) f e f' :
  self !! name = Some (VFile f) -> m f = Raise e f' ->
  on_file name m self = Raise e (<[name := VFile f']> self).
Proof. unfold on_file. intros -> ->. reflexivity. Qed.

Section ReaderRuns.
Context (zlib : Zlib) (builtin_open : string -> string -> res file).

Lemma _load_block_Ok start_offset (self : obj) handle start size data handle' :
  self !! "_handle" = Some (VFile handle) ->
  ((match start_offset with
    | Some p => if p =? 0 then ret tt else File.seek p
    | None => ret tt
    end) ;; _load_bgzf_block zlib) handle = Ok (start, size, data) handle' ->
  BgzfReader._load_block zlib start_offset self
  = Ok tt (<["_within_block_offset" := VInt 0]>
             (<["_buffer" := VStr data]>
                (<["_block_size" := VInt size]>
                   (<["_block_start_offset" := VInt start]>
                      (<["_handle" := VFile handle']> self))))).
Proof.
  intros Hh Hrun. unfold BgzfReader._load_block.
  rewrite (bind_Ok _ _ _ _ _ (getattr_Ok _ _ _ Hh)).
  rewrite (bind_Ok _ _ _ _ _ (on_file_Ok _ _ _ _ _ _ Hh Hrun)).
  reflexivity.
Qed.

Lemma _load_block_Raise start_offset (self : obj) handle e handle' :
  self !! "_handle" = Some (VFile handle) ->
  ((match start_offset with
    | Some p => if p =? 0 then ret tt else File.seek p
    | None => ret tt
    end) ;; _load_bgzf_block zlib) handle = Raise e handle' ->
  BgzfReader._load_block zlib start_offset self
  = Raise e (<["_handle" := VFile handle']> self).
Proof.
  intros Hh Hrun. unfold BgzfReader._load_block.
  rewrite (bind_Ok _ _ _ _ _ (getattr_Ok _ _ _ Hh)).
  rewrite (bind_Raise _ _ _ _ _ (on_file_Raise _ _ _ _ _ _ Hh Hrun)).
  reflexivity.
Qed.

Lemma reader_init_fileobj_Ok f start size data f' :
  _load_bgzf_block zlib f = Ok (start, size, data) f' ->
  BgzfReader.__init__ zlib builtin_open None None (Some f) ∅
  = Ok tt (reader_on f' start size data).
Proof.
  intros Hrun. unfold BgzfReader.__init__.
  rewrite (bind_Ok _ _ _ f ∅) by reflexivity.
  unfold setattr at 1. rewrite (bind_Ok _ _ _ tt (<["_handle" := VFile f]> ∅)) by reflexivity.
  rewrite (_load_block_Ok None _ f start size data f');
    [|apply lookup_insert_eq | unfold bind at 1, ret; exact Hrun].
  unfold reader_on. rewrite insert_insert_eq. reflexivity.
Qed.

Lemma reader_init_fileobj_Raise f e f' :
  _load_bgzf_block zlib f = Raise e f' ->
  exception (BgzfReader.__init__ zlib builtin_open None None (Some f) ∅) = Some e.
Proof.
  intros Hrun. unfold BgzfReader.__init__.
  rewrite (bind_Ok _ _ _ f ∅) by reflexivity.
  unfold setattr at 1. rewrite (bind_Ok _ _ _ tt (<["_handle" := VFile f]> ∅)) by reflexivity.
  rewrite (_load_block_Raise None _ f e f');
    [reflexivity | apply lookup_insert_eq | unfold bind at 1, ret; exact Hrun].
Qed.

Lemma reader_tell_on handle start size data :
  BgzfReader.tell (reader_on handle start size data)
  = lift (make_virtual_offset start 0) (reader_on handle start size data).
Proof.
  unfold BgzfReader.tell.
  rewrite (bind_Ok _ _ _ start (reader_on handle start size data))
    by (apply get_int_Ok; reflexivity).
  rewrite (bind_Ok _ _ _ 0 (reader_on handle start size data))
    by (apply get_int_Ok; reflexivity).
  reflexivity.
Qed.

End ReaderRuns.

(** X16: the constructor of [BgzfReader] loads the first block, so a file
    object with nothing left to read makes it raise [StopIteration], and
    bytes that do not start with the magic bytes make it raise [ValueError]:
    no reader is made of an empty file. *)
Theorem reader_init_on_empty_file (zlib : Zlib)
    (builtin_open : string -> string -> res file) (fileobj : file) :
  closed fileobj = false ->
  (eof fileobj ->
   exception (BgzfReader.__init__ zlib builtin_open None None (Some fileobj) ∅)
   = Some StopIteration) /\
  (~ eof fileobj -> firstn 4 (File.remaining fileobj) <> bgzf_magic ->
   exception (BgzfReader.__init__ zlib builtin_open None None (Some fileobj) ∅)
   = Some (ValueError "A BGZF (e.g. a BAM file) block should start with 1f 8b 08 04")).
Proof.
  intros Hc. split.
  - intros He. eapply reader_init_fileobj_Raise. apply _load_bgzf_block_eof; assumption.
  - intros He Hm. destruct (_load_bgzf_block_bad_magic zlib fileobj Hc He Hm) as (f' & E).
    eapply reader_init_fileobj_Raise. exact E.
Qed.

Lemma reader_init_on_empty_file_witness :
  (eof File.empty ->
   exception (BgzfReader.__init__ RefZlib.lib RefZlib.no_open None None (Some File.empty) ∅)
   = Some StopIteration) /\
  (~ eof File.empty -> firstn 4 (File.remaining File.empty) <> bgzf_magic ->
   exception (BgzfReader.__init__ RefZlib.lib RefZlib.no_open None None (Some File.empty) ∅)
   = Some (ValueError "A BGZF (e.g. a BAM file) block should start with 1f 8b 08 04")).
Proof. apply (reader_init_on_empty_file RefZlib.lib RefZlib.no_open File.empty). reflexivity. Defined.

(** X17: on a file object that starts with a block as the writer frames
    it, the constructor of [BgzfReader] succeeds with that block loaded: the
    buffer is the payload, the handle stands just after the block, and
    [tell()] returns the virtual offset 0. *)
Theorem reader_init_loads_first_block (zlib : Zlib)
    (builtin_open : string -> string -> res file) (compresslevel : Z)
    (payload rest : bytes) :
  encodable zlib compresslevel payload ->
  len payload <= 65536 ->
  exists self handle',
    BgzfReader.__init__ zlib builtin_open None None
      (Some (File.of_bytes (frame zlib compresslevel payload ++ rest))) ∅ = Ok tt self /\
    self = reader_on handle' 0 (len (frame zlib compresslevel payload)) payload /\
    File.remaining handle' = rest /\
    BgzfReader.tell self = Ok 0 self.
Proof.
  intros Henc Hsz. pose proof Henc as (c & Hz & Hs & Hd & Hcrc).
  destruct (len_frame zlib compresslevel payload Henc) as (c' & Hz' & Hlen).
  rewrite Hz in Hz'. injection Hz' as <-.
  assert (Hr : File.remaining (File.of_bytes (frame zlib compresslevel payload ++ rest))
               = framed c (zlib_crc32 zlib payload) (len payload) ++ rest).
  { unfold frame. rewrite Hz. reflexivity. }
  destruct (load_framed zlib (File.of_bytes (frame zlib compresslevel payload ++ rest))
              payload c rest eq_refl Hd Hs Hcrc ltac:(lia) Hr)
    as (f' & Hl & _ & Hr' & _).
  cbn [pos File.of_bytes] in Hl. change (Z.of_nat 0) with 0 in Hl.
  exists (reader_on f' 0 (len (frame zlib compresslevel payload)) payload), f'.
  split; [|split; [reflexivity | split; [exact Hr'|]]].
  - rewrite Hlen. apply reader_init_fileobj_Ok. exact Hl.
  - rewrite reader_tell_on. reflexivity.
Qed.

Lemma reader_init_loads_first_block_witness :
  exists self handle',
    BgzfReader.__init__ RefZlib.lib RefZlib.no_open None None
      (Some (File.of_bytes (frame RefZlib.lib 6 abc ++ empty_block))) ∅ = Ok tt self /\
    self = reader_on handle' 0 (len (frame RefZlib.lib 6 abc)) abc /\
    File.remaining handle' = empty_block /\
    BgzfReader.tell self = Ok 0 self.
Proof.
  apply (reader_init_loads_first_block RefZlib.lib RefZlib.no_open 6 abc empty_block).
  - apply encodableb_true. vm_compute. reflexivity.
  - vm_compute. discriminate.
Defined.

(** X18: after [_load_block(start_offset)] has loaded the block at a start
    offset other than 0, [tell()] returns [start_offset * 2^16] when the
    start offset is below 2^28, and raises [ValueError] when the block
    starts at 2^28 or beyond. *)
Theorem reader_tell_after_load_block (zlib : Zlib) (self : obj) (handle : file)
    (start_offset block_start block_size : Z) (data : bytes) (handle' : file) :
  self !! "_handle" = Some (VFile handle) ->
  closed handle = false ->
  0 < start_offset ->
  _load_bgzf_block zlib (mkFile (content handle) (Z.to_nat start_offset) false)
    = Ok (block_start, block_size, data) handle' ->
  (start_offset < 2 ^ 28 ->
   exists self',
     (BgzfReader._load_block zlib (Some start_offset) ;; BgzfReader.tell) self
     = Ok (start_offset * 2 ^ 16) self') /\
  (2 ^ 28 <= start_offset ->
   exception ((BgzfReader._load_block zlib (Some start_offset) ;; BgzfReader.tell) self)
   = Some (ValueError "Require 0 <= block_start_offset < 2**48")).
Proof.
  intros Hh Hc Hp Hl.
  pose proof (_load_bgzf_block_inv zlib _ _ _ _ _ Hl) as (_ & Hs & _).
  cbn [pos] in Hs. rewrite Z2Nat.id in Hs by lia. subst block_start.
  assert (Hrun : ((if start_offset =? 0 then ret tt else File.seek start_offset) ;;
                  _load_bgzf_block zlib) handle
                 = Ok (start_offset, block_size, data) handle').
  { destruct (Z.eqb_spec start_offset 0); [lia|].
    unfold bind at 1, File.seek. rewrite Hc.
    destruct (Z.ltb_spec start_offset 0); [lia|]. exact Hl. }
  rewrite (bind_Ok _ _ _ _ _
             (_load_block_Ok zlib (Some start_offset) self handle _ _ _ _ Hh Hrun)).
  set (self' := <["_within_block_offset" := VInt 0]> _).
  assert (Ht : BgzfReader.tell self' = lift (make_virtual_offset start_offset 0) self').
  { unfold BgzfReader.tell.
    rewrite (bind_Ok _ _ _ start_offset self')
      by (apply get_int_Ok; unfold self'; rewrite !lookup_insert_ne by done;
          apply lookup_insert_eq).
    rewrite (bind_Ok _ _ _ 0 self') by (apply get_int_Ok; apply lookup_insert_eq).
    reflexivity. }
  rewrite Ht. split.
  - intros Hlt. exists self'.
    rewrite make_virtual_offset_Val by lia. rewrite packed_value by lia.
    unfold lift. do 2 f_equal. lia.
  - intros Hge. unfold make_virtual_offset.
    destruct (Z.ltb_spec 0 0); [lia|]. destruct (Z.geb_spec 0 (2 ^ 16)); [lia|].
    destruct (Z.ltb_spec start_offset 0); [lia|].
    destruct (Z.geb_spec start_offset (2 ^ 28)); [|lia]. reflexivity.
Qed.

Lemma reader_tell_after_load_block_witness :
  (31 < 2 ^ 28 ->
   exists self',
     (BgzfReader._load_block RefZlib.lib (Some 31) ;; BgzfReader.tell)
       (the_state (new_reader RefZlib.lib abc_stream))
     = Ok (31 * 2 ^ 16) self') /\
  (2 ^ 28 <= 31 ->
   exception ((BgzfReader._load_block RefZlib.lib (Some 31) ;; BgzfReader.tell)
                (the_state (new_reader RefZlib.lib abc_stream)))
   = Some (ValueError "Require 0 <= block_start_offset < 2**48")).
Proof.
  apply (reader_tell_after_load_block RefZlib.lib
           (the_state (new_reader RefZlib.lib abc_stream)) (mkFile abc_stream 31 false)
           31 31 28 [] (mkFile abc_stream 59 false)).
  - vm_compute. reflexivity.
  - reflexivity.
  - lia.
  - vm_compute. reflexivity.
Defined.

(** X19: [read(size)] with a negative size raises [NotImplementedError]
    and [read(0)] returns the empty string; neither touches the reader,
    whatever its state. *)
Theorem reader_read_nonpositive (zlib : Zlib) (self : obj) (size : Z) :
  (size < 0 ->
   BgzfReader.read zlib size self
   = Raise (NotImplementedError "Don't be greedy, that could be massive!") self) /\
  (size = 0 -> BgzfReader.read zlib size self = Ok [] self).
Proof.
  unfold BgzfReader.read. cbv zeta. split; intros Hs.
  - destruct (match self !! "_handle" with Some (VFile h) => _ | _ => _ end);
      cbn [BgzfReader.read_bounded]; (destruct (Z.ltb_spec size 0); [reflexivity | lia]).
  - subst size.
    destruct (match self !! "_handle" with Some (VFile h) => _ | _ => _ end); reflexivity.
Qed.

(** ** A block is written whole or not at all *)





Lemma stays_getattr name (self : obj) : stays self (getattr name self).
Proof. intros s'. unfold getattr. destruct (self !! name); simpl; congruence. Qed.


Lemma stays_get_str name (self : obj) : stays self (get_str name self).
Proof.
  intros s'. unfold get_str, getattr, bind, lift, as_str.
  destruct (self !! name) as [[]|]; simpl; congruence.
Qed.

Section DrainLeaves.
Context (zlib : Zlib).

Lemma drain_Ok_buffer chunk fuel : forall self self' : obj,
  BgzfWriter.drain zlib chunk fuel self = Ok tt self' ->
  exists buffer, self' !! "_buffer" = Some (VStr buffer) /\ len buffer < 65536.
Proof.
  induction fuel as [|fuel IH]; intros self self' H; cbn [BgzfWriter.drain] in H;
    inv_step H as buffer s1 G;
    assert (Hb : self !! "_buffer" = Some (VStr buffer))
      by (revert G; unfold get_str, getattr, bind;
          destruct (self !! "_buffer") as [[| |b|]|]; try discriminate;
          intros E; apply Ok_inj in E as (-> & _); reflexivity);
    apply get_str_inv_Ok in G as ->;
    destruct (Z.geb_spec (len buffer) 65536) as [Hge|Hlt]; try discriminate;
    try (apply Ok_inj in H as (_ & <-); exists buffer; split; [exact Hb | exact Hlt]).
  inv_step H as b1 s2 G1. inv_step H as u1 s3 W. inv_step H as b2 s4 G2.
  inv_step H as u2 s5 S. eapply IH. exact H.
Qed.

End DrainLeaves.




(** ** What the writer's methods leave behind *)

Section WriterPost.
Context (zlib : Zlib).

Lemma write_Ok_buffer data (self self' : obj) :
  BgzfWriter.write zlib data self = Ok tt self' ->
  exists buffer, self' !! "_buffer" = Some (VStr buffer) /\ len buffer < 65536.
Proof.
  unfold BgzfWriter.write. cbv zeta. intros H.
  inv_step H as buffer s1 G. apply get_str_inv_Ok in G as ->.
  destruct (Z.ltb_spec (len buffer + len data) 65536) as [Hlt|Hge].
  - apply Ok_inj in H as (_ & <-). exists (buffer ++ data).
    rewrite lookup_insert_eq, len_app. auto.
  - inv_step H as u s2 S. eapply drain_Ok_buffer. exact H.
Qed.

Lemma flush_Ok_buffer (self self' : obj) :
  BgzfWriter.flush zlib self = Ok tt self' -> self' !! "_buffer" = Some (VStr []).
Proof.
  unfold BgzfWriter.flush. intros H.
  inv_step H as buffer s1 G. inv_step H as u1 s2 D. inv_step H as b1 s3 G1.
  inv_step H as u2 s4 W. inv_step H as u3 s5 S. apply Ok_inj in S as (_ & <-).
  apply on_file_inv_Ok in H as (f & f' & _ & _ & ->).
  rewrite lookup_insert_ne by done. apply lookup_insert_eq.
Qed.

Lemma close_Ok_closed (self self' : obj) :
  BgzfWriter.close zlib self = Ok tt self' ->
  exists handle, self' !! "_handle" = Some (VFile handle) /\ closed handle = true.
Proof.
  unfold BgzfWriter.close. intros H.
  inv_step H as buffer s1 G. inv_step H as u1 s2 F.
  apply on_file_inv_Ok in H as (f & f' & _ & Hc & ->).
  unfold File.close in Hc. apply Ok_inj in Hc as (_ & <-).
  eexists. split; [apply lookup_insert_eq | reflexivity].
Qed.

End WriterPost.

(** X21: whatever state the writer was in, when [write] returns the
    pending buffer holds fewer than 65536 bytes, when [flush] returns the
    buffer is empty, and when [close] returns the file object is closed. *)
Theorem writer_methods_leave (zlib : Zlib) (self self' : obj) :
  (forall data, BgzfWriter.write zlib data self = Ok tt self' ->
                exists buffer, self' !! "_buffer" = Some (VStr buffer) /\ len buffer < 65536) /\
  (BgzfWriter.flush zlib self = Ok tt self' -> self' !! "_buffer" = Some (VStr [])) /\
  (BgzfWriter.close zlib self = Ok tt self' ->
   exists handle, self' !! "_handle" = Some (VFile handle) /\ closed handle = true).
Proof.
  split; [|split].
  - intros data. apply write_Ok_buffer.
  - apply flush_Ok_buffer.
  - apply close_Ok_closed.
Qed.

(** ** Writing in pieces *)

Lemma full_chunks_fuel fuel1 : forall fuel2 b,
  (length b <= fuel1)%nat -> (length b <= fuel2)%nat ->
  full_chunks fuel1 b = full_chunks fuel2 b.
Proof.
  induction fuel1 as [|fuel1 IH]; intros fuel2 b H1 H2.
  - destruct b; [|simpl in H1; lia]. destruct fuel2; reflexivity.
  - destruct fuel2 as [|fuel2].
    + destruct b; [reflexivity | simpl in H2; lia].
    + cbn [full_chunks]. destruct (Z.geb_spec (len b) 65536) as [Hge|Hlt]; [|reflexivity].
      assert (Hs : (length (slice_from b 65536) <= fuel1)%nat /\
                   (length (slice_from b 65536) <= fuel2)%nat).
      { unfold slice_from. rewrite length_skipn. unfold len in Hge. lia. }
      rewrite (IH fuel2 _ (proj1 Hs) (proj2 Hs)). reflexivity.
Qed.

Lemma full_chunks_small fuel b : len b < 65536 -> full_chunks fuel b = ([], b).
Proof.
  intros Hlt. destruct fuel; [reflexivity|]. cbn [full_chunks].
  destruct (Z.geb_spec (len b) 65536); [lia | reflexivity].
Qed.

Lemma full_chunks_app d fuel : forall b,
  (length b <= fuel)%nat ->
  full_chunks (length (b ++ d)) (b ++ d)
  = (fst (full_chunks fuel b)
       ++ fst (full_chunks (length (snd (full_chunks fuel b) ++ d))
                 (snd (full_chunks fuel b) ++ d)),
     snd (full_chunks (length (snd (full_chunks fuel b) ++ d))
            (snd (full_chunks fuel b) ++ d))).
Proof.
  induction fuel as [|fuel IH]; intros b Hb.
  - destruct b; [|simpl in Hb; lia]. cbn [full_chunks fst snd app].
    destruct (full_chunks (length d) d); reflexivity.
  - cbn [full_chunks]. destruct (Z.geb_spec (len b) 65536) as [Hge|Hlt].
    2:{ cbn [fst snd app]. destruct (full_chunks (length (b ++ d)) (b ++ d)); reflexivity. }
    cbn [fst snd]. unfold len in Hge.
    assert (Hl : (Z.to_nat 65536 <= length b)%nat) by lia.
    destruct (length (b ++ d)) as [|n] eqn:En; [rewrite length_app in En; lia|].
    cbn [full_chunks].
    destruct (Z.geb_spec (len (b ++ d)) 65536) as [_|Hlt];
      [|unfold len in Hlt; rewrite length_app in Hlt; lia].
    assert (Hto : slice_to (b ++ d) 65536 = slice_to b 65536).
    { unfold slice_to. rewrite firstn_app.
      replace (Z.to_nat 65536 - length b)%nat with 0%nat by lia.
      rewrite firstn_0. apply app_nil_r. }
    assert (Hfrom : slice_from (b ++ d) 65536 = slice_from b 65536 ++ d).
    { unfold slice_from. rewrite skipn_app.
      replace (Z.to_nat 65536 - length b)%nat with 0%nat by lia. reflexivity. }
    rewrite Hto, Hfrom.
    assert (Hlen : (length (slice_from b 65536) <= fuel)%nat).
    { unfold slice_from. rewrite length_skipn. lia. }
    rewrite (full_chunks_fuel n (length (slice_from b 65536 ++ d)) (slice_from b 65536 ++ d)).
    2:{ rewrite <- Hfrom. unfold slice_from. rewrite length_skipn. rewrite En. lia. }
    2:{ lia. }
    rewrite (IH _ Hlen). reflexivity.
Qed.

Section WritePieces.
Context (zlib : Zlib) (compresslevel : Z).

Lemma write_buffered self handle buffer data :
  writer_state self handle buffer compresslevel ->
  closed handle = false -> at_end handle ->
  Forall (encodable zlib compresslevel)
    (fst (full_chunks (length (buffer ++ data)) (buffer ++ data))) ->
  exists self' handle',
    BgzfWriter.write zlib data self = Ok tt self' /\
    writer_state self' handle'
      (snd (full_chunks (length (buffer ++ data)) (buffer ++ data))) compresslevel /\
    closed handle' = false /\ at_end handle' /\
    content handle'
    = content handle
        ++ concat (List.map (frame zlib compresslevel)
                     (fst (full_chunks (length (buffer ++ data)) (buffer ++ data)))).
Proof.
  intros Hw Hc He Henc. pose proof Hw as (Hh & Hb & Hlv).
  unfold BgzfWriter.write. cbv zeta.
  rewrite (bind_Ok _ _ _ _ _ (get_str_Ok _ _ _ Hb)).
  apply (writer_state_buffer _ _ _ (buffer ++ data)) in Hw.
  rewrite <- len_app.
  destruct (Z.ltb_spec (len (buffer ++ data)) 65536) as [Hlt|Hge].
  - exists (<["_buffer" := VStr (buffer ++ data)]> self), handle.
    rewrite (full_chunks_small _ _ Hlt). simpl. rewrite app_nil_r. auto.
  - unfold setattr at 1.
    rewrite (bind_Ok _ _ _ tt (<["_buffer" := VStr (buffer ++ data)]> self)) by reflexivity.
    apply (drain_65536 zlib compresslevel _ _ _ _ Hw Hc He (Nat.le_refl _) Henc).
Qed.

Lemma write_each_buffered lines : forall self handle buffer,
  writer_state self handle buffer compresslevel ->
  closed handle = false -> at_end handle ->
  len buffer < 65536 ->
  Forall (encodable zlib compresslevel)
    (fst (full_chunks (length (buffer ++ concat lines)) (buffer ++ concat lines))) ->
  exists self' handle',
    write_each zlib lines self = Ok tt self' /\
    writer_state self' handle'
      (snd (full_chunks (length (buffer ++ concat lines)) (buffer ++ concat lines)))
      compresslevel /\
    closed handle' = false /\ at_end handle' /\
    content handle'
    = content handle
        ++ concat (List.map (frame zlib compresslevel)
                     (fst (full_chunks (length (buffer ++ concat lines))
                             (buffer ++ concat lines)))).
Proof.
  induction lines as [|data lines IH]; intros self handle buffer Hw Hc He Hlt Henc.
  - exists self, handle. cbn [concat] in *. rewrite app_nil_r in *.
    rewrite (full_chunks_small _ _ Hlt). simpl. rewrite app_nil_r. auto.
  - cbn [concat write_each] in *. rewrite app_assoc in Henc |- *.
    rewrite (full_chunks_app (concat lines) (length (buffer ++ data)) (buffer ++ data)
               (Nat.le_refl _)) in Henc |- *.
    cbn [fst snd] in Henc |- *. apply Forall_app in Henc as (Henc1 & Henc2).
    destruct (write_buffered self handle buffer data Hw Hc He Henc1)
      as (self1 & handle1 & Hrun & Hw1 & Hc1 & He1 & Hk1).
    rewrite (bind_Ok _ _ _ _ _ Hrun).
    destruct (IH self1 handle1 _ Hw1 Hc1 He1
                (full_chunks_rest _ _ (Nat.le_refl _)) Henc2)
      as (self2 & handle2 & Hrun2 & Hw2 & Hc2 & He2 & Hk2).
    exists self2, handle2. split; [exact Hrun2|]. split; [exact Hw2|].
    split; [exact Hc2|]. split; [exact He2|].
    rewrite Hk2, Hk1, <- app_assoc, map_app, concat_app. reflexivity.
Qed.

End WritePieces.

Lemma at_end_eq (f g : file) :
  closed f = false -> closed g = false -> at_end f -> at_end g ->
  content f = content g -> f = g.
Proof.
  destruct f as [c p k], g as [c' p' k']. unfold at_end. simpl.
  intros -> -> -> -> ->. reflexivity.
Qed.

(** X22: writing a string in two pieces is writing it at once. From a
    writer with fewer than 65536 bytes pending, [write(a)] and then
    [write(b)] leave the same bytes in the file and the same pending buffer
    as [write(a + b)]: the blocks do not depend on how the data was cut into
    calls. *)
Theorem write_in_pieces (zlib : Zlib) (compresslevel : Z) (self : obj) (handle : file)
    (buffer a b : bytes) :
  writer_state self handle buffer compresslevel ->
  closed handle = false -> at_end handle ->
  len buffer < 65536 ->
  Forall (encodable zlib compresslevel)
    (fst (full_chunks (length (buffer ++ a ++ b)) (buffer ++ a ++ b))) ->
  exists self1 self2 handle' buffer',
    (BgzfWriter.write zlib a ;; BgzfWriter.write zlib b) self = Ok tt self1 /\
    BgzfWriter.write zlib (a ++ b) self = Ok tt self2 /\
    writer_state self1 handle' buffer' compresslevel /\
    writer_state self2 handle' buffer' compresslevel.
Proof.
  intros Hw Hc He Hlt Henc.
  destruct (write_buffered zlib compresslevel self handle buffer (a ++ b) Hw Hc He Henc)
    as (self2 & handle2 & Hrun2 & Hw2 & Hc2 & He2 & Hk2).
  assert (Henc' : Forall (encodable zlib compresslevel)
                    (fst (full_chunks (length (buffer ++ concat [a; b]))
                            (buffer ++ concat [a; b])))).
  { cbn [concat]. rewrite app_nil_r. exact Henc. }
  destruct (write_each_buffered zlib compresslevel [a; b] self handle buffer Hw Hc He Hlt Henc')
    as (self1 & handle1 & Hrun1 & Hw1 & Hc1 & He1 & Hk1).
  cbn [concat] in Hw1, Hk1. rewrite app_nil_r in Hw1, Hk1.
  assert (handle1 = handle2) as -> by (apply at_end_eq; congruence).
  exists self1, self2, handle2,
    (snd (full_chunks (length (buffer ++ a ++ b)) (buffer ++ a ++ b))).
  split; [|split; [exact Hrun2 | split; [exact Hw1 | exact Hw2]]].
  cbn [write_each] in Hrun1. revert Hrun1. unfold bind.
  destruct (BgzfWriter.write zlib a self) as [u s1| |]; try discriminate.
  destruct (BgzfWriter.write zlib b s1) as [u2 s2| |]; try discriminate.
  destruct u2. intros E. exact E.
Qed.

Lemma write_in_pieces_witness :
  exists self1 self2 handle' buffer',
    (BgzfWriter.write RefZlib.lib abc ;; BgzfWriter.write RefZlib.lib abc)
      (writer_on File.empty 6) = Ok tt self1 /\
    BgzfWriter.write RefZlib.lib (abc ++ abc) (writer_on File.empty 6) = Ok tt self2 /\
    writer_state self1 handle' buffer' 6 /\
    writer_state self2 handle' buffer' 6.
Proof.
  apply (write_in_pieces RefZlib.lib 6 (writer_on File.empty 6) File.empty [] abc abc).
  - apply writer_on_state.
  - reflexivity.
  - reflexivity.
  - vm_compute. reflexivity.
  - simpl. constructor.
Defined.

(** ** Flushing and closing *)

(** X23: on a writer with fewer than 65536 bytes pending, as [write]
    leaves it, [flush] appends exactly one block, the block of the pending
    bytes, and empties the buffer; flushing again appends the block of the
    empty string. *)
Theorem flush_appends_one_block (zlib : Zlib) (compresslevel : Z) (self : obj)
    (handle : file) (buffer : bytes) :
  writer_state self handle buffer compresslevel ->
  closed handle = false -> at_end handle ->
  len buffer < 65536 ->
  encodable zlib compresslevel buffer ->
  encodable zlib compresslevel [] ->
  exists self1 handle1 self2 handle2,
    BgzfWriter.flush zlib self = Ok tt self1 /\
    writer_state self1 handle1 [] compresslevel /\
    content handle1 = content handle ++ frame zlib compresslevel buffer /\
    BgzfWriter.flush zlib self1 = Ok tt self2 /\
    writer_state self2 handle2 [] compresslevel /\
    content handle2 = content handle1 ++ frame zlib compresslevel [].
Proof.
  intros Hw Hc He Hlt Henc Hempty.
  destruct (flush_small zlib compresslevel self handle buffer Hw Hc He Hlt Henc)
    as (self1 & handle1 & Hf1 & Hw1 & Hc1 & He1 & Hk1).
  destruct (flush_small zlib compresslevel self1 handle1 [] Hw1 Hc1 He1
              ltac:(change (len (@nil byte)) with 0; lia) Hempty)
    as (self2 & handle2 & Hf2 & Hw2 & Hc2 & He2 & Hk2).
  exists self1, handle1, self2, handle2. auto 10.
Qed.

Lemma flush_appends_one_block_witness :
  exists self1 handle1 self2 handle2,
    BgzfWriter.flush RefZlib.lib (<["_buffer" := VStr abc]> (writer_on File.empty 6))
      = Ok tt self1 /\
    writer_state self1 handle1 [] 6 /\
    content handle1 = content File.empty ++ frame RefZlib.lib 6 abc /\
    BgzfWriter.flush RefZlib.lib self1 = Ok tt self2 /\
    writer_state self2 handle2 [] 6 /\
    content handle2 = content handle1 ++ frame RefZlib.lib 6 [].
Proof.
  apply (flush_appends_one_block RefZlib.lib 6
           (<["_buffer" := VStr abc]> (writer_on File.empty 6)) File.empty abc).
  - apply writer_state_buffer with (buffer := []). apply writer_on_state.
  - reflexivity.
  - reflexivity.
  - vm_compute. reflexivity.
  - apply encodableb_true. vm_compute. reflexivity.
  - apply encodableb_true. vm_compute. reflexivity.
Defined.

(** X24: [close] on a writer with nothing pending writes no block, so no
    end-of-file marker either: it only closes the file object. On the closed
    writer [flush] raises [ValueError], while [write] of fewer than 65536
    bytes still returns, keeping the bytes in the buffer. *)
Theorem close_with_empty_buffer (zlib : Zlib) (compresslevel : Z) (self : obj)
    (handle : file) :
  writer_state self handle [] compresslevel ->
  exists self',
    BgzfWriter.close zlib self = Ok tt self' /\
    writer_state self' (closed_file handle) [] compresslevel /\
    exception (BgzfWriter.flush zlib self') = Some (ValueError File.closed_msg) /\
    (forall data, len data < 65536 ->
       exists self'',
         BgzfWriter.write zlib data self' = Ok tt self'' /\
         writer_state self'' (closed_file handle) data compresslevel).
Proof.
  intros Hw. pose proof Hw as (Hh & Hb & Hlv).
  exists (<["_handle" := VFile (closed_file handle)]> self).
  pose proof (writer_state_handle _ _ (closed_file handle) _ _ Hw) as Hw'.
  pose proof Hw' as (Hh' & Hb' & Hlv').
  split; [|split; [exact Hw'|split]].
  - unfold BgzfWriter.close.
    rewrite (bind_Ok _ _ _ _ _ (get_str_Ok _ _ _ Hb)).
    destruct (decide (@nil byte = [])) as [_|E]; [|congruence].
    rewrite (bind_Ok _ _ _ tt self) by reflexivity.
    apply (on_file_Ok _ _ _ _ _ _ Hh). reflexivity.
  - unfold BgzfWriter.flush.
    rewrite (bind_Ok _ _ _ _ _ (get_str_Ok _ _ _ Hb')).
    rewrite (bind_Ok _ _ _ tt (<["_handle" := VFile (closed_file handle)]> self)).
    2:{ cbn [length BgzfWriter.drain]. rewrite (bind_Ok _ _ _ _ _ (get_str_Ok _ _ _ Hb')).
        reflexivity. }
    rewrite (bind_Ok _ _ _ _ _ (get_str_Ok _ _ _ Hb')).
    apply exception_bind. unfold BgzfWriter._write_block. apply exception_bind.
    unfold on_file. rewrite Hh'. reflexivity.
  - intros data Hd. exists (<["_buffer" := VStr data]> (<["_handle" := VFile (closed_file handle)]> self)).
    split; [|apply writer_state_buffer with (buffer := []); exact Hw'].
    unfold BgzfWriter.write. cbv zeta.
    rewrite (bind_Ok _ _ _ _ _ (get_str_Ok _ _ _ Hb')).
    change (len (@nil byte)) with 0. rewrite Z.add_0_l.
    destruct (Z.ltb_spec (len data) 65536); [reflexivity | lia].
Qed.

Lemma close_with_empty_buffer_witness :
  exists self',
    BgzfWriter.close RefZlib.lib (writer_on File.empty 6) = Ok tt self' /\
    writer_state self' (closed_file File.empty) [] 6 /\
    exception (BgzfWriter.flush RefZlib.lib self') = Some (ValueError File.closed_msg) /\
    (forall data, len data < 65536 ->
       exists self'',
         BgzfWriter.write RefZlib.lib data self' = Ok tt self'' /\
         writer_state self'' (closed_file File.empty) data 6).
Proof.
  apply (close_with_empty_buffer RefZlib.lib 6 (writer_on File.empty 6) File.empty).
  apply writer_on_state.
Defined.

(** ** Constructors and [bgzf_open] *)

(** X25: without a file object the constructors need a mode: with the
    default [mode=None] both raise [AttributeError], whatever the file name;
    and a file object given together with a file name or a mode makes both
    raise [AssertionError]. In neither case is a file opened. *)
Theorem constructors_check_arguments (zlib : Zlib)
    (builtin_open : string -> string -> res file)
    (filename mode : option string) (fileobj : file) (compresslevel : Z) :
  BgzfReader.__init__ zlib builtin_open filename None None ∅
    = Raise (AttributeError "lower") ∅ /\
  BgzfWriter.__init__ builtin_open filename None None compresslevel ∅
    = Raise (AttributeError "lower") ∅ /\
  (filename <> None \/ mode <> None ->
   BgzfReader.__init__ zlib builtin_open filename mode (Some fileobj) ∅
     = Raise (AssertionError "") ∅ /\
   BgzfWriter.__init__ builtin_open filename mode (Some fileobj) compresslevel ∅
     = Raise (AssertionError "") ∅).
Proof.
  split; [reflexivity|]. split; [reflexivity|]. intros H.
  unfold BgzfReader.__init__, BgzfWriter.__init__.
  destruct filename, mode; try (destruct H; congruence); split; reflexivity.
Qed.

Section OpenProperties.
Context (zlib : Zlib) (builtin_open : string -> string -> res file).

Lemma bgzf_open_reader filename mode :
  mode_has "r" mode = true ->
  bgzf_open zlib builtin_open filename mode
  = (BgzfReader.__init__ zlib builtin_open (Some filename) (Some mode) None ;;
     ret BgzfReader_instance).
Proof. unfold bgzf_open. intros ->. reflexivity. Qed.

Lemma bgzf_open_writer filename mode :
  mode_has "r" mode = false -> mode_has "w" mode || mode_has "a" mode = true ->
  bgzf_open zlib builtin_open filename mode
  = (BgzfWriter.__init__ builtin_open (Some filename) (Some mode) None 6 ;;
     ret BgzfWriter_instance).
Proof. unfold bgzf_open. intros -> ->. reflexivity. Qed.

Lemma reader_init_filename_Ok filename mode handle start size data handle' :
  mode_has "w" mode || mode_has "a" mode = false ->
  builtin_open filename mode = Val handle ->
  _load_bgzf_block zlib handle = Ok (start, size, data) handle' ->
  BgzfReader.__init__ zlib builtin_open (Some filename) (Some mode) None ∅
  = Ok tt (reader_on handle' start size data).
Proof.
  intros Hw Ho Hl. unfold BgzfReader.__init__. rewrite Hw, Ho.
  rewrite (bind_Ok _ _ _ handle ∅) by reflexivity.
  unfold setattr at 1.
  rewrite (bind_Ok _ _ _ tt (<["_handle" := VFile handle]> ∅)) by reflexivity.
  rewrite (_load_block_Ok zlib None _ handle start size data handle');
    [|apply lookup_insert_eq | unfold bind at 1, ret; exact Hl].
  unfold reader_on. rewrite insert_insert_eq. reflexivity.
Qed.

End OpenProperties.

(** X26: [bgzf_open] refuses a mode with r together with w or a
    ([ValueError] from the reader) and a mode with none of r, w and a
    ([ValueError: Bad mode]), opening no file; for a pure read mode or a
    write or append mode without r, an exception of [open] is the exception
    of [bgzf_open]. *)
Theorem bgzf_open_refuses (zlib : Zlib) (builtin_open : string -> string -> res file)
    (filename mode : string) :
  (mode_has "r" mode = true -> mode_has "w" mode || mode_has "a" mode = true ->
   bgzf_open zlib builtin_open filename mode ∅
   = Raise (ValueError "Must use read mode (default), not write or append mode") ∅) /\
  (mode_has "r" mode = false -> mode_has "w" mode || mode_has "a" mode = false ->
   bgzf_open zlib builtin_open filename mode ∅ = Raise (ValueError "Bad mode %r") ∅) /\
  (forall e, builtin_open filename mode = Exc e ->
             mode_has "r" mode = negb (mode_has "w" mode || mode_has "a" mode) ->
             bgzf_open zlib builtin_open filename mode ∅ = Raise e ∅).
Proof.
  split; [|split].
  - intros Hr Hw. rewrite bgzf_open_reader by exact Hr.
    unfold BgzfReader.__init__. rewrite Hw. reflexivity.
  - intros Hr Hw. unfold bgzf_open. rewrite Hr, Hw. reflexivity.
  - intros e He Hm. destruct (mode_has "r" mode) eqn:Hr.
    + rewrite bgzf_open_reader by exact Hr. unfold BgzfReader.__init__.
      destruct (mode_has "w" mode || mode_has "a" mode); [discriminate Hm|].
      rewrite He. reflexivity.
    + destruct (mode_has "w" mode || mode_has "a" mode) eqn:Hw; [|discriminate Hm].
      rewrite bgzf_open_writer by assumption. unfold BgzfWriter.__init__.
      apply orb_true_iff in Hw.
      assert (Hn : negb (mode_has "w" mode) && negb (mode_has "a" mode) = false).
      { destruct Hw as [-> | ->]; [reflexivity | apply andb_false_r]. }
      rewrite Hn, He. reflexivity.
Qed.

(** X27: when [open] gives a file object, [bgzf_open] with a write or
    append mode without r returns a [BgzfWriter] on it with compression
    level 6 and an empty buffer, having written nothing; with a read mode
    without w and a, on a file whose first block the decoder returns, it
    returns a [BgzfReader] with that block loaded. *)
Theorem bgzf_open_returns (zlib : Zlib) (builtin_open : string -> string -> res file)
    (filename mode : string) (handle : file) :
  builtin_open filename mode = Val handle ->
  (mode_has "r" mode = false -> mode_has "w" mode || mode_has "a" mode = true ->
   bgzf_open zlib builtin_open filename mode ∅
   = Ok BgzfWriter_instance (writer_on handle 6)) /\
  (mode_has "r" mode = true -> mode_has "w" mode || mode_has "a" mode = false ->
   forall start size data handle',
     _load_bgzf_block zlib handle = Ok (start, size, data) handle' ->
     bgzf_open zlib builtin_open filename mode ∅
     = Ok BgzfReader_instance (reader_on handle' start size data)).
Proof.
  intros Ho. split.
  - intros Hr Hw. rewrite bgzf_open_writer by assumption. unfold BgzfWriter.__init__.
    apply orb_true_iff in Hw.
    assert (Hn : negb (mode_has "w" mode) && negb (mode_has "a" mode) = false).
    { destruct Hw as [-> | ->]; [reflexivity | apply andb_false_r]. }
    rewrite Hn, Ho. reflexivity.
  - intros Hr Hw start size data handle' Hl. rewrite bgzf_open_reader by exact Hr.
    rewrite (bind_Ok _ _ _ _ _
               (reader_init_filename_Ok zlib builtin_open filename mode handle
                  start size data handle' Hw Ho Hl)).
    reflexivity.
Qed.

Lemma bgzf_open_returns_witness :
  (mode_has "r" "rb" = false -> mode_has "w" "rb" || mode_has "a" "rb" = true ->
   bgzf_open RefZlib.lib (one_file "ex1.bam" (File.of_bytes abc_stream)) "ex1.bam" "rb" ∅
   = Ok BgzfWriter_instance (writer_on (File.of_bytes abc_stream) 6)) /\
  (mode_has "r" "rb" = true -> mode_has "w" "rb" || mode_has "a" "rb" = false ->
   forall start size data handle',
     _load_bgzf_block RefZlib.lib (File.of_bytes abc_stream) = Ok (start, size, data) handle' ->
     bgzf_open RefZlib.lib (one_file "ex1.bam" (File.of_bytes abc_stream)) "ex1.bam" "rb" ∅
     = Ok BgzfReader_instance (reader_on handle' start size data)).
Proof.
  apply (bgzf_open_returns RefZlib.lib (one_file "ex1.bam" (File.of_bytes abc_stream))
           "ex1.bam" "rb" (File.of_bytes abc_stream)).
  reflexivity.
Defined.

(** ** The script *)

Lemma appended_at_end f data : at_end f -> at_end (appended f data).
Proof. unfold at_end, appended. simpl. rewrite length_app. lia. Qed.

Lemma appended_appended f a b : appended (appended f a) b = appended f (a ++ b).
Proof.
  unfold appended. cbn [content pos]. rewrite <- app_assoc, length_app. f_equal. lia.
Qed.

Lemma write_appended data f :
  closed f = false -> at_end f -> File.write data f = Ok tt (appended f data).
Proof. apply write_at_end. Qed.

Lemma print_Ok s sys :
  closed (stdout sys) = false -> at_end (stdout sys) ->
  print s sys = Ok tt (mkStreams (appended (stdout sys) (str s ++ newline)) (stderr sys)).
Proof.
  intros Hc He. unfold print, on_stdout. rewrite (write_appended _ _ Hc He). reflexivity.
Qed.

Lemma on_stderr_write data sys :
  closed (stderr sys) = false -> at_end (stderr sys) ->
  on_stderr (File.write data) sys = Ok tt (mkStreams (stdout sys) (appended (stderr sys) data)).
Proof.
  intros Hc He. unfold on_stderr. rewrite (write_appended _ _ Hc He). reflexivity.
Qed.

Lemma with_w_Ok {A} builtin_open (methods : M obj A) sys a w f :
  methods (writer_on (stdout sys) 6) = Ok a w ->
  w !! "_handle" = Some (VFile f) ->
  with_w builtin_open methods sys = Ok a (mkStreams f (stderr sys)).
Proof.
  intros Hm Hh. unfold with_w. cbv zeta.
  rewrite (bind_Ok _ _ _ tt (writer_on (stdout sys) 6)) by reflexivity.
  rewrite Hm, Hh. reflexivity.
Qed.

Section Script.
Context (zlib : Zlib) (builtin_open : string -> string -> res file).

Lemma close_empty_Ok compresslevel (self : obj) handle :
  writer_state self handle [] compresslevel ->
  BgzfWriter.close zlib self = Ok tt (<["_handle" := VFile (closed_file handle)]> self).
Proof.
  intros (Hh & Hb & _). unfold BgzfWriter.close.
  rewrite (bind_Ok _ _ _ _ _ (get_str_Ok _ _ _ Hb)).
  destruct (decide (@nil byte = [])) as [_|E]; [|congruence].
  rewrite (bind_Ok _ _ _ tt self) by reflexivity.
  apply (on_file_Ok _ _ _ _ _ _ Hh). reflexivity.
Qed.

Lemma script_methods_Ok lines (handle : file) :
  closed handle = false -> at_end handle ->
  Forall (encodable zlib 6) (blocks_of (concat lines)) ->
  encodable zlib 6 [] ->
  exists w handle',
    (write_each zlib lines ;; BgzfWriter.flush zlib ;; BgzfWriter.flush zlib ;;
     BgzfWriter.close zlib) (writer_on handle 6) = Ok tt w /\
    w !! "_handle" = Some (VFile (closed_file handle')) /\
    content handle'
    = content handle
        ++ concat (List.map (frame zlib 6) (blocks_of (concat lines) ++ [[]])).
Proof.
  intros Hc He Henc Hempty. unfold blocks_of in *. cbv zeta in *.
  apply Forall_app in Henc as (Hfull & Hrest). apply Forall_inv in Hrest.
  destruct (write_each_buffered zlib 6 lines (writer_on handle 6) handle []
              (writer_on_state _ _) Hc He ltac:(change (len (@nil byte)) with 0; lia) Hfull)
    as (w1 & h1 & R1 & W1 & C1 & E1 & K1).
  cbn [app] in W1, K1.
  destruct (flush_small zlib 6 w1 h1 _ W1 C1 E1 (full_chunks_rest _ _ (Nat.le_refl _)) Hrest)
    as (w2 & h2 & R2 & W2 & C2 & E2 & K2).
  destruct (flush_small zlib 6 w2 h2 _ W2 C2 E2 ltac:(change (len (@nil byte)) with 0; lia)
              Hempty) as (w3 & h3 & R3 & W3 & C3 & E3 & K3).
  exists (<["_handle" := VFile (closed_file h3)]> w3), h3. split; [|split].
  - rewrite (bind_Ok _ _ _ _ _ R1), (bind_Ok _ _ _ _ _ R2), (bind_Ok _ _ _ _ _ R3).
    apply (close_empty_Ok 6). exact W3.
  - apply lookup_insert_eq.
  - rewrite K3, K2, K1. rewrite !map_app, !concat_app. cbn [List.map concat].
    rewrite !app_nil_r, <- !app_assoc. reflexivity.
Qed.

End Script.

(** X28: run without arguments on open streams, the script writes to
    [sys.stdout] the blocks of the chunks of its input, the lines of
    [sys.stdin] joined, then one more block of the empty string as the
    end-of-file marker, and closes it; decoding these blocks gives the input
    back. The two progress messages go to [sys.stderr]. *)
Theorem main_compresses_stdin (zlib : Zlib) (builtin_open : string -> string -> res file)
    (argv : list string) (stdin : list bytes) (sys : streams) :
  len argv <= 1 ->
  closed (stdout sys) = false -> at_end (stdout sys) ->
  closed (stderr sys) = false -> at_end (stderr sys) ->
  Forall (encodable zlib 6) (blocks_of (concat stdin)) ->
  encodable zlib 6 [] ->
  exists sys' handle',
    __main__ zlib builtin_open argv stdin sys = Ok tt sys' /\
    closed (stdout sys') = true /\
    content (stdout sys')
    = content (stdout sys)
        ++ concat (List.map (frame zlib 6) (blocks_of (concat stdin) ++ [[]])) /\
    decode_all zlib
      (File.of_bytes (concat (List.map (frame zlib 6) (blocks_of (concat stdin) ++ [[]]))))
    = Ok (concat stdin) handle' /\
    content (stderr sys') = content (stderr sys) ++ progress_messages.
Proof.
  intros Ha Hc He Hc2 He2 Henc Hempty.
  destruct (script_methods_Ok zlib stdin (stdout sys) Hc He Henc Hempty)
    as (w & h & Hrun & Hh & Hk).
  assert (Hall : Forall (encodable zlib 6) (blocks_of (concat stdin) ++ [[]])).
  { apply Forall_app. split; [exact Henc | constructor; [exact Hempty | constructor]]. }
  assert (Hsz : Forall (fun x => len x <= 65536) (blocks_of (concat stdin) ++ [[]])).
  { apply Forall_app. split.
    - unfold blocks_of. cbv zeta. apply Forall_app. split; [apply full_chunks_sizes|].
      constructor; [|constructor].
      pose proof (full_chunks_rest (length (concat stdin)) (concat stdin) (Nat.le_refl _)). lia.
    - constructor; [|constructor]. change (len (@nil byte)) with 0. lia. }
  destruct (decode_all_frames zlib 6 _ Hall Hsz) as (h' & Hd).
  rewrite concat_app, blocks_of_concat in Hd. cbn [concat] in Hd. rewrite !app_nil_r in Hd.
  eexists _, h'. split; [|split; [|split; [|split; [exact Hd|]]]].
  - unfold __main__. destruct (Z.gtb_spec (len argv) 1); [lia|].
    rewrite (bind_Ok _ _ _ _ _ (on_stderr_write _ sys Hc2 He2)).
    rewrite (bind_Ok _ _ _ _ _
               (with_w_Ok builtin_open _
                  (mkStreams (stdout sys) (appended (stderr sys) _)) tt w _ Hrun Hh)).
    apply on_stderr_write; [reflexivity | apply appended_at_end; exact He2].
  - reflexivity.
  - cbn [stdout closed_file content]. exact Hk.
  - cbn [stderr appended content]. unfold progress_messages. rewrite <- app_assoc. reflexivity.
Qed.

Lemma main_compresses_stdin_witness :
  exists sys' handle',
    __main__ RefZlib.lib RefZlib.no_open ["bgzf.py"%string] [abc; abc]
      (mkStreams File.empty File.empty) = Ok tt sys' /\
    closed (stdout sys') = true /\
    content (stdout sys')
    = content (stdout (mkStreams File.empty File.empty))
        ++ concat (List.map (frame RefZlib.lib 6) (blocks_of (concat [abc; abc]) ++ [[]])) /\
    decode_all RefZlib.lib
      (File.of_bytes
         (concat (List.map (frame RefZlib.lib 6) (blocks_of (concat [abc; abc]) ++ [[]]))))
    = Ok (concat [abc; abc]) handle' /\
    content (stderr sys')
    = content (stderr (mkStreams File.empty File.empty)) ++ progress_messages.
Proof.
  apply (main_compresses_stdin RefZlib.lib RefZlib.no_open ["bgzf.py"%string] [abc; abc]
           (mkStreams File.empty File.empty)).
  - vm_compute. discriminate.
  - reflexivity.
  - reflexivity.
  - reflexivity.
  - reflexivity.
  - apply encodableb_Forall. vm_compute. reflexivity.
  - apply encodableb_true. vm_compute. reflexivity.
Defined.

(** X29: run with any argument, the script compresses nothing: it prints
    the usage text to [sys.stdout], which stays open, reads no input and
    writes nothing to [sys.stderr]. *)
Theorem main_with_arguments_prints_usage (zlib : Zlib)
    (builtin_open : string -> string -> res file)
    (argv : list string) (stdin : list bytes) (sys : streams) :
  1 < len argv ->
  closed (stdout sys) = false -> at_end (stdout sys) ->
  __main__ zlib builtin_open argv stdin sys
  = Ok tt (mkStreams (appended (stdout sys) usage) (stderr sys)).
Proof.
  intros Ha Hc He. unfold __main__. destruct (Z.gtb_spec (len argv) 1); [|lia].
  assert (Hstep : forall s (k : M streams unit) f err,
             closed f = false -> at_end f ->
             (print s ;; k) (mkStreams f err)
             = k (mkStreams (appended f (str s ++ newline)) err)).
  { intros s k f err Hcf Hef. unfold bind.
    rewrite (print_Ok s (mkStreams f err) Hcf Hef). reflexivity. }
  destruct sys as [out err]. cbn [stdout stderr] in *.
  do 12 (rewrite Hstep; [|reflexivity || assumption | repeat apply appended_at_end; assumption]).
  unfold ret. rewrite !appended_appended. unfold usage. cbn [List.map concat].
  rewrite app_nil_r, <- !app_assoc. reflexivity.
Qed.

Lemma main_with_arguments_prints_usage_witness :
  __main__ RefZlib.lib RefZlib.no_open ["bgzf.py"; "--help"]%string [abc]
    (mkStreams File.empty File.empty)
  = Ok tt (mkStreams (appended (stdout (mkStreams File.empty File.empty)) usage)
             (stderr (mkStreams File.empty File.empty))).
Proof.
  apply (main_with_arguments_prints_usage RefZlib.lib RefZlib.no_open
           ["bgzf.py"; "--help"]%string [abc] (mkStreams File.empty File.empty)).
  - vm_compute. reflexivity.
  - reflexivity.
  - reflexivity.
Defined.

(** ** Loading the next block *)

(** X30: [_load_block()] loads the block that follows the one loaded, and
    so does [_load_block(0)]: a start offset of 0 is not sought, so it does
    not lead back to the first block. After the constructor has loaded the
    first of two blocks, either call loads the second one. *)
Theorem reader_load_block_0_loads_next_block (zlib : Zlib)
    (builtin_open : string -> string -> res file) (compresslevel : Z)
    (first second rest : bytes) :
  encodable zlib compresslevel first -> len first <= 65536 ->
  encodable zlib compresslevel second -> len second <= 65536 ->
  exists self self' handle',
    BgzfReader.__init__ zlib builtin_open None None
      (Some (File.of_bytes (frame zlib compresslevel first
                              ++ frame zlib compresslevel second ++ rest))) ∅ = Ok tt self /\
    BgzfReader._load_block zlib None self = Ok tt self' /\
    BgzfReader._load_block zlib (Some 0) self = Ok tt self' /\
    self' !! "_handle" = Some (VFile handle') /\
    File.remaining handle' = rest /\
    self' !! "_block_start_offset" = Some (VInt (len (frame zlib compresslevel first))) /\
    self' !! "_block_size" = Some (VInt (len (frame zlib compresslevel second))) /\
    self' !! "_buffer" = Some (VStr second) /\
    self' !! "_within_block_offset" = Some (VInt 0).
Proof.
  intros Henc1 Hsz1 Henc2 Hsz2.
  pose proof Henc1 as (c1 & Hz1 & Hs1 & Hd1 & Hcrc1).
  pose proof Henc2 as (c2 & Hz2 & Hs2 & Hd2 & Hcrc2).
  destruct (len_frame zlib compresslevel first Henc1) as (c1' & Hz1' & Hlen1).
  rewrite Hz1 in Hz1'. injection Hz1' as <-.
  destruct (len_frame zlib compresslevel second Henc2) as (c2' & Hz2' & Hlen2).
  rewrite Hz2 in Hz2'. injection Hz2' as <-.
  set (f := File.of_bytes (frame zlib compresslevel first
                             ++ frame zlib compresslevel second ++ rest)).
  assert (Hr : File.remaining f
               = framed c1 (zlib_crc32 zlib first) (len first)
                   ++ frame zlib compresslevel second ++ rest).
  { unfold f, frame at 1. rewrite Hz1. reflexivity. }
  destruct (load_framed zlib f first c1 _ eq_refl Hd1 Hs1 Hcrc1 ltac:(lia) Hr)
    as (f1 & Hl1 & Hc1 & Hr1 & Hk1).
  pose proof (_load_bgzf_block_inv zlib _ _ _ _ _ Hl1) as (_ & _ & _ & _ & _ & Hp1 & _).
  unfold frame at 1 in Hr1. rewrite Hz2 in Hr1.
  destruct (load_framed zlib f1 second c2 _ Hc1 Hd2 Hs2 Hcrc2 ltac:(lia) Hr1)
    as (f2 & Hl2 & Hc2 & Hr2 & Hk2).
  pose proof (reader_init_fileobj_Ok zlib builtin_open f _ _ _ _ Hl1) as Hinit.
  assert (Hh : reader_on f1 (Z.of_nat (pos f)) (12 + 6 + len c1 + 4 + 4) first !! "_handle"
               = Some (VFile f1)).
  { unfold reader_on. rewrite !lookup_insert_ne by done. apply lookup_insert_eq. }
  eexists _, _, f2. split; [exact Hinit|]. split; [|split].
  - apply (_load_block_Ok zlib None _ f1 (Z.of_nat (pos f1)) (12 + 6 + len c2 + 4 + 4)
             second f2 Hh).
    unfold bind at 1, ret. exact Hl2.
  - apply (_load_block_Ok zlib (Some 0) _ f1 (Z.of_nat (pos f1)) (12 + 6 + len c2 + 4 + 4)
             second f2 Hh).
    unfold bind at 1, ret. change (0 =? 0) with true. cbv iota. exact Hl2.
  - rewrite Hlen1, Hlen2.
    assert (Hstart : Z.of_nat (pos f1) = 12 + 6 + len c1 + 4 + 4).
    { rewrite Hp1. unfold f. cbn [pos File.of_bytes]. lia. }
    rewrite Hstart.
    repeat split; simplify_map_eq; try reflexivity; try exact Hr2.
Qed.

Lemma reader_load_block_0_loads_next_block_witness :
  exists self self' handle',
    BgzfReader.__init__ RefZlib.lib RefZlib.no_open None None
      (Some (File.of_bytes (frame RefZlib.lib 6 abc ++ frame RefZlib.lib 6 [] ++ abc))) ∅
      = Ok tt self /\
    BgzfReader._load_block RefZlib.lib None self = Ok tt self' /\
    BgzfReader._load_block RefZlib.lib (Some 0) self = Ok tt self' /\
    self' !! "_handle" = Some (VFile handle') /\
    File.remaining handle' = abc /\
    self' !! "_block_start_offset" = Some (VInt (len (frame RefZlib.lib 6 abc))) /\
    self' !! "_block_size" = Some (VInt (len (frame RefZlib.lib 6 []))) /\
    self' !! "_buffer" = Some (VStr []) /\
    self' !! "_within_block_offset" = Some (VInt 0).
Proof.
  apply (reader_load_block_0_loads_next_block RefZlib.lib RefZlib.no_open 6 abc [] abc).
  - apply encodableb_true. vm_compute. reflexivity.
  - vm_compute. discriminate.
  - apply encodableb_true. vm_compute. reflexivity.
  - vm_compute. discriminate.
Defined.
